(** * Donizo pricing engine: a shallow embedding of the decision core

    The development follows the Python sources under [app/]:
    - [app/config.py]                     -> [Module Config]
    - [app/models.py], [app/database.py]  -> [Module Models], [Module Database]
    - [app/services/embedding_service.py] -> [Module EmbeddingService]
    - [app/services/material_service.py]  -> [Module MaterialService]
    - [app/services/pricing_service.py]   -> [Module PricingService]
    - [app/services/feedback_service.py]  -> [Module FeedbackService]
    - [app/main.py] (the three handlers)   -> [Module Main]

    [Module Spec] holds the vocabulary of the statements and [Module
    Samples] the concrete stores; the properties follow, one module for
    each service.

    Modelling conventions.
    - A Python [float] is an exact rational ([Q]); numeric statements use
      [==] ([Qeq]).  Rounding, overflow and NaN are outside the model; a
      strict inequality is stated away from zero, where the doubles of
      the code do not underflow.
    - A Python [str] is a [string] holding the UTF-8 bytes of the text.
      [len] counts characters.  [lower], [split] and the regular-expression
      classes follow the code on ASCII text ([isascii]); they leave every
      other byte alone, so a statement that depends on them is made for
      ASCII text.
    - [try/except] is an explicit [result]; the SQLAlchemy session is an
      explicit store that a request either commits or rolls back.  The
      flush of a commit fails as PostgreSQL makes it fail: on a string
      that does not fit its column, and on a [str] bound to the [Integer]
      key of a [Feedback] row.
    - Identifiers ([quote_id], [feedback_id]) stand for the canonical text
      of a fresh [uuid4].
    - The embedding model (SentenceTransformer, numpy) is an external
      collaborator: the cosine similarity of a query against a stored
      embedding is a parameter of the development. *)

From Stdlib Require Import QArith Qminmax Lqa Lia String Ascii List Bool ZArith.
From Stdlib Require Import Sorted Permutation DecimalString.
From stdpp Require Import gmap strings.
Import ListNotations.

Local Open Scope string_scope.

(** ** Python built-ins used by the services *)

Module Py.

(** [result] stands for "returns a value or raises". *)
Inductive exn : Type :=
| ValueError (msg : string)
| ValidationError (field : string)
| IndexError
| KeyError (key : string)
| TypeError
| ZeroDivisionError
| DataError (table : string).

Inductive result (A : Type) : Type :=
| Ok (a : A)
| Raise (e : exn).
Arguments Ok {A} a.
Arguments Raise {A} e.

Global Instance result_ret : MRet result := fun A a => Ok a.
Global Instance result_bind : MBind result := fun A B k r =>
  match r with
  | Ok a => k a
  | Raise e => Raise e
  end.

(** [try: body except Exception: handler] *)
Definition try_except {A} (body : result A) (handler : exn -> A) : A :=
  match body with
  | Ok a => a
  | Raise e => handler e
  end.

(** *** Characters and strings *)

Definition is_upper (c : ascii) : bool :=
  let n := nat_of_ascii c in (65 <=? n)%nat && (n <=? 90)%nat.

Definition is_digit (c : ascii) : bool :=
  let n := nat_of_ascii c in (48 <=? n)%nat && (n <=? 57)%nat.

Definition is_alpha (c : ascii) : bool :=
  let n := nat_of_ascii c in
  ((65 <=? n)%nat && (n <=? 90)%nat) || ((97 <=? n)%nat && (n <=? 122)%nat).

(** [str.isspace] on the ASCII range: TAB, LF, VT, FF, CR, FS, GS, RS, US
    and the space. *)
Definition is_space (c : ascii) : bool :=
  let n := nat_of_ascii c in
  ((9 <=? n)%nat && (n <=? 13)%nat) || ((28 <=? n)%nat && (n <=? 32)%nat).

(** [\w] on ASCII text: letters, digits, underscore.  A byte above the
    ASCII range is kept, as the bytes of an encoded letter are; the code
    drops a character that is neither letter nor digit (a currency
    sign), so statements about the kept characters are made for ASCII
    text. *)
Definition is_word (c : ascii) : bool :=
  let n := nat_of_ascii c in
  is_alpha c || is_digit c || (n =? 95)%nat || (128 <=? n)%nat.

Definition lower_char (c : ascii) : ascii :=
  if is_upper c then ascii_of_nat (nat_of_ascii c + 32) else c.

(** [s.lower()], on the ASCII letters *)
Fixpoint lower (s : string) : string :=
  match s with
  | EmptyString => EmptyString
  | String c s' => String (lower_char c) (lower s')
  end.

(** [s.startswith(p)] *)
Fixpoint startswith (p s : string) : bool :=
  match p, s with
  | EmptyString, _ => true
  | String a p', String b s' => Ascii.eqb a b && startswith p' s'
  | String _ _, EmptyString => false
  end.

(** [sub in s] *)
Fixpoint contains (sub s : string) : bool :=
  startswith sub s ||
  match s with
  | EmptyString => false
  | String _ s' => contains sub s'
  end.

(** [s.replace(old, new)] for a non-empty [old]: every non-overlapping
    occurrence, left to right.  [skip] counts the characters of an
    occurrence that has just been replaced and are still to be dropped. *)
Fixpoint replace_from (skip : nat) (old new s : string) : string :=
  match s with
  | EmptyString => EmptyString
  | String c s' =>
      match skip with
      | S k => replace_from k old new s'
      | O =>
          if startswith old s
          then new ++ replace_from (String.length old - 1) old new s'
          else String c (replace_from 0 old new s')
      end
  end.

Definition replace (old new s : string) : string := replace_from 0 old new s.

(** [s.split()]: split on runs of whitespace, no empty words.  [cur] is
    the word being read, in reverse. *)
Fixpoint split_from (cur : list ascii) (s : string) : list string :=
  let flush (rest : list string) :=
    match cur with
    | [] => rest
    | _ => string_of_list_ascii (rev cur) :: rest
    end in
  match s with
  | EmptyString => flush []
  | String c s' =>
      if is_space c then flush (split_from [] s')
      else split_from (c :: cur) s'
  end.

Definition split (s : string) : list string := split_from [] s.

(** [sep.join(l)] *)
Fixpoint join (sep : string) (l : list string) : string :=
  match l with
  | [] => ""
  | [x] => x
  | x :: l' => x ++ sep ++ join sep l'
  end.

(** [filter] on the characters of a string, as [re.sub(r'[^...]', '', s)]. *)
Fixpoint keep_chars (p : ascii -> bool) (s : string) : string :=
  match s with
  | EmptyString => EmptyString
  | String c s' => if p c then String c (keep_chars p s') else keep_chars p s'
  end.

(** [any(p(x) for x in l)] is [existsb p l]; [x in l] for a list or a set
    of strings: *)
Definition mem (x : string) (l : list string) : bool :=
  existsb (String.eqb x) l.

(** [re.findall(r'\d+', s)[0]] read as a natural number: the first maximal
    run of ASCII decimal digits; [IndexError] when there is none. *)
Fixpoint read_digits (acc : nat) (s : string) : nat :=
  match s with
  | String c s' =>
      if is_digit c then read_digits (10 * acc + (nat_of_ascii c - 48)) s'
      else acc
  | EmptyString => acc
  end.

Fixpoint first_number (s : string) : result nat :=
  match s with
  | EmptyString => Raise IndexError
  | String c s' =>
      if is_digit c then Ok (read_digits 0 s) else first_number s'
  end.

(** *** Floats *)

(** [min(a, b)] and [max(a, b)] return the first argument unless the second
    is strictly smaller (larger). *)
Definition min (a b : Q) : Q := if Qlt_le_dec b a then b else a.
Definition max (a b : Q) : Q := if Qlt_le_dec a b then b else a.

(** [sum(l)] starts from 0 and adds left to right. *)
Definition sum (l : list Q) : Q := fold_left Qplus l 0%Q.

(** [float(n)] of a natural number. *)
Definition float (n : nat) : Q := inject_Z (Z.of_nat n).

(** *** Sorting *)

(** [l.sort(key=k, reverse=True)] is stable: elements with equal keys keep
    their order.  A stable sort has one possible result, computed here by
    insertion; [lt x y] reads "the key of [x] is smaller than that of [y]". *)
Fixpoint insert_desc {A} (lt : A -> A -> bool) (x : A) (l : list A) : list A :=
  match l with
  | [] => [x]
  | y :: l' => if lt x y then y :: insert_desc lt x l' else x :: y :: l'
  end.

Definition sort_reverse {A} (lt : A -> A -> bool) (l : list A) : list A :=
  fold_right (insert_desc lt) [] l.

(** *** Trimming *)

(** [s.lstrip()], [s.rstrip()] and [s.strip()] *)
Fixpoint lstrip (s : string) : string :=
  match s with
  | EmptyString => EmptyString
  | String c s' => if is_space c then lstrip s' else s
  end.

Definition reverse (s : string) : string :=
  string_of_list_ascii (rev (list_ascii_of_string s)).

Definition rstrip (s : string) : string := reverse (lstrip (reverse s)).

Definition strip (s : string) : string := rstrip (lstrip s).

(** *** Characters and bytes *)

(** [len(s)] counts characters.  A string of the model holds the UTF-8
    bytes of the text, and every character has one byte that is not a
    continuation byte (10xxxxxx). *)
Definition is_continuation (c : ascii) : bool :=
  let n := nat_of_ascii c in (128 <=? n)%nat && (n <? 192)%nat.

Fixpoint len (s : string) : nat :=
  match s with
  | EmptyString => 0
  | String c s' => if is_continuation c then len s' else S (len s')
  end.

(** [s.isascii()] *)
Fixpoint isascii (s : string) : bool :=
  match s with
  | EmptyString => true
  | String c s' => (nat_of_ascii c <? 128)%nat && isascii s'
  end.

End Py.

Import Py.

(** Boolean tests on floats. *)
Definition Qleb (a b : Q) : bool := Qle_bool a b.
Definition Qltb (a b : Q) : bool := negb (Qle_bool b a).
Definition in_unit (x : Q) : bool := Qleb 0 x && Qleb x 1.

(** ** app/config.py *)

Module Config.

Record Settings : Type := {
  vector_dimensions : nat;
  base_margin : Q;
  vat_renovation : Q;
  vat_new_build : Q;
  regional_multipliers : gmap string Q;
  confidence_weights : gmap string Q;
  default_labor_rates : gmap string Q;
  material_categories : list (string * list string)
}.

(** The values of [class Settings]; a region name is the byte string of
    its UTF-8 encoding. *)
Definition settings : Settings := {|
  vector_dimensions := 768;
  base_margin := 25 # 100;
  vat_renovation := 10 # 100;
  vat_new_build := 20 # 100;
  regional_multipliers :=
    list_to_map [
      ("Île-de-France", 115 # 100);
      ("Provence-Alpes-Côte d'Azur", 110 # 100);
      ("Auvergne-Rhône-Alpes", 105 # 100);
      ("Occitanie", 100 # 100);
      ("Nouvelle-Aquitaine", 95 # 100);
      ("Hauts-de-France", 90 # 100);
      ("Grand Est", 95 # 100);
      ("Bourgogne-Franche-Comté", 90 # 100);
      ("Centre-Val de Loire", 95 # 100);
      ("Normandie", 90 # 100);
      ("Bretagne", 95 # 100);
      ("Pays de la Loire", 95 # 100);
      ("Corse", 120 # 100)];
  confidence_weights :=
    list_to_map [
      ("semantic_similarity", 40 # 100);
      ("regional_match", 25 # 100);
      ("price_range", 20 # 100);
      ("vendor_reliability", 15 # 100)];
  default_labor_rates :=
    list_to_map [
      ("tiling", 45 # 1);
      ("painting", 35 # 1);
      ("plumbing", 55 # 1);
      ("electrical", 50 # 1);
      ("carpentry", 40 # 1);
      ("general", 40 # 1)];
  material_categories := [
      ("tiles", ["tile"; "carrelage"; "ceramic"; "porcelain"; "mosaic"]);
      ("adhesives", ["glue"; "adhesive"; "mortar"; "colle"; "ciment"]);
      ("paints", ["paint"; "peinture"; "primer"; "undercoat"]);
      ("plumbing", ["pipe"; "fitting"; "valve"; "tuyau"; "robinet"]);
      ("electrical", ["wire"; "cable"; "switch"; "outlet"; "fil"; "prise"]);
      ("wood", ["wood"; "timber"; "board"; "bois"; "planche"])]
|}.

(** [d[key]]: [KeyError] when the key is missing. *)
Definition getitem (d : gmap string Q) (key : string) : result Q :=
  match d !! key with
  | Some v => Ok v
  | None => Raise (KeyError key)
  end.

(** [d.get(key, dflt)] *)
Definition get (d : gmap string Q) (key : string) (dflt : Q) : Q :=
  default dflt (d !! key).

End Config.

(** ** app/models.py: enumerations and validated response models *)

Module Models.

Inductive UserType := CONTRACTOR | CLIENT | ARCHITECT.
Inductive VerdictType :=
  ACCEPTED | REJECTED | OVERPRICED | UNDERPRICED | MODIFIED.
Inductive ConfidenceTier := HIGH | MEDIUM | LOW.

Definition UserType_value (u : UserType) : string :=
  match u with
  | CONTRACTOR => "contractor"
  | CLIENT => "client"
  | ARCHITECT => "architect"
  end.

Definition VerdictType_value (v : VerdictType) : string :=
  match v with
  | ACCEPTED => "accepted"
  | REJECTED => "rejected"
  | OVERPRICED => "overpriced"
  | UNDERPRICED => "underpriced"
  | MODIFIED => "modified"
  end.

Global Instance VerdictType_eq_dec : EqDecision VerdictType.
Proof. solve_decision. Defined.

(** A pydantic constructor checks its [Field] bounds and raises on the
    first field that violates them. *)
Definition check (field : string) (b : bool) : result unit :=
  if b then Ok tt else Raise (ValidationError field).

Module MaterialPriceResponse.
Record t : Type := {
  material_name : string;
  description : string;
  unit_price : Q;
  unit : string;
  region : string;
  similarity_score : Q;
  confidence_tier : ConfidenceTier;
  updated_at : Z;
  source : string;
  vendor : option string;
  quality_score : option Z
}.

Definition make (r : t) : result t :=
  check "unit_price" (Qleb 0 (unit_price r));;
  check "similarity_score" (in_unit (similarity_score r));;
  check "quality_score"
         match quality_score r with
         | None => true
         | Some q => (1 <=? q)%Z && (q <=? 10)%Z
         end;;
  Ok r.
End MaterialPriceResponse.

Module MaterialItem.
Record t : Type := {
  material_name : string;
  quantity : Q;
  unit : string;
  unit_price : Q;
  total_price : Q;
  confidence_score : Q
}.

Definition make (r : t) : result t :=
  check "quantity" (Qltb 0 (quantity r));;
  check "unit_price" (Qleb 0 (unit_price r));;
  check "total_price" (Qleb 0 (total_price r));;
  check "confidence_score" (in_unit (confidence_score r));;
  Ok r.
End MaterialItem.

Module Task.
Record t : Type := {
  label : string;
  materials : list MaterialItem.t;
  estimated_duration : string;
  margin_protected_price : Q;
  confidence_score : Q;
  labor_cost : option Q
}.

Definition make (r : t) : result t :=
  check "margin_protected_price" (Qleb 0 (margin_protected_price r));;
  check "confidence_score" (in_unit (confidence_score r));;
  check "labor_cost"
         match labor_cost r with
         | None => true
         | Some c => Qleb 0 c
         end;;
  Ok r.
End Task.

Module GenerateProposalResponse.
Record t : Type := {
  quote_id : string;
  transcript : string;
  tasks : list Task.t;
  total_estimate : Q;
  confidence_score : Q;
  vat_rate : Q;
  margin_percentage : Q;
  created_at : Z;
  region : option string;
  project_type : option string
}.

(** [quote_id] is [str(uuid.uuid4())], which the UUID validator accepts. *)
Definition make (r : t) : result t :=
  check "total_estimate" (Qleb 0 (total_estimate r));;
  check "confidence_score" (in_unit (confidence_score r));;
  check "vat_rate" (in_unit (vat_rate r));;
  check "margin_percentage" (Qleb 0 (margin_percentage r));;
  Ok r.
End GenerateProposalResponse.

Module FeedbackResponse.
Record t : Type := {
  feedback_id : string;
  quote_id : string;
  user_type : UserType;
  verdict : VerdictType;
  comment : option string;
  processed_at : Z;
  impact_score : Q;
  learning_insights : list string
}.

Definition make (r : t) : result t :=
  check "impact_score" (in_unit (impact_score r));;
  Ok r.
End FeedbackResponse.

End Models.

(** ** app/database.py: rows and the store *)

Module Database.

Module Material.
Record t : Type := {
  id : Z;
  material_name : string;
  description : string;
  unit_price : Q;
  unit : string;
  region : string;
  vendor : option string;
  quality_score : option Z;
  embedding : option string;
  source_url : option string;
  updated_at : Z
}.
End Material.

Module Quote.
Record t : Type := {
  id : string;
  transcript : string;
  total_estimate : Q;
  confidence_score : Q;
  user_type : string;
  region : option string;
  project_type : option string
}.
End Quote.

Module Feedback.
Record t : Type := {
  id : string;
  quote_id : string;
  user_type : string;
  verdict : string;
  comment : option string;
  material_feedback : option (list (string * string));
  pricing_feedback : option (list (string * string));
  impact_score : Q
}.
End Feedback.

Module MaterialUsage.
Record t : Type := {
  quote_id : string;
  material_id : Z;
  quantity : Q;
  unit_price : Q;
  total_price : Q;
  confidence_score : Q
}.
End MaterialUsage.

Module TaskDB.
Record t : Type := {
  quote_id : string;
  label : string;
  estimated_duration : string;
  margin_protected_price : Q;
  confidence_score : Q;
  labor_cost : option Q
}.
End TaskDB.

Module VendorReliability.
Record t : Type := {
  vendor_name : string;
  reliability_score : Q;
  total_quotes : Z;
  accepted_quotes : Z;
  updated_at : Z
}.

(** [VendorReliability(vendor_name=v)] with the column defaults. *)
Definition new (v : string) (now : Z) : t := {|
  vendor_name := v;
  reliability_score := 5 # 10;
  total_quotes := 0;
  accepted_quotes := 0;
  updated_at := now
|}.
End VendorReliability.

(** The tables.  [vendor_reliability] is keyed by its unique
    [vendor_name]; the other tables keep their rows in storage order. *)
Record Store : Type := {
  materials : list Material.t;
  quotes : list Quote.t;
  tasks : list TaskDB.t;
  material_usage : list MaterialUsage.t;
  feedback : list Feedback.t;
  vendor_reliability : gmap string VendorReliability.t
}.

Definition add_quote (q : Quote.t) (db : Store) : Store :=
  {| materials := materials db; quotes := quotes db ++ [q]; tasks := tasks db;
     material_usage := material_usage db; feedback := feedback db;
     vendor_reliability := vendor_reliability db |}.

Definition add_task (t : TaskDB.t) (db : Store) : Store :=
  {| materials := materials db; quotes := quotes db; tasks := tasks db ++ [t];
     material_usage := material_usage db; feedback := feedback db;
     vendor_reliability := vendor_reliability db |}.

Definition add_material_usage (u : MaterialUsage.t) (db : Store) : Store :=
  {| materials := materials db; quotes := quotes db; tasks := tasks db;
     material_usage := material_usage db ++ [u]; feedback := feedback db;
     vendor_reliability := vendor_reliability db |}.

Definition add_feedback (f : Feedback.t) (db : Store) : Store :=
  {| materials := materials db; quotes := quotes db; tasks := tasks db;
     material_usage := material_usage db; feedback := feedback db ++ [f];
     vendor_reliability := vendor_reliability db |}.

Definition put_vendor_reliability (r : VendorReliability.t) (db : Store)
  : Store :=
  {| materials := materials db; quotes := quotes db; tasks := tasks db;
     material_usage := material_usage db; feedback := feedback db;
     vendor_reliability :=
       <[VendorReliability.vendor_name r := r]> (vendor_reliability db) |}.

(** *** What the flush of [db.commit()] accepts

    PostgreSQL stores no NUL character, and a [String(n)] column holds at
    most [n] characters; the INSERT raises otherwise and the transaction
    is lost.  The precise class of the exception (sqlalchemy's [DataError],
    or the driver's own error for a NUL) is not told apart: [DataError]
    stands for both. *)
Definition text_ok (s : string) : bool :=
  negb (existsb (Ascii.eqb Ascii.zero) (list_ascii_of_string s)).

Definition varchar_ok (n : nat) (s : string) : bool :=
  text_ok s && (Py.len s <=? n)%nat.

Definition nullable (ok : string -> bool) (s : option string) : bool :=
  match s with
  | Some s => ok s
  | None => true
  end.

(** [quotes]: [transcript] is [Text], [user_type] is [String(50)], [region]
    and [project_type] are [String(100)]. *)
Definition quote_ok (q : Quote.t) : bool :=
  text_ok (Quote.transcript q) && varchar_ok 50 (Quote.user_type q)
  && nullable (varchar_ok 100) (Quote.region q)
  && nullable (varchar_ok 100) (Quote.project_type q).

(** [tasks]: [label] is [String(255)], [estimated_duration] is
    [String(100)]. *)
Definition task_ok (t : TaskDB.t) : bool :=
  varchar_ok 255 (TaskDB.label t)
  && varchar_ok 100 (TaskDB.estimated_duration t).

(** [feedback]: [id] is an [Integer] primary key.  The service binds
    [str(uuid.uuid4())] to it, 36 characters with hyphens, which PostgreSQL
    does not read as an integer: no [Feedback] row of the service passes
    the flush. *)
Definition feedback_ok (f : Feedback.t) : bool := false.

(** [db.query(Quote).filter(Quote.id == quote_id).first()] *)
Definition get_quote_by_id (db : Store) (quote_id : string) : option Quote.t :=
  List.find (fun q => String.eqb (Quote.id q) quote_id) (quotes db).

(** [db.query(VendorReliability).filter(vendor_name == v).first()] *)
Definition get_vendor_reliability (db : Store) (v : string)
  : option VendorReliability.t :=
  vendor_reliability db !! v.

(** An [Integer] column holds 32 bits. *)
Definition integer_ok (z : Z) : bool :=
  (-2147483648 <=? z)%Z && (z <=? 2147483647)%Z.

(** [update_vendor_reliability(db, vendor_name, accepted)].  The column
    defaults are filled in by the INSERT: a fresh
    [VendorReliability(vendor_name=...)] holds [None] in [total_quotes],
    and [vendor.total_quotes += 1] raises [TypeError].  An exception leaves
    the function before [db.commit()], or is raised by it: nothing is
    written. *)
Definition update_vendor_reliability
  (db : Store) (vendor_name : string) (accepted : bool) (now : Z)
  : result Store :=
  match get_vendor_reliability db vendor_name with
  | None => Raise TypeError
  | Some vendor =>
      let total := (VendorReliability.total_quotes vendor + 1)%Z in
      let acc :=
        if accepted then (VendorReliability.accepted_quotes vendor + 1)%Z
        else VendorReliability.accepted_quotes vendor in
      if (total =? 0)%Z then Raise ZeroDivisionError
      else if negb (integer_ok total && integer_ok acc)
      then Raise (DataError "vendor_reliability")
      else
        Ok (put_vendor_reliability
              {| VendorReliability.vendor_name :=
                   VendorReliability.vendor_name vendor;
                 VendorReliability.reliability_score :=
                   inject_Z acc / inject_Z total;
                 VendorReliability.total_quotes := total;
                 VendorReliability.accepted_quotes := acc;
                 VendorReliability.updated_at := now |} db)
  end.

(** [get_material_by_id(db, material_id)] *)
Definition get_material_by_id (db : Store) (material_id : Z)
  : option Material.t :=
  List.find (fun m => (Material.id m =? material_id)%Z) (materials db).

(** [get_materials_by_region(db, region, limit)] *)
Definition get_materials_by_region (db : Store) (region : string) (limit : nat)
  : list Material.t :=
  firstn limit
    (List.filter (fun m => String.eqb (Material.region m) region) (materials db)).

(** [get_feedback_by_quote_id(db, quote_id)] *)
Definition get_feedback_by_quote_id (db : Store) (quote_id : string)
  : list Feedback.t :=
  List.filter (fun f => String.eqb (Feedback.quote_id f) quote_id) (feedback db).

End Database.

Import Config Models Database.

(** ** app/services/embedding_service.py: the text heuristics *)

Module EmbeddingService.

(** [preprocess_text]: trim and collapse whitespace ([split] ignores the
    leading and trailing whitespace that [strip] removes), lower-case, and
    drop every character outside [[\w\s\-.,!?]]. *)
Definition keep (c : ascii) : bool :=
  is_word c || is_space c ||
  existsb (Ascii.eqb c) ["-"; "."; ","; "!"; "?"]%char.

Definition preprocess_text (text : string) : string :=
  if String.eqb text "" then ""
  else keep_chars keep (lower (join " " (split text))).

Definition stop_words : list string := [
  "the"; "a"; "an"; "and"; "or"; "but"; "in"; "on"; "at"; "to"; "for";
  "of"; "with"; "by"; "is"; "are"; "was"; "were"; "be"; "been"; "being";
  "have"; "has"; "had"; "do"; "does"; "did"; "will"; "would"; "could";
  "should"; "may"; "might"; "can"; "this"; "that"; "these"; "those"].

(** [Counter(words)]: the counts, in first-seen order. *)
Fixpoint count_up (w : string) (c : list (string * nat))
  : list (string * nat) :=
  match c with
  | [] => [(w, 1)]
  | (w', n) :: c' =>
      if String.eqb w w' then (w', S n) :: c' else (w', n) :: count_up w c'
  end.

Definition Counter (words : list string) : list (string * nat) :=
  fold_left (fun c w => count_up w c) words [].

(** [c.most_common(k)]: by decreasing count, ties in first-seen order. *)
Definition most_common (k : nat) (c : list (string * nat))
  : list (string * nat) :=
  firstn k (sort_reverse (fun a b => (snd a <? snd b)%nat) c).

(** [get_semantic_keywords(text, top_k)] *)
Definition get_semantic_keywords (text : string) (top_k : nat) : list string :=
  let words := split (lower text) in
  let keywords :=
    List.filter
      (fun w => negb (mem w stop_words) && (2 <? Py.len w)%nat) words in
  map fst (most_common top_k (Counter keywords)).

End EmbeddingService.

(** ** app/services/material_service.py *)

Module MaterialService.

(** A candidate with its two scores: the dictionary that
    [search_materials] appends to [ranked_materials]. *)
Record Ranked : Type := {
  material : Material.t;
  similarity_score : Q;
  confidence_score : Q
}.

Definition truthy (o : option string) : bool :=
  match o with
  | Some s => negb (String.eqb s "")
  | None => false
  end.

(** [_text_similarity(query, material_name, description)] *)
Definition overlap (query_words other_words : list string) : Q :=
  match query_words with
  | [] => 0
  | _ =>
      Py.float (length (List.filter (fun w => mem w other_words) query_words))
      / Py.float (length query_words)
  end.

Definition _text_similarity (query material_name description : string) : Q :=
  let query_lower := lower query in
  let name_lower := lower material_name in
  let desc_lower := lower description in
  if contains query_lower name_lower || contains query_lower desc_lower
  then 9 # 10
  else
    let query_words := remove_dups (split query_lower) in
    let name_words := split name_lower in
    let desc_words := split desc_lower in
    let name_overlap := overlap query_words name_words in
    let desc_overlap := overlap query_words desc_words in
    (Py.max name_overlap desc_overlap * (7 # 10))%Q.

(** [_validate_price_range(unit_price)] *)
Definition _validate_price_range (unit_price : Q) : Q :=
  if Qleb (1 # 10) unit_price && Qleb unit_price 1000 then 1
  else if Qleb (1 # 100) unit_price && Qleb unit_price 10000 then 7 # 10
  else 3 # 10.

(** [_get_vendor_reliability(vendor)] *)
Definition reliable_vendors : list (string * Q) := [
  ("leroy merlin", 9 # 10);
  ("castorama", 85 # 100);
  ("brico depot", 8 # 10);
  ("weldom", 75 # 100)].

Definition _get_vendor_reliability (vendor : option string) : Q :=
  if truthy vendor then
    let vendor_lower := lower (default "" vendor) in
    match
      List.find (fun kv => contains (fst kv) vendor_lower) reliable_vendors
    with
    | Some kv => snd kv
    | None => 5 # 10
    end
  else 5 # 10.

(** [_get_confidence_tier(confidence_score)] *)
Definition _get_confidence_tier (confidence_score : Q) : ConfidenceTier :=
  if Qleb (8 # 10) confidence_score then HIGH
  else if Qleb (6 # 10) confidence_score then MEDIUM
  else LOW.

(** The regional sub-score before weighting; the comparison ignores the
    case of ASCII letters. *)
Definition regional_match (region : option string) (material_region : string)
  : Q :=
  if truthy region && negb (String.eqb material_region "") then
    let r := lower (default "" region) in
    let mr := lower material_region in
    if String.eqb r mr then 1
    else if contains r mr || contains mr r then 7 # 10
    else 0
  else 0.

(** [_calculate_confidence_score(material, similarity_score, region)] *)
Definition _calculate_confidence_score
  (weights : gmap string Q) (material : Material.t) (similarity_score : Q)
  (region : option string) : Q :=
  try_except
    (w_sem ← getitem weights "semantic_similarity";
     let semantic_score := (similarity_score * w_sem)%Q in
     let regional_score := regional_match region (Material.region material) in
     w_reg ← getitem weights "regional_match";
     let regional_score := (regional_score * w_reg)%Q in
     let price_score := _validate_price_range (Material.unit_price material) in
     w_price ← getitem weights "price_range";
     let price_score := (price_score * w_price)%Q in
     let vendor_score := _get_vendor_reliability (Material.vendor material) in
     w_vendor ← getitem weights "vendor_reliability";
     let vendor_score := (vendor_score * w_vendor)%Q in
     let total_confidence :=
       (semantic_score + regional_score + price_score + vendor_score)%Q in
     Ok (Py.max 0 (Py.min 1 total_confidence)))
    (fun _ => 0%Q).

Section Search.

(** [embedding_similarity query stored] is
    [_cosine_similarity(get_embedding(query), json.loads(stored))]; it
    raises when the stored text is not a JSON vector. *)
Variable embedding_similarity : string -> string -> result Q.
Variable settings : Settings.

(** [_calculate_similarity_score(query_embedding, material, query)] *)
Definition _calculate_similarity_score (material : Material.t) (query : string)
  : Q :=
  try_except
    (similarity ←
       (if truthy (Material.embedding material)
        then embedding_similarity query
               (default "" (Material.embedding material))
        else Ok (_text_similarity query (Material.material_name material)
                                  (Material.description material)));
     Ok (Py.max 0 (Py.min 1 similarity)))
    (fun _ => 0%Q).

(** The filters that [search_materials] adds to the query. *)
Definition passes
  (region unit : option string) (quality_score : option Z)
  (vendor : option string) (m : Material.t) : bool :=
  (if truthy region
   then String.eqb (Material.region m) (default "" region) else true) &&
  (if truthy unit
   then String.eqb (Material.unit m) (default "" unit) else true) &&
  match quality_score with
  | Some q =>
      if (q =? 0)%Z then true
      else match Material.quality_score m with
           | Some mq => (q <=? mq)%Z
           | None => false
           end
  | None => true
  end &&
  (if truthy vendor
   then match Material.vendor m with
        | Some v => String.eqb v (default "" vendor)
        | None => false
        end
   else true).

(** [db_query.limit(limit * 3).all()] *)
Definition candidates
  (db : Store) (region unit : option string) (quality_score : option Z)
  (vendor : option string) (limit : nat) : list Material.t :=
  firstn (limit * 3)
    (List.filter (passes region unit quality_score vendor) (materials db)).

(** Step 3: the scores of one candidate. *)
Definition score (query : string) (region : option string) (m : Material.t)
  : Ranked :=
  let similarity_score := _calculate_similarity_score m query in
  {| material := m;
     similarity_score := similarity_score;
     confidence_score :=
       _calculate_confidence_score (confidence_weights settings) m
                                   similarity_score region |}.

(** Step 4: [ranked_materials.sort(key=confidence_score, reverse=True)]. *)
Definition rank (l : list Ranked) : list Ranked :=
  sort_reverse (fun a b => Qltb (confidence_score a) (confidence_score b)) l.

(** Step 5: one ranked candidate in response format; the constructor
    validates the fields. *)
Definition response_of (item : Ranked) : MaterialPriceResponse.t :=
  let material := material item in
  {| MaterialPriceResponse.material_name := Material.material_name material;
     MaterialPriceResponse.description := Material.description material;
     MaterialPriceResponse.unit_price := Material.unit_price material;
     MaterialPriceResponse.unit := Material.unit material;
     MaterialPriceResponse.region := Material.region material;
     MaterialPriceResponse.similarity_score := similarity_score item;
     MaterialPriceResponse.confidence_tier :=
       _get_confidence_tier (confidence_score item);
     MaterialPriceResponse.updated_at := Material.updated_at material;
     MaterialPriceResponse.source :=
       (if truthy (Material.source_url material)
        then default "" (Material.source_url material)
        else "Internal database");
     MaterialPriceResponse.vendor := Material.vendor material;
     MaterialPriceResponse.quality_score := Material.quality_score material |}.

Definition to_response (item : Ranked) : result MaterialPriceResponse.t :=
  MaterialPriceResponse.make (response_of item).

(** The ranked candidates that are converted, [ranked_materials[:limit]]. *)
Definition ranked_materials
  (db : Store) (query : string) (region unit : option string)
  (quality_score : option Z) (vendor : option string) (limit : nat)
  : list Ranked :=
  firstn limit
    (rank (map (score query region)
               (candidates db region unit quality_score vendor limit))).

(** [search_materials(query, region, unit, quality_score, vendor, limit, db)].
    [limit] is a natural number: the request model admits 1 to 20 and the
    pricing service passes 3. *)
Definition search_materials
  (db : Store) (query : string) (region unit : option string)
  (quality_score : option Z) (vendor : option string) (limit : nat)
  : result (list MaterialPriceResponse.t) :=
  let materials := candidates db region unit quality_score vendor limit in
  match materials with
  | [] => Ok []
  | _ =>
      mapM to_response
        (firstn limit (rank (map (score query region) materials)))
  end.

End Search.

(** [update_material_embedding(material_id, db)].  [get_embedding_json text]
    is [json.dumps(get_embedding(text))]; [get_embedding] does not raise.
    The row that the query finds is changed in place. *)
Definition with_embedding (m : Material.t) (embedding : string) (now : Z)
  : Material.t :=
  {| Material.id := Material.id m;
     Material.material_name := Material.material_name m;
     Material.description := Material.description m;
     Material.unit_price := Material.unit_price m;
     Material.unit := Material.unit m;
     Material.region := Material.region m;
     Material.vendor := Material.vendor m;
     Material.quality_score := Material.quality_score m;
     Material.embedding := Some embedding;
     Material.source_url := Material.source_url m;
     Material.updated_at := now |}.

Fixpoint update_first
  (material_id : Z) (f : Material.t -> Material.t) (rows : list Material.t)
  : list Material.t :=
  match rows with
  | [] => []
  | m :: rows' =>
      if (Material.id m =? material_id)%Z then f m :: rows'
      else m :: update_first material_id f rows'
  end.

Definition update_material_embedding
  (get_embedding_json : string -> string) (db : Store) (material_id : Z)
  (now : Z) : bool * Store :=
  match get_material_by_id db material_id with
  | None => (false, db)
  | Some material =>
      let text :=
        Material.material_name material ++ " "
        ++ Material.description material in
      let embedding := get_embedding_json text in
      (true,
       {| materials :=
            update_first material_id
              (fun m => with_embedding m embedding now) (materials db);
          quotes := quotes db;
          tasks := tasks db;
          material_usage := material_usage db;
          feedback := feedback db;
          vendor_reliability := vendor_reliability db |})
  end.

End MaterialService.

(** ** app/services/pricing_service.py *)

Module PricingService.

(** The dictionaries that [_identify_tasks] builds: a task type, the
    materials assigned to it and a duration. *)
Record TaskData : Type := {
  type : string;
  materials : list MaterialPriceResponse.t;
  duration : string
}.

(** [d.get(key, dflt)] for a literal dictionary, kept in source order. *)
Definition lookup_default {V} (d : list (string * V)) (key : string) (dflt : V)
  : V :=
  match List.find (fun kv => String.eqb (fst kv) key) d with
  | Some kv => snd kv
  | None => dflt
  end.

(** [_material_belongs_to_task(material, task_type)] *)
Definition material_task_keywords : list (string * list string) := [
  ("tiling", ["tile"; "carrelage"; "adhesive"; "grout"]);
  ("painting", ["paint"; "peinture"; "primer"; "brush"]);
  ("plumbing", ["pipe"; "tuyau"; "valve"; "fitting"]);
  ("electrical", ["wire"; "fil"; "cable"; "switch"]);
  ("carpentry", ["wood"; "bois"; "board"; "screw"])].

Definition _material_belongs_to_task
  (material : MaterialPriceResponse.t) (task_type : string) : bool :=
  let material_text :=
    lower (MaterialPriceResponse.material_name material ++ " " ++
           MaterialPriceResponse.description material) in
  let keywords := lookup_default material_task_keywords task_type [] in
  existsb (fun keyword => contains keyword material_text) keywords.

(** [_estimate_task_duration(task_type, material_count)] *)
Definition base_durations : list (string * string) := [
  ("tiling", "2 days");
  ("painting", "1 day");
  ("plumbing", "1 day");
  ("electrical", "1 day");
  ("carpentry", "2 days");
  ("general", "1 day")].

Definition _estimate_task_duration (task_type : string) (material_count : nat)
  : string :=
  let duration := lookup_default base_durations task_type "1 day" in
  if (5 <? material_count)%nat then
    if contains "1 day" duration then replace "1 day" "2 days" duration
    else if contains "2 days" duration then replace "2 days" "3 days" duration
    else duration
  else duration.

(** [_identify_tasks(transcript, keywords, materials)].  [identified_tasks]
    is a Python set; it is kept here in order of first insertion, and no
    statement below depends on the order in which it is traversed. *)
Definition task_keywords : list (string * list string) := [
  ("tiling", ["tile"; "carrelage"; "bathroom"; "shower"; "wall"]);
  ("painting", ["paint"; "peinture"; "wall"; "ceiling"]);
  ("plumbing", ["pipe"; "tuyau"; "water"; "bathroom"; "kitchen"]);
  ("electrical", ["wire"; "fil"; "electric"; "switch"; "outlet"]);
  ("carpentry", ["wood"; "bois"; "door"; "window"; "cabinet"])].

Definition set_add (x : string) (s : list string) : list string :=
  if mem x s then s else s ++ [x].

Definition identified_tasks (keywords : list string) : list string :=
  fold_left
    (fun acc keyword =>
       fold_left
         (fun acc kv =>
            if existsb (fun k => contains k (lower keyword)) (snd kv)
            then set_add (fst kv) acc else acc)
         task_keywords acc)
    keywords [].

(** The task object that the loop over [identified_tasks] appends. *)
Definition task_for
  (materials : list MaterialPriceResponse.t) (task_type : string) : TaskData :=
  let task_materials :=
    List.filter (fun m => _material_belongs_to_task m task_type) materials in
  {| type := task_type;
     materials := task_materials;
     duration := _estimate_task_duration task_type (length task_materials) |}.

Definition _identify_tasks
  (transcript : string) (keywords : list string)
  (materials : list MaterialPriceResponse.t) : list TaskData :=
  let tasks := map (task_for materials) (identified_tasks keywords) in
  match tasks with
  | [] => [{| type := "general"; materials := materials; duration := "1 day" |}]
  | _ => tasks
  end.

(** [_estimate_material_quantity(material, task_type)] *)
Definition base_quantities : list (string * Q) := [
  ("tiles", 10 # 1);
  ("adhesives", 5 # 1);
  ("paints", 5 # 1);
  ("pipes", 10 # 1);
  ("wires", 20 # 1);
  ("wood", 5 # 1)].

Definition _estimate_material_quantity
  (material : MaterialPriceResponse.t) (task_type : string) : Q :=
  let material_name := lower (MaterialPriceResponse.material_name material) in
  match
    List.find (fun kv => contains (fst kv) material_name) base_quantities
  with
  | Some kv => snd kv
  | None => 1
  end.

(** [_parse_duration_to_hours(duration)] *)
Definition _parse_duration_to_hours (duration : string) : Q :=
  try_except
    (if contains "day" (lower duration) then
       days ← first_number duration; Ok (Py.float days * 8)%Q
     else if contains "hour" (lower duration) then
       hours ← first_number duration; Ok (Py.float hours)
     else Ok 8%Q)
    (fun _ => 8%Q).

(** [_calculate_task_confidence(materials, task_type)] *)
Definition task_type_confidences : list (string * Q) := [
  ("tiling", 8 # 10);
  ("painting", 9 # 10);
  ("plumbing", 7 # 10);
  ("electrical", 6 # 10);
  ("carpentry", 7 # 10);
  ("general", 5 # 10)].

Definition _calculate_task_confidence
  (materials : list MaterialItem.t) (task_type : string) : Q :=
  match materials with
  | [] => 3 # 10
  | _ =>
      let avg_material_confidence :=
        (Py.sum (map MaterialItem.confidence_score materials)
         / Py.float (length materials))%Q in
      let task_type_confidence :=
        lookup_default task_type_confidences task_type (5 # 10) in
      (avg_material_confidence * (7 # 10) + task_type_confidence * (3 # 10))%Q
  end.

(** [_create_task_label(task_type, materials)] *)
Definition task_labels : list (string * string) := [
  ("tiling", "Tile Installation");
  ("painting", "Painting");
  ("plumbing", "Plumbing Work");
  ("electrical", "Electrical Work");
  ("carpentry", "Carpentry Work");
  ("general", "General Renovation")].

Definition _create_task_label
  (task_type : string) (materials : list MaterialPriceResponse.t) : string :=
  let base_label := lookup_default task_labels task_type "General Work" in
  match materials with
  | [] => base_label
  | _ =>
      let material_names :=
        map MaterialPriceResponse.material_name (firstn 2 materials) in
      base_label ++ " - " ++ join ", " material_names
  end.

(** [_calculate_overall_confidence(tasks)] *)
Definition _calculate_overall_confidence (tasks : list Task.t) : Q :=
  match tasks with
  | [] => 0
  | _ => (Py.sum (map Task.confidence_score tasks) / Py.float (length tasks))%Q
  end.

Section Service.

Variable embedding_similarity : string -> string -> result Q.
Variable settings : Settings.

(** [_calculate_labor_cost(task_type, duration)]; the default of [get],
    [labor_rates['general']], is evaluated before the lookup. *)
Definition _calculate_labor_cost (task_type duration : string) : result Q :=
  let hours := _parse_duration_to_hours duration in
  general ← getitem (default_labor_rates settings) "general";
  let labor_rate :=
    Config.get (default_labor_rates settings) task_type general in
  Ok (hours * labor_rate)%Q.

(** [_get_regional_multiplier(region)] *)
Definition _get_regional_multiplier (region : option string) : Q :=
  if MaterialService.truthy region
  then Config.get (regional_multipliers settings) (default "" region) 1
  else 1.

(** [_determine_vat_rate(project_type)] *)
Definition _determine_vat_rate (project_type : option string) : Q :=
  if MaterialService.truthy project_type
     && contains "new" (lower (default "" project_type))
  then vat_new_build settings
  else vat_renovation settings.

(** One round of the loop over [materials] in [_calculate_task_pricing]:
    the fields of the item, then the validating constructor. *)
Definition item_of
  (task_type : string) (material : MaterialPriceResponse.t) : MaterialItem.t :=
  let quantity := _estimate_material_quantity material task_type in
  let total_price := (MaterialPriceResponse.unit_price material * quantity)%Q in
  {| MaterialItem.material_name := MaterialPriceResponse.material_name material;
     MaterialItem.quantity := quantity;
     MaterialItem.unit := MaterialPriceResponse.unit material;
     MaterialItem.unit_price := MaterialPriceResponse.unit_price material;
     MaterialItem.total_price := total_price;
     MaterialItem.confidence_score :=
       MaterialPriceResponse.similarity_score material |}.

Definition price_material
  (task_type : string) (material : MaterialPriceResponse.t)
  : result MaterialItem.t :=
  MaterialItem.make (item_of task_type material).

Definition fallback_task (task_data : TaskData) : Task.t := {|
  Task.label := "General " ++ type task_data;
  Task.materials := [];
  Task.estimated_duration := "1 day";
  Task.margin_protected_price := 100;
  Task.confidence_score := 5 # 10;
  Task.labor_cost := Some 80%Q
|}.

(** [_calculate_task_pricing(task_data, region, project_type, db)] *)
Definition _calculate_task_pricing
  (task_data : TaskData) (region project_type : option string) : Task.t :=
  try_except
    (let task_type := type task_data in
     let materials := materials task_data in
     let duration := duration task_data in
     material_items ← mapM (price_material task_type) materials;
     let total_material_cost :=
       Py.sum (map MaterialItem.total_price material_items) in
     labor_cost ← _calculate_labor_cost task_type duration;
     let regional_multiplier := _get_regional_multiplier region in
     let adjusted_material_cost :=
       (total_material_cost * regional_multiplier)%Q in
     let adjusted_labor_cost := (labor_cost * regional_multiplier)%Q in
     let margin_protected_price :=
       ((adjusted_material_cost + adjusted_labor_cost)
        * (1 + base_margin settings))%Q in
     let task_confidence :=
       _calculate_task_confidence material_items task_type in
     let task_label := _create_task_label task_type materials in
     Task.make {|
       Task.label := task_label;
       Task.materials := material_items;
       Task.estimated_duration := duration;
       Task.margin_protected_price := margin_protected_price;
       Task.confidence_score := task_confidence;
       Task.labor_cost := Some adjusted_labor_cost
     |})
    (fun _ => fallback_task task_data).

(** [_extract_materials_and_tasks(transcript, region, db)], the ['tasks']
    entry of its result. *)
Definition searched_materials
  (db : Store) (keywords : list string) (region : option string)
  : result (list MaterialPriceResponse.t) :=
  results ←
    mapM (fun keyword =>
            MaterialService.search_materials embedding_similarity settings
              db keyword region None None None 3)
         keywords;
  Ok (concat results).

Definition _extract_materials_and_tasks
  (db : Store) (transcript : string) (region : option string) : list TaskData :=
  try_except
    (let processed_transcript := EmbeddingService.preprocess_text transcript in
     let keywords :=
       EmbeddingService.get_semantic_keywords processed_transcript 10 in
     materials ← searched_materials db keywords region;
     Ok (_identify_tasks processed_transcript keywords materials))
    (fun _ => [{| type := "general"; materials := []; duration := "1 day" |}]).

(** The accumulation of step 2 of [generate_proposal]: the pair
    [(total_materials_cost, total_labor_cost)] after one more task. *)
Definition accumulate (acc : Q * Q) (task : Task.t) : Q * Q :=
  let task_materials_cost :=
    Py.sum (map MaterialItem.total_price (Task.materials task)) in
  let total_materials_cost := (fst acc + task_materials_cost)%Q in
  let total_labor_cost :=
    match Task.labor_cost task with
    | Some c => if Qeq_bool c 0 then snd acc else (snd acc + c)%Q
    | None => snd acc
    end in
  (total_materials_cost, total_labor_cost).

(** Step 6 of [generate_proposal]: the rows of one task.  A [MaterialItem]
    has no [material_id], so every usage row gets 0. *)
Definition task_db (quote_id : string) (task : Task.t) : TaskDB.t := {|
  TaskDB.quote_id := quote_id;
  TaskDB.label := Task.label task;
  TaskDB.estimated_duration := Task.estimated_duration task;
  TaskDB.margin_protected_price := Task.margin_protected_price task;
  TaskDB.confidence_score := Task.confidence_score task;
  TaskDB.labor_cost := Task.labor_cost task
|}.

Definition save_task (quote_id : string) (db : Store) (task : Task.t) : Store :=
  let db := add_task (task_db quote_id task) db in
  fold_left
    (fun db material =>
       add_material_usage {|
         MaterialUsage.quote_id := quote_id;
         MaterialUsage.material_id := 0;
         MaterialUsage.quantity := MaterialItem.quantity material;
         MaterialUsage.unit_price := MaterialItem.unit_price material;
         MaterialUsage.total_price := MaterialItem.total_price material;
         MaterialUsage.confidence_score :=
           MaterialItem.confidence_score material
       |} db)
    (Task.materials task) db.

(** [db.commit()] of [generate_proposal]: the flush takes the quote and
    the task rows (the usage rows hold numbers only). *)
Definition commits (quote : Quote.t) (quote_id : string) (tasks : list Task.t)
  : bool :=
  quote_ok quote && forallb (fun task => task_ok (task_db quote_id task)) tasks.

(** [generate_proposal(transcript, user_type, region, project_type, db)].
    [quote_id] is the fresh [uuid4] and [now] the clock.  A commit that
    fails is rolled back and its exception raised again: nothing is
    stored.  The store is committed before the response is built, so a
    response that fails validation leaves the quote stored. *)
Definition generate_proposal
  (db : Store) (quote_id : string) (now : Z)
  (transcript : string) (user_type : UserType)
  (region project_type : option string)
  : result GenerateProposalResponse.t * Store :=
  let extracted_tasks := _extract_materials_and_tasks db transcript region in
  let tasks :=
    map (fun task_data => _calculate_task_pricing task_data region project_type)
        extracted_tasks in
  let totals := fold_left accumulate tasks (0%Q, 0%Q) in
  let subtotal := (fst totals + snd totals)%Q in
  let vat_rate := _determine_vat_rate project_type in
  let vat_amount := (subtotal * vat_rate)%Q in
  let margin_amount := (subtotal * base_margin settings)%Q in
  let total_estimate := (subtotal + vat_amount + margin_amount)%Q in
  let confidence_score := _calculate_overall_confidence tasks in
  let quote := {|
    Quote.id := quote_id;
    Quote.transcript := transcript;
    Quote.total_estimate := total_estimate;
    Quote.confidence_score := confidence_score;
    Quote.user_type := UserType_value user_type;
    Quote.region := region;
    Quote.project_type := project_type
  |} in
  if negb (commits quote quote_id tasks) then (Raise (DataError "quotes"), db)
  else
  let db := add_quote quote db in
  let db := fold_left (save_task quote_id) tasks db in
  (GenerateProposalResponse.make {|
     GenerateProposalResponse.quote_id := quote_id;
     GenerateProposalResponse.transcript := transcript;
     GenerateProposalResponse.tasks := tasks;
     GenerateProposalResponse.total_estimate := total_estimate;
     GenerateProposalResponse.confidence_score := confidence_score;
     GenerateProposalResponse.vat_rate := vat_rate;
     GenerateProposalResponse.margin_percentage := base_margin settings;
     GenerateProposalResponse.created_at := now;
     GenerateProposalResponse.region := region;
     GenerateProposalResponse.project_type := project_type
   |}, db).

End Service.

End PricingService.

(** ** app/services/feedback_service.py *)

Module FeedbackService.

(** [_calculate_impact_score(verdict, user_type, quote)].  The two weight
    tables cover every member of their enumeration, so the defaults of
    [get] and the [except] branch are never taken. *)
Definition verdict_weights (verdict : VerdictType) : Q :=
  match verdict with
  | REJECTED => 1
  | OVERPRICED => 8 # 10
  | UNDERPRICED => 8 # 10
  | MODIFIED => 6 # 10
  | ACCEPTED => 3 # 10
  end.

Definition user_weights (user_type : UserType) : Q :=
  match user_type with
  | CONTRACTOR => 1
  | ARCHITECT => 9 # 10
  | CLIENT => 7 # 10
  end.

Definition is_negative (verdict : VerdictType) : bool :=
  match verdict with
  | REJECTED | OVERPRICED | UNDERPRICED => true
  | _ => false
  end.

Definition _calculate_impact_score
  (verdict : VerdictType) (user_type : UserType) (quote : Quote.t) : Q :=
  let base_score := (5 # 10)%Q in
  let base_score := (base_score * verdict_weights verdict)%Q in
  let base_score := (base_score * user_weights user_type)%Q in
  let base_score :=
    if is_negative verdict then
      let confidence_factor := (1 - Quote.confidence_score quote)%Q in
      (base_score * (1 + confidence_factor))%Q
    else base_score in
  let value_factor := Py.min (Quote.total_estimate quote / 1000) 2 in
  let base_score := (base_score * value_factor)%Q in
  Py.max 0 (Py.min 1 base_score).

(** [_generate_learning_insights(quote, verdict, comment, material_feedback,
    pricing_feedback, db)] *)
(** [l.append(x)] *)
Definition append (l : list string) (x : string) : list string :=
  (l ++ [x])%list.

Definition any_in (words : list string) (text : string) : bool :=
  existsb (fun word => contains word (lower text)) words.

Definition _generate_learning_insights
  (quote : Quote.t) (verdict : VerdictType) (comment : option string)
  (material_feedback pricing_feedback : option (list (string * string)))
  : list string :=
  let insights :=
    match verdict with
    | REJECTED => ["Quote was completely rejected - review pricing strategy"]
    | OVERPRICED =>
        ["Quote was overpriced - consider reducing margins "
         ++ "or finding cheaper materials"]
    | UNDERPRICED =>
        ["Quote was underpriced - review cost calculations and margins"]
    | MODIFIED => ["Quote was modified - analyze what changes were made"]
    | ACCEPTED => []
    end in
  let insights :=
    if Qltb (8 # 10) (Quote.confidence_score quote)
       && (bool_decide (verdict = REJECTED)
           || bool_decide (verdict = OVERPRICED))
    then append insights
           ("High confidence quote was rejected - "
            ++ "review confidence scoring logic")
    else if Qltb (Quote.confidence_score quote) (5 # 10)
            && bool_decide (verdict = ACCEPTED)
    then append insights
           "Low confidence quote was accepted - may be too conservative"
    else insights in
  let insights :=
    if MaterialService.truthy (Quote.region quote)
    then append insights
           ("Regional feedback for " ++ default "" (Quote.region quote)
            ++ " - update regional pricing if needed")
    else insights in
  let insights :=
    fold_left
      (fun insights entry =>
         let '(material, feedback_text) := entry in
         if contains "expensive" (lower feedback_text)
         then append insights
                ("Material " ++ material
                 ++ " considered expensive - review pricing")
         else if contains "quality" (lower feedback_text)
         then append insights
                ("Quality feedback for " ++ material
                 ++ " - consider alternative suppliers")
         else insights)
      (default [] material_feedback) insights in
  let insights :=
    fold_left
      (fun insights entry =>
         let '(aspect, feedback_text) := entry in
         append insights
           ("Pricing feedback on " ++ aspect ++ ": " ++ feedback_text))
      (default [] pricing_feedback) insights in
  let insights :=
    if MaterialService.truthy comment then
      let c := default "" comment in
      if any_in ["expensive"; "overpriced"; "high"] c
      then append insights "User indicated pricing was too high"
      else if any_in ["cheap"; "good price"; "reasonable"] c
      then append insights "User indicated pricing was reasonable"
      else if any_in ["quality"; "material"] c
      then append insights "User provided material quality feedback"
      else insights
    else insights in
  match insights with
  | [] => ["Feedback received - monitoring for patterns"]
  | _ => insights
  end.

(** [_update_vendor_reliability(quote, verdict, db)].  The loop over the
    usages of the quote has an empty body ([pass]): it leaves [vendors] as
    it found it. *)
Definition quote_vendors (db : Store) (quote : Quote.t) : gset string :=
  let material_usages :=
    List.filter
      (fun u => String.eqb (MaterialUsage.quote_id u) (Quote.id quote))
      (material_usage db) in
  fold_left (fun vendors usage => vendors) material_usages ∅.

(** The body of the loop over [vendors]: the session after it, and the
    exception if it raised.  A vendor without a record is added to the
    session and [None += 1] raises [TypeError]: the pending row keeps the
    column defaults.  A record whose new total is 0 has its counters
    assigned before the division raises. *)
Definition update_vendor
  (verdict : VerdictType) (now : Z) (db : Store) (vendor : string)
  : Store * option exn :=
  let accepted := bool_decide (verdict = ACCEPTED) in
  match get_vendor_reliability db vendor with
  | None =>
      (put_vendor_reliability (VendorReliability.new vendor now) db,
       Some TypeError)
  | Some vendor_reliability =>
      let total_quotes :=
        (VendorReliability.total_quotes vendor_reliability + 1)%Z in
      let accepted_quotes :=
        if accepted
        then (VendorReliability.accepted_quotes vendor_reliability + 1)%Z
        else VendorReliability.accepted_quotes vendor_reliability in
      if (total_quotes =? 0)%Z then
        (put_vendor_reliability
           {| VendorReliability.vendor_name :=
                VendorReliability.vendor_name vendor_reliability;
              VendorReliability.reliability_score :=
                VendorReliability.reliability_score vendor_reliability;
              VendorReliability.total_quotes := total_quotes;
              VendorReliability.accepted_quotes := accepted_quotes;
              VendorReliability.updated_at :=
                VendorReliability.updated_at vendor_reliability |} db,
         Some ZeroDivisionError)
      else
        (put_vendor_reliability
           {| VendorReliability.vendor_name :=
                VendorReliability.vendor_name vendor_reliability;
              VendorReliability.reliability_score :=
                inject_Z accepted_quotes / inject_Z total_quotes;
              VendorReliability.total_quotes := total_quotes;
              VendorReliability.accepted_quotes := accepted_quotes;
              VendorReliability.updated_at := now |} db,
         None)
  end.

(** [for vendor in vendors: ...] inside [try: ... except Exception: log]:
    the first exception ends the loop. *)
Fixpoint update_vendors
  (verdict : VerdictType) (now : Z) (vendors : list string) (db : Store)
  : Store :=
  match vendors with
  | [] => db
  | vendor :: vendors' =>
      match update_vendor verdict now db vendor with
      | (db', None) => update_vendors verdict now vendors' db'
      | (db', Some _) => db'
      end
  end.

Definition _update_vendor_reliability
  (quote : Quote.t) (verdict : VerdictType) (now : Z) (db : Store) : Store :=
  let vendors := quote_vendors db quote in
  update_vendors verdict now (elements vendors) db.

(** [_update_system_learning]: after the vendor update, the regional
    pricing, material pricing and pattern steps only write to the log. *)
Definition _update_system_learning
  (quote : Quote.t) (verdict : VerdictType) (now : Z) (db : Store) : Store :=
  _update_vendor_reliability quote verdict now db.

(** [process_feedback(quote_id, user_type, verdict, comment,
    material_feedback, pricing_feedback, db)].  [feedback_id] is the fresh
    [uuid4] and [now] the clock.  The second component is the store after
    the request: rolled back when the quote is missing or the commit
    fails, committed before the response is built otherwise. *)
Definition process_feedback
  (db : Store) (feedback_id : string) (now : Z)
  (quote_id : string) (user_type : UserType) (verdict : VerdictType)
  (comment : option string)
  (material_feedback pricing_feedback : option (list (string * string)))
  : result FeedbackResponse.t * Store :=
  match get_quote_by_id db quote_id with
  | None => (Raise (ValueError ("Quote " ++ quote_id ++ " not found")), db)
  | Some quote =>
      let impact_score := _calculate_impact_score verdict user_type quote in
      let learning_insights :=
        _generate_learning_insights quote verdict comment
                                    material_feedback pricing_feedback in
      let feedback := {|
          Feedback.id := feedback_id;
          Feedback.quote_id := quote_id;
          Feedback.user_type := UserType_value user_type;
          Feedback.verdict := VerdictType_value verdict;
          Feedback.comment := comment;
          Feedback.material_feedback :=
            (match material_feedback with
             | Some [] => None
             | other => other
             end);
          Feedback.pricing_feedback :=
            (match pricing_feedback with
             | Some [] => None
             | other => other
             end);
          Feedback.impact_score := impact_score
        |} in
      let db' := add_feedback feedback db in
      let db' := _update_system_learning quote verdict now db' in
      if negb (feedback_ok feedback) then (Raise (DataError "feedback"), db)
      else
      (FeedbackResponse.make {|
         FeedbackResponse.feedback_id := feedback_id;
         FeedbackResponse.quote_id := quote_id;
         FeedbackResponse.user_type := user_type;
         FeedbackResponse.verdict := verdict;
         FeedbackResponse.comment := comment;
         FeedbackResponse.processed_at := now;
         FeedbackResponse.impact_score := impact_score;
         FeedbackResponse.learning_insights := learning_insights
       |}, db')
  end.

End FeedbackService.

(** ** app/main.py: the route handlers *)

Module Main.

(** What a handler answers: the body, or an [HTTPException] with its
    status code (the detail text is left out). *)
Inductive Response (A : Type) : Type :=
| Body (a : A)
| HTTPException (status_code : nat).
Arguments Body {A} a.
Arguments HTTPException {A} status_code.

(** What the [try] block of a handler can raise: an [HTTPException] of its
    own, or whatever the service raises. *)
Inductive raised : Type :=
| Http (status_code : nat)
| Service (e : exn).

(** [except Exception as e: raise HTTPException(status_code=500, ...)];
    an [HTTPException] is an [Exception] too. *)
Definition guard {A} (body : A + raised) : Response A :=
  match body with
  | inl a => Body a
  | inr _ => HTTPException 500
  end.

Definition of_result {A} (r : result A) : A + raised :=
  match r with
  | Ok a => inl a
  | Raise e => inr (Service e)
  end.

(** [not s.strip()] *)
Definition blank (s : string) : bool := String.eqb (strip s) "".

Record GenerateProposalRequest : Type := {
  transcript : string;
  user_type : UserType;
  region : option string;
  project_type : option string
}.


Section Handlers.

Variable embedding_similarity : string -> string -> result Q.
Variable settings : Settings.

(** [GET /material-price]; the query parameters have passed the checks of
    the framework ([limit] between 1 and 20). *)
Definition get_material_price
  (db : Store) (query : string) (region unit : option string)
  (quality_score : option Z) (vendor : option string) (limit : nat)
  : Response (list MaterialPriceResponse.t) :=
  guard
    (if blank query then inr (Http 400)
     else of_result
            (MaterialService.search_materials embedding_similarity settings db
               query region unit quality_score vendor limit)).

(** [POST /generate-proposal]: the service is called with the transcript
    and the user type of the request only. *)
Definition generate_proposal
  (db : Store) (fresh_id : string) (now : Z) (request : GenerateProposalRequest)
  : Response GenerateProposalResponse.t * Store :=
  if blank (transcript request) then (guard (inr (Http 400)), db)
  else
    let '(r, db') :=
      PricingService.generate_proposal embedding_similarity settings db
        fresh_id now (transcript request) (user_type request) None None in
    (guard (of_result r), db').


End Handlers.

End Main.

(** * Vocabulary of the statements *)

Module Spec.

Local Open Scope Q_scope.

(** Descending order by [key]: every element is at least as large as the
    ones after it. *)
Definition descending {A} (key : A -> Q) (l : list A) : Prop :=
  StronglySorted (fun a b => key b <= key a) l.

(** The elements whose key equals [c], in list order. *)
Definition with_key {A} (key : A -> Q) (c : Q) (l : list A) : list A :=
  List.filter (fun a => Qeq_bool (key a) c) l.

(** A stored row that the response model accepts. *)
Definition valid_row (m : Material.t) : Prop :=
  0 <= Material.unit_price m /\
  match Material.quality_score m with
  | None => True
  | Some q => (1 <= q <= 10)%Z
  end.

(** The material cost and the labor cost of a priced task, and the
    subtotal of a list of tasks. *)
Definition materials_cost (task : Task.t) : Q :=
  Py.sum (map MaterialItem.total_price (Task.materials task)).

Definition labor_of (task : Task.t) : Q :=
  default 0 (Task.labor_cost task).

Definition subtotal_of (tasks : list Task.t) : Q :=
  Py.sum (map materials_cost tasks) + Py.sum (map labor_of tasks).

(** "[project_type] contains [new], case-insensitively". *)
Definition mentions_new (project_type : option string) : bool :=
  match project_type with
  | Some s => contains "new" (lower s)
  | None => false
  end.

(** The duration table in days, the bump for more than five materials, and
    the way a number of days is written. *)
Definition base_days (task_type : string) : nat :=
  if mem task_type ["tiling"; "carpentry"] then 2 else 1.

Definition bump (material_count : nat) : nat :=
  if (5 <? material_count)%nat then 1 else 0.

Definition show_days (days : nat) : string :=
  if (days =? 1)%nat then "1 day"
  else NilEmpty.string_of_uint (Nat.to_uint days) ++ " days".

Definition categories : list string :=
  ["tiling"; "painting"; "plumbing"; "electrical"; "carpentry"; "general"].

(** The tasks of a proposal: every extracted task, priced. *)
Definition priced_tasks
  (embedding_similarity : string -> string -> result Q) (settings : Settings)
  (db : Store) (transcript : string) (region project_type : option string)
  : list Task.t :=
  map (fun task_data =>
         PricingService._calculate_task_pricing settings task_data region
                                                project_type)
      (PricingService._extract_materials_and_tasks embedding_similarity settings
                                                   db transcript region).

(** Pricing settings that the response model accepts: a margin that is not
    negative and VAT rates between 0 and 1. *)
Definition reasonable (settings : Settings) : Prop :=
  0 <= base_margin settings /\
  0 <= vat_renovation settings <= 1 /\
  0 <= vat_new_build settings <= 1.

(** A sequence of feedback events on one vendor, applied through
    [update_vendor_reliability]; [true] is an accepted verdict. *)
Fixpoint replay (vendor : string) (now : Z) (events : list bool) (db : Store)
  : result Store :=
  match events with
  | [] => Ok db
  | accepted :: events' =>
      db' ← update_vendor_reliability db vendor accepted now;
      replay vendor now events' db'
  end.

Definition accepted_count (events : list bool) : nat :=
  length (List.filter id events).

(** A feedback request, and a sequence of them processed in order. *)
Record FeedbackEvent : Type := {
  feedback_id : string;
  at_time : Z;
  on_quote : string;
  by_user : UserType;
  with_verdict : VerdictType
}.

Definition process_all (events : list FeedbackEvent) (db : Store) : Store :=
  fold_left
    (fun db e =>
       snd (FeedbackService.process_feedback db (feedback_id e) (at_time e)
              (on_quote e) (by_user e) (with_verdict e) None None None))
    events db.

(** The impact score before the value factor and the clamp. *)
Definition weight
  (verdict : VerdictType) (user_type : UserType) (quote : Quote.t) : Q :=
  let base_score :=
    (5 # 10) * FeedbackService.verdict_weights verdict
    * FeedbackService.user_weights user_type in
  if FeedbackService.is_negative verdict
  then base_score * (1 + (1 - Quote.confidence_score quote))
  else base_score.

(** A quote that differs from [quote] in its total only. *)
Definition with_total (quote : Quote.t) (total : Q) : Quote.t :=
  {| Quote.id := Quote.id quote;
     Quote.transcript := Quote.transcript quote;
     Quote.total_estimate := total;
     Quote.confidence_score := Quote.confidence_score quote;
     Quote.user_type := Quote.user_type quote;
     Quote.region := Quote.region quote;
     Quote.project_type := Quote.project_type quote |}.

(** The characters of a string, and the number of times a word occurs in a
    list of words. *)
Definition chars (s : string) : list ascii := list_ascii_of_string s.

Definition occurrences (w : string) (words : list string) : nat :=
  length (List.filter (String.eqb w) words).

(** The words of a text that [get_semantic_keywords] counts. *)
Definition counted_words (text : string) : list string :=
  List.filter
    (fun w => negb (mem w EmbeddingService.stop_words)
              && (2 <? Py.len w)%nat)
    (split (lower text)).

(** The rows that are not in [old] were written for [quote_id], with
    material id 0. *)
Definition usage_rows_ok
  (quote_id : string) (old : list MaterialUsage.t) (db : Store) : Prop :=
  forall u, In u (material_usage db) ->
            In u old \/
            (MaterialUsage.material_id u = 0%Z /\
             MaterialUsage.quote_id u = quote_id).

(** What a committed proposal has added to the store [db]: one quote, one
    task row for each priced task and one usage row for each item. *)
Definition proposal_stored
  (db db' : Store) (quote_id : string) (priced : list Task.t) (q : Quote.t)
  : Prop :=
  quotes db' = (quotes db ++ [q])%list /\
  Quote.id q = quote_id /\
  length (tasks db') = (length (tasks db) + length priced)%nat /\
  length (material_usage db')
  = (length (material_usage db)
     + length (concat (map Task.materials priced)))%nat /\
  usage_rows_ok quote_id (material_usage db) db'.

(** A quote that differs from [quote] in its confidence only. *)
Definition with_confidence (quote : Quote.t) (confidence : Q) : Quote.t :=
  {| Quote.id := Quote.id quote;
     Quote.transcript := Quote.transcript quote;
     Quote.total_estimate := Quote.total_estimate quote;
     Quote.confidence_score := confidence;
     Quote.user_type := Quote.user_type quote;
     Quote.region := Quote.region quote;
     Quote.project_type := Quote.project_type quote |}.

(** A proposal request without its region and project type. *)
Definition without_region (request : Main.GenerateProposalRequest)
  : Main.GenerateProposalRequest :=
  {| Main.transcript := Main.transcript request;
     Main.user_type := Main.user_type request;
     Main.region := None;
     Main.project_type := None |}.

(** Every record is filed under its own vendor name. *)
Definition keyed_by_name (db : Store) : Prop :=
  forall v r,
    vendor_reliability db !! v = Some r -> VendorReliability.vendor_name r = v.

End Spec.

Import Spec.

(** * Sample data *)

Module Samples.

(** No stored embeddings are consulted in the samples. *)
Definition no_embedding (query stored : string) : result Q :=
  Raise (ValueError "not a vector").

Definition row
  (id : Z) (name description : string) (unit_price : Q) (region : string)
  (vendor : option string) : Material.t :=
  {| Material.id := id;
     Material.material_name := name;
     Material.description := description;
     Material.unit_price := unit_price;
     Material.unit := "unit";
     Material.region := region;
     Material.vendor := vendor;
     Material.quality_score := Some 7%Z;
     Material.embedding := None;
     Material.source_url := None;
     Material.updated_at := 0 |}.

Definition store_of (rows : list Material.t) : Store :=
  {| materials := rows; quotes := []; tasks := []; material_usage := [];
     feedback := []; vendor_reliability := ∅ |}.

(** Two materials sold in Corse, whose multiplier is 1.20. *)
Definition corse_store : Store :=
  store_of [
    row 1 "Oak wood board" "solid oak" 10 "Corse" (Some "Leroy Merlin");
    row 2 "Ceramic Wall Tile 20x20cm" "white tile" 20 "Corse" None].

Definition corse_transcript : string := "Install oak wood board in the hall".

Definition corse_proposal : result GenerateProposalResponse.t * Store :=
  PricingService.generate_proposal no_embedding settings corse_store
    "q-1" 0 corse_transcript CONTRACTOR (Some "Corse") None.

(** The material named as in the sample data of the repository. *)
Definition ceramic_tile : MaterialPriceResponse.t :=
  MaterialService.response_of
    {| MaterialService.material :=
         row 2 "Ceramic Wall Tile 20x20cm" "white tile" 20 "Corse" None;
       MaterialService.similarity_score := 9 # 10;
       MaterialService.confidence_score := 9 # 10 |}.

(** Three materials that match no task category. *)
Definition glue_store : Store :=
  store_of [
    row 1 "Strong glue" "universal" 4 "Bretagne" None;
    row 2 "Epoxy glue" "two components" 9 "Bretagne" None;
    row 3 "Glue gun" "hot melt" 15 "Bretagne" None].

Definition glue_transcript : string := "strong glue".

(** A quote of value zero. *)
Definition free_quote : Quote.t :=
  {| Quote.id := "q-0"; Quote.transcript := "nothing to do";
     Quote.total_estimate := 0; Quote.confidence_score := 1 # 2;
     Quote.user_type := "contractor"; Quote.region := None;
     Quote.project_type := None |}.

(** A quote of value 1000 with a confidence above the scale. *)
Definition overrated_quote : Quote.t :=
  {| Quote.id := "q-3"; Quote.transcript := "repaint the hall";
     Quote.total_estimate := 1000; Quote.confidence_score := 3;
     Quote.user_type := "contractor"; Quote.region := None;
     Quote.project_type := None |}.

(** Settings whose labor rates lack the ["general"] entry. *)
Definition settings_without_general : Settings :=
  {| vector_dimensions := vector_dimensions settings;
     base_margin := base_margin settings;
     vat_renovation := vat_renovation settings;
     vat_new_build := vat_new_build settings;
     regional_multipliers := regional_multipliers settings;
     confidence_weights := confidence_weights settings;
     default_labor_rates := list_to_map [("tiling", 45 # 1)];
     material_categories := material_categories settings |}.

Definition tiling_task : PricingService.TaskData :=
  {| PricingService.type := "tiling";
     PricingService.materials := [ceramic_tile];
     PricingService.duration := "2 days" |}.

(** The store once the Corse proposal is in it. *)
Definition corse_stored : Store := snd corse_proposal.

Definition new_build_request : Main.GenerateProposalRequest :=
  {| Main.transcript := corse_transcript;
     Main.user_type := CONTRACTOR;
     Main.region := Some "Corse";
     Main.project_type := Some "New build" |}.


Definition fake_embedding (text : string) : string := "[0.5, 0.5]".

(** A store with the records of two vendors. *)
Definition leroy_record : VendorReliability.t := {|
  VendorReliability.vendor_name := "Leroy Merlin";
  VendorReliability.reliability_score := 1 # 2;
  VendorReliability.total_quotes := 4;
  VendorReliability.accepted_quotes := 2;
  VendorReliability.updated_at := 0
|}.

Definition weldom_record : VendorReliability.t := {|
  VendorReliability.vendor_name := "Weldom";
  VendorReliability.reliability_score := 0;
  VendorReliability.total_quotes := 1;
  VendorReliability.accepted_quotes := 0;
  VendorReliability.updated_at := 0
|}.

Definition vendor_store : Store := {|
  Database.materials := Database.materials corse_store;
  quotes := quotes corse_store;
  tasks := tasks corse_store;
  material_usage := material_usage corse_store;
  feedback := feedback corse_store;
  vendor_reliability :=
    <["Leroy Merlin" := leroy_record]> (<["Weldom" := weldom_record]> ∅)
|}.

End Samples.

(** * Properties of the built-ins *)

Module PyFacts.

Local Open Scope Q_scope.

Ltac case_cmp :=
  repeat match goal with
         | |- context [Qlt_le_dec ?a ?b] => destruct (Qlt_le_dec a b)
         | H : context [Qlt_le_dec ?a ?b] |- _ => destruct (Qlt_le_dec a b)
         end.

Lemma Qleb_le (a b : Q) : Qleb a b = true <-> a <= b.
Proof. apply Qle_bool_iff. Qed.

Lemma Qltb_lt (a b : Q) : Qltb a b = true <-> a < b.
Proof.
  unfold Qltb. rewrite negb_true_iff.
  destruct (Qle_bool b a) eqn:E.
  - apply Qle_bool_iff in E. split; [discriminate | intros H; lra].
  - split; [intros _ | reflexivity].
    apply Qnot_le_lt. intros H. apply Qle_bool_iff in H. congruence.
Qed.

Lemma Qltb_ge (a b : Q) : Qltb a b = false <-> b <= a.
Proof.
  unfold Qltb. rewrite negb_false_iff. apply Qle_bool_iff.
Qed.

Lemma in_unit_spec (x : Q) : in_unit x = true <-> 0 <= x <= 1.
Proof.
  unfold in_unit. rewrite andb_true_iff, !Qleb_le. tauto.
Qed.

(** [max(0.0, min(1.0, x))] clamps to the unit interval. *)
Lemma clamp_unit (x : Q) : 0 <= Py.max 0 (Py.min 1 x) <= 1.
Proof.
  unfold Py.max, Py.min. case_cmp; lra.
Qed.

Lemma clamp_id (x : Q) : 0 <= x <= 1 -> Py.max 0 (Py.min 1 x) == x.
Proof.
  intros H. unfold Py.max, Py.min. case_cmp; apply Qle_antisym; lra.
Qed.

Lemma clamp_mono (x y : Q) :
  x <= y -> Py.max 0 (Py.min 1 x) <= Py.max 0 (Py.min 1 y).
Proof.
  intros H. unfold Py.max, Py.min. case_cmp; lra.
Qed.

(** [sum] as a right fold, up to [==]. *)
Lemma fold_left_Qplus (l : list Q) (a : Q) :
  fold_left Qplus l a == a + fold_right Qplus 0 l.
Proof.
  revert a. induction l as [|x l IH]; intros a; simpl.
  - lra.
  - rewrite IH. lra.
Qed.

Lemma sum_cons (x : Q) (l : list Q) : Py.sum (x :: l) == x + Py.sum l.
Proof.
  unfold Py.sum. simpl. rewrite !fold_left_Qplus. lra.
Qed.

Lemma sum_nonneg (l : list Q) : Forall (fun x => 0 <= x) l -> 0 <= Py.sum l.
Proof.
  induction 1 as [|x l Hx _ IH].
  - unfold Py.sum. simpl. lra.
  - rewrite sum_cons. lra.
Qed.

Lemma sum_le_length (l : list Q) :
  Forall (fun x => x <= 1) l -> Py.sum l <= Py.float (length l).
Proof.
  induction 1 as [|x l Hx _ IH].
  - apply Qle_refl.
  - rewrite sum_cons. unfold Py.float in *.
    change (length (x :: l)) with (S (length l)).
    rewrite Nat2Z.inj_succ, <- Z.add_1_r, inject_Z_plus.
    change (inject_Z 1) with 1. lra.
Qed.

(** [l[:n]] only holds elements of [l]. *)
Lemma In_firstn {A} (x : A) (n : nat) (l : list A) :
  In x (firstn n l) -> In x l.
Proof.
  revert l. induction n as [|n IH]; intros [|y l]; simpl; try tauto.
  intros [H | H]; [left | right]; auto.
Qed.

(** *** The error monad *)

Section MapM.
Context {A B : Type} (f : A -> result B).

Lemma mapM_cons_Ok (a : A) (l : list A) (bs : list B) :
  mapM f (a :: l) = Ok bs ->
  exists b bs', f a = Ok b /\ mapM f l = Ok bs' /\ bs = b :: bs'.
Proof.
  simpl. unfold mbind, result_bind, mret, result_ret.
  destruct (f a) as [b|e]; [|discriminate].
  destruct (mapM f l) as [bs'|e]; [|discriminate].
  intros [= <-]. eauto.
Qed.

Lemma mapM_Ok_Forall2 (l : list A) (bs : list B) :
  mapM f l = Ok bs -> Forall2 (fun a b => f a = Ok b) l bs.
Proof.
  revert bs. induction l as [|a l IH]; intros bs H.
  - injection H as <-. constructor.
  - apply mapM_cons_Ok in H as (b & bs' & Hb & Hl & ->).
    constructor; auto.
Qed.

Lemma mapM_Ok_In (l : list A) (bs : list B) (b : B) :
  mapM f l = Ok bs -> In b bs -> exists a, In a l /\ f a = Ok b.
Proof.
  intros H. apply mapM_Ok_Forall2 in H.
  induction H as [|a b' l bs Hab _ IH]; intros Hin; [destruct Hin|].
  destruct Hin as [<- | Hin].
  - exists a. split; [left; reflexivity | assumption].
  - destruct (IH Hin) as (a' & Ha' & Hf). exists a'.
    split; [right|]; assumption.
Qed.

Lemma mapM_Ok_length (l : list A) (bs : list B) :
  mapM f l = Ok bs -> length bs = length l.
Proof.
  intros H. apply mapM_Ok_Forall2 in H.
  induction H; simpl; congruence.
Qed.

Lemma mapM_pure (g : A -> B) (l : list A) :
  Forall (fun a => f a = Ok (g a)) l -> mapM f l = Ok (map g l).
Proof.
  induction 1 as [|a l Ha _ IH]; [reflexivity|].
  cbn [mapM]. rewrite Ha, IH. reflexivity.
Qed.
End MapM.

(** *** The stable descending sort *)

Section StableSort.
Context {A : Type} (key : A -> Q).

Let lt (a b : A) : bool := Qltb (key a) (key b).

Lemma insert_desc_perm (x : A) (l : list A) :
  Permutation (x :: l) (insert_desc lt x l).
Proof.
  induction l as [|y l IH]; simpl; [reflexivity|].
  destruct (lt x y); [|reflexivity].
  rewrite perm_swap. constructor. exact IH.
Qed.

Lemma sort_reverse_perm (l : list A) : Permutation l (sort_reverse lt l).
Proof.
  induction l as [|x l IH]; simpl; [reflexivity|].
  rewrite <- insert_desc_perm. constructor. exact IH.
Qed.

Lemma sort_reverse_length (l : list A) :
  length (sort_reverse lt l) = length l.
Proof. symmetry. apply Permutation_length, sort_reverse_perm. Qed.

Lemma insert_desc_descending (x : A) (l : list A) :
  descending key l -> descending key (insert_desc lt x l).
Proof.
  unfold descending.
  induction l as [|y l IH]; intros Hs; simpl.
  - repeat constructor.
  - destruct (lt x y) eqn:E.
    + apply StronglySorted_inv in Hs as [Hs Hy].
      constructor; [auto|].
      apply (Permutation_Forall (insert_desc_perm x l)).
      constructor; [|exact Hy].
      apply Qltb_lt in E. lra.
    + apply Qltb_ge in E.
      constructor; [exact Hs|].
      constructor; [exact E|].
      apply StronglySorted_inv in Hs as [_ Hy].
      eapply List.Forall_impl; [|exact Hy]. simpl. intros z Hz. lra.
Qed.

Lemma sort_reverse_descending (l : list A) : descending key (sort_reverse lt l).
Proof.
  induction l as [|x l IH]; simpl.
  - constructor.
  - apply insert_desc_descending, IH.
Qed.

Lemma insert_desc_with_key (c : Q) (x : A) (l : list A) :
  with_key key c (insert_desc lt x l) = with_key key c (x :: l).
Proof.
  unfold with_key.
  induction l as [|y l IH]; [reflexivity|].
  simpl insert_desc. destruct (lt x y) eqn:E; [|reflexivity].
  simpl in *. rewrite IH.
  destruct (Qeq_bool (key x) c) eqn:Ex; [|reflexivity].
  destruct (Qeq_bool (key y) c) eqn:Ey; [|reflexivity].
  apply Qeq_bool_iff in Ex, Ey. apply Qltb_lt in E. lra.
Qed.

(** Stability: elements with the same key keep their order. *)
Lemma sort_reverse_stable (c : Q) (l : list A) :
  with_key key c (sort_reverse lt l) = with_key key c l.
Proof.
  induction l as [|x l IH]; [reflexivity|].
  simpl sort_reverse. rewrite insert_desc_with_key.
  unfold with_key in *. simpl. rewrite IH. reflexivity.
Qed.
End StableSort.

End PyFacts.

(** * The validated models *)

Module ModelFacts.

Import PyFacts.
Local Open Scope Q_scope.

Lemma check_seq {A} (field : string) (b : bool) (k : result A) (a : A) :
  (check field b;; k) = Ok a <-> b = true /\ k = Ok a.
Proof.
  destruct b; simpl; split; try tauto; try discriminate.
  intros [H _]. discriminate.
Qed.

Lemma MaterialPriceResponse_make_Ok (r r' : MaterialPriceResponse.t) :
  MaterialPriceResponse.make r = Ok r' <->
  r' = r /\
  0 <= MaterialPriceResponse.unit_price r /\
  0 <= MaterialPriceResponse.similarity_score r <= 1 /\
  match MaterialPriceResponse.quality_score r with
  | None => True
  | Some q => (1 <= q <= 10)%Z
  end.
Proof.
  unfold MaterialPriceResponse.make.
  rewrite !check_seq, Qleb_le, in_unit_spec.
  assert (Hq : match MaterialPriceResponse.quality_score r with
               | Some q => (1 <=? q)%Z && (q <=? 10)%Z
               | None => true
               end = true <->
               match MaterialPriceResponse.quality_score r with
               | None => True
               | Some q => (1 <= q <= 10)%Z
               end).
  { destruct (MaterialPriceResponse.quality_score r); [|tauto].
    rewrite andb_true_iff, !Z.leb_le. tauto. }
  rewrite Hq. intuition congruence.
Qed.

Lemma MaterialItem_make_Ok (r r' : MaterialItem.t) :
  MaterialItem.make r = Ok r' <->
  r' = r /\
  0 < MaterialItem.quantity r /\
  0 <= MaterialItem.unit_price r /\
  0 <= MaterialItem.total_price r /\
  0 <= MaterialItem.confidence_score r <= 1.
Proof.
  unfold MaterialItem.make.
  rewrite !check_seq, Qltb_lt, !Qleb_le, in_unit_spec.
  intuition congruence.
Qed.

Lemma Task_make_Ok (r r' : Task.t) :
  Task.make r = Ok r' <->
  r' = r /\
  0 <= Task.margin_protected_price r /\
  0 <= Task.confidence_score r <= 1 /\
  match Task.labor_cost r with
  | None => True
  | Some c => 0 <= c
  end.
Proof.
  unfold Task.make.
  rewrite !check_seq, Qleb_le, in_unit_spec.
  destruct (Task.labor_cost r); rewrite ?Qleb_le; intuition congruence.
Qed.

Lemma GenerateProposalResponse_make_Ok (r r' : GenerateProposalResponse.t) :
  GenerateProposalResponse.make r = Ok r' <->
  r' = r /\
  0 <= GenerateProposalResponse.total_estimate r /\
  0 <= GenerateProposalResponse.confidence_score r <= 1 /\
  0 <= GenerateProposalResponse.vat_rate r <= 1 /\
  0 <= GenerateProposalResponse.margin_percentage r.
Proof.
  unfold GenerateProposalResponse.make.
  rewrite !check_seq, !Qleb_le, !in_unit_spec.
  intuition congruence.
Qed.

Lemma FeedbackResponse_make_Ok (r r' : FeedbackResponse.t) :
  FeedbackResponse.make r = Ok r' <->
  r' = r /\ 0 <= FeedbackResponse.impact_score r <= 1.
Proof.
  unfold FeedbackResponse.make.
  rewrite !check_seq, in_unit_spec.
  intuition congruence.
Qed.

End ModelFacts.

(** * The confidence engine and the material ranker *)

Module MaterialFacts.

Import PyFacts ModelFacts MaterialService.
Local Open Scope Q_scope.

(** ** Sub-scores *)

Lemma regional_match_range (region : option string) (material_region : string) :
  0 <= regional_match region material_region <= 1.
Proof.
  unfold regional_match.
  repeat match goal with |- context [if ?b then _ else _] => destruct b end;
    lra.
Qed.

Lemma _validate_price_range_range (unit_price : Q) :
  0 <= _validate_price_range unit_price <= 1.
Proof.
  unfold _validate_price_range.
  repeat match goal with |- context [if ?b then _ else _] => destruct b end;
    lra.
Qed.

Lemma _get_vendor_reliability_range (vendor : option string) :
  0 <= _get_vendor_reliability vendor <= 1.
Proof.
  unfold _get_vendor_reliability, reliable_vendors.
  destruct (truthy vendor); [|lra].
  cbn [List.find fst snd].
  repeat match goal with |- context [if ?b then _ else _] => destruct b end;
    cbn [snd]; lra.
Qed.

Lemma _calculate_similarity_score_range
  (embedding_similarity : string -> string -> result Q)
  (material : Material.t) (query : string) :
  0 <= _calculate_similarity_score embedding_similarity material query <= 1.
Proof.
  unfold _calculate_similarity_score.
  destruct (truthy (Material.embedding material)).
  - destruct (embedding_similarity _ _); simpl; [apply clamp_unit | lra].
  - simpl. apply clamp_unit.
Qed.

(** X7.  With the configured weights and a similarity in the unit interval the
    clamp has nothing to cut: the score is the weighted sum itself. *)
Lemma configured_confidence_is_weighted_sum
  (material : Material.t) (similarity_score : Q) (region : option string) :
  0 <= similarity_score <= 1 ->
  _calculate_confidence_score (confidence_weights settings)
                              material similarity_score region
  == similarity_score * (40 # 100)
     + regional_match region (Material.region material) * (25 # 100)
     + _validate_price_range (Material.unit_price material) * (20 # 100)
     + _get_vendor_reliability (Material.vendor material) * (15 # 100).
Proof.
  intros Hs. unfold _calculate_confidence_score.
  change (getitem (confidence_weights settings) "semantic_similarity")
    with (Ok (40 # 100)).
  change (getitem (confidence_weights settings) "regional_match")
    with (Ok (25 # 100)).
  change (getitem (confidence_weights settings) "price_range")
    with (Ok (20 # 100)).
  change (getitem (confidence_weights settings) "vendor_reliability")
    with (Ok (15 # 100)).
  cbn [mbind result_bind try_except].
  apply clamp_id.
  pose proof (regional_match_range region (Material.region material)).
  pose proof (_validate_price_range_range (Material.unit_price material)).
  pose proof (_get_vendor_reliability_range (Material.vendor material)).
  lra.
Qed.

(** ** C3 *)

(** C3.  The confidence score lies in [0,1] for every weight table (also
    one that lacks a key), every material (any unit price, any vendor,
    present or absent), every similarity and every requested region. *)
Theorem confidence_score_in_unit_interval
  (weights : gmap string Q) (material : Material.t) (similarity_score : Q)
  (region : option string) :
  0 <= _calculate_confidence_score weights material similarity_score region
    <= 1.
Proof.
  unfold _calculate_confidence_score.
  destruct (getitem weights "semantic_similarity") as [w1|]; simpl; [|lra].
  destruct (getitem weights "regional_match") as [w2|]; simpl; [|lra].
  destruct (getitem weights "price_range") as [w3|]; simpl; [|lra].
  destruct (getitem weights "vendor_reliability") as [w4|]; simpl; [|lra].
  apply clamp_unit.
Qed.

(** ** The ranking *)

Section Ranking.
Variable embedding_similarity : string -> string -> result Q.
Variable settings : Settings.

Lemma to_response_Ok (item : Ranked) (r : MaterialPriceResponse.t) :
  to_response item = Ok r -> r = response_of item.
Proof.
  unfold to_response. rewrite MaterialPriceResponse_make_Ok. tauto.
Qed.

Lemma to_response_valid (query : string) (region : option string)
  (m : Material.t) :
  valid_row m ->
  let item := score embedding_similarity settings query region m in
  to_response item = Ok (response_of item).
Proof.
  intros [Hp Hq] item. unfold to_response.
  apply MaterialPriceResponse_make_Ok.
  repeat split; try assumption;
    apply _calculate_similarity_score_range.
Qed.

Lemma search_materials_unfold
  (db : Store) (query : string) (region unit : option string)
  (quality_score : option Z) (vendor : option string) (limit : nat) :
  search_materials embedding_similarity settings db query region unit
                   quality_score vendor limit
  = mapM to_response
      (ranked_materials embedding_similarity settings db query region unit
                        quality_score vendor limit).
Proof.
  unfold search_materials, ranked_materials.
  destruct (candidates _ _ _ _ _ _); [|reflexivity].
  simpl. rewrite firstn_nil. reflexivity.
Qed.

Lemma search_materials_Ok
  (db : Store) (query : string) (region unit : option string)
  (quality_score : option Z) (vendor : option string) (limit : nat)
  (rs : list MaterialPriceResponse.t) :
  search_materials embedding_similarity settings db query region unit
                   quality_score vendor limit = Ok rs ->
  rs = map response_of
         (ranked_materials embedding_similarity settings db query region unit
                           quality_score vendor limit).
Proof.
  rewrite search_materials_unfold. intros H.
  apply mapM_Ok_Forall2 in H.
  induction H as [|item r items rs' Hr _ IH]; [reflexivity|].
  simpl. rewrite (to_response_Ok _ _ Hr), IH. reflexivity.
Qed.

Lemma ranked_materials_length
  (db : Store) (query : string) (region unit : option string)
  (quality_score : option Z) (vendor : option string) (limit : nat) :
  (length (ranked_materials embedding_similarity settings db query region
                            unit quality_score vendor limit) <= limit)%nat.
Proof.
  unfold ranked_materials. rewrite length_firstn. lia.
Qed.

Lemma ranked_materials_valid
  (db : Store) (query : string) (region unit : option string)
  (quality_score : option Z) (vendor : option string) (limit : nat) :
  Forall valid_row (candidates db region unit quality_score vendor limit) ->
  Forall (fun item => to_response item = Ok (response_of item))
    (ranked_materials embedding_similarity settings db query region unit
                      quality_score vendor limit).
Proof.
  intros Hv. unfold ranked_materials.
  apply List.Forall_forall. intros item Hin.
  apply In_firstn in Hin. unfold rank in Hin.
  apply (Permutation_in _
           (Permutation_sym (sort_reverse_perm confidence_score _))) in Hin.
  apply in_map_iff in Hin as (m & <- & Hm).
  apply to_response_valid.
  rewrite List.Forall_forall in Hv. auto.
Qed.
End Ranking.

(** ** C4 *)

(** C4.  For every query, filter set and limit: the candidates are ranked
    by a stable sort on the confidence score, descending (the ranking is a
    permutation of the scored candidates, each element is at least as
    confident as those after it, and candidates of equal confidence keep
    the order in which storage returned them); whatever is returned is the
    response form of the first [limit] ranked candidates, so at most
    [limit] results; the search returns when the rows satisfy the response
    model, and returns the empty list when storage yields no candidate. *)
Theorem search_materials_ranked
  (embedding_similarity : string -> string -> result Q) (settings : Settings)
  (db : Store) (query : string) (region unit : option string)
  (quality_score : option Z) (vendor : option string) (limit : nat) :
  let found := candidates db region unit quality_score vendor limit in
  let scored := map (score embedding_similarity settings query region) found in
  let top := firstn limit (rank scored) in
  let search :=
    search_materials embedding_similarity settings db query region unit
                     quality_score vendor limit in
  (Permutation scored (rank scored) /\
   descending confidence_score (rank scored) /\
   forall c, with_key confidence_score c (rank scored)
             = with_key confidence_score c scored) /\
  (forall rs, search = Ok rs ->
              rs = map response_of top /\ (length rs <= limit)%nat) /\
  (Forall valid_row found -> search = Ok (map response_of top)) /\
  (found = [] -> search = Ok []).
Proof.
  intros found scored top search.
  split; [|split; [|split]].
  - split; [|split].
    + apply sort_reverse_perm.
    + apply sort_reverse_descending.
    + intros c. apply sort_reverse_stable.
  - intros rs H. apply search_materials_Ok in H.
    split; [exact H|]. rewrite H, length_map.
    apply ranked_materials_length.
  - intros Hv. subst search. rewrite search_materials_unfold.
    apply mapM_pure, ranked_materials_valid, Hv.
  - intros H. subst search. unfold search_materials.
    fold found. rewrite H. reflexivity.
Qed.

End MaterialFacts.

(** * The task extractor and the pricing calculator *)

Module PricingFacts.

Import PyFacts ModelFacts MaterialFacts MaterialService PricingService.
Local Open Scope Q_scope.

(** ** Quantities *)

(** The lookup of [_estimate_material_quantity] as a decision list on the
    lower-cased name: the keys of [base_quantities] themselves, first match
    in dictionary order. *)
Lemma _estimate_material_quantity_cases
  (material : MaterialPriceResponse.t) (task_type : string) :
  let name := lower (MaterialPriceResponse.material_name material) in
  _estimate_material_quantity material task_type =
    if contains "tiles" name then 10
    else if contains "adhesives" name then 5
    else if contains "paints" name then 5
    else if contains "pipes" name then 10
    else if contains "wires" name then 20
    else if contains "wood" name then 5
    else 1.
Proof.
  unfold _estimate_material_quantity, base_quantities.
  cbn [List.find fst snd].
  repeat match goal with |- context [if ?b then _ else _] => destruct b end;
    reflexivity.
Qed.

Lemma _estimate_material_quantity_positive
  (material : MaterialPriceResponse.t) (task_type : string) :
  1 <= _estimate_material_quantity material task_type.
Proof.
  rewrite _estimate_material_quantity_cases.
  repeat match goal with |- context [if ?b then _ else _] => destruct b end;
    lra.
Qed.

(** ** Durations *)

(** On the six categories [_estimate_task_duration] is the table of base
    days, plus one day above five materials. *)
Lemma _estimate_task_duration_table
  (task_type : string) (material_count : nat) :
  In task_type categories ->
  _estimate_task_duration task_type material_count
  = show_days (base_days task_type + bump material_count).
Proof.
  unfold categories, bump. intros H.
  repeat destruct H as [<- | H]; try destruct H;
    unfold _estimate_task_duration;
    destruct (5 <? material_count)%nat; reflexivity.
Qed.

Lemma set_add_In (x y : string) (s : list string) :
  In y (set_add x s) -> y = x \/ In y s.
Proof.
  unfold set_add. destruct (mem x s); [tauto|].
  rewrite in_app_iff. simpl. intuition.
Qed.

Lemma identified_tasks_categories
  (keywords : list string) (task_type : string) :
  In task_type (identified_tasks keywords) ->
  In task_type (map fst task_keywords).
Proof.
  unfold identified_tasks.
  assert (H : forall acc,
             (forall t, In t acc -> In t (map fst task_keywords)) ->
             forall t,
               In t (fold_left
                       (fun acc keyword =>
                          fold_left
                            (fun acc kv =>
                               if existsb (fun k => contains k (lower keyword))
                                          (snd kv)
                               then set_add (fst kv) acc else acc)
                            task_keywords acc)
                       keywords acc) ->
               In t (map fst task_keywords)).
  { induction keywords as [|keyword keywords IH]; intros acc Hacc t;
      [apply Hacc|].
    cbn [fold_left]. apply IH. clear IH t.
    unfold task_keywords at 1. cbn [fold_left fst snd].
    repeat match goal with
           | |- context [if ?b then _ else _] => destruct b
           end;
      intros t Ht;
      repeat (apply set_add_In in Ht as [-> | Ht]; [simpl; tauto|]);
      auto. }
  apply H. intros t [].
Qed.

(** [_identify_tasks] either synthesizes the general task or builds one
    task for each identified category. *)
Lemma _identify_tasks_cases
  (transcript : string) (keywords : list string)
  (materials : list MaterialPriceResponse.t) :
  (identified_tasks keywords = [] /\
   _identify_tasks transcript keywords materials
   = [{| type := "general"; PricingService.materials := materials;
         duration := "1 day" |}])
  \/
  (identified_tasks keywords <> [] /\
   _identify_tasks transcript keywords materials
   = map (task_for materials) (identified_tasks keywords)).
Proof.
  unfold _identify_tasks.
  destruct (identified_tasks keywords) as [|t ts]; [left | right];
    split; try reflexivity; discriminate.
Qed.

(** Every task that [_identify_tasks] builds from an identified category
    gets its duration from [_estimate_task_duration]; the synthesized
    general task gets the literal ["1 day"]. *)
Lemma _identify_tasks_durations
  (transcript : string) (keywords : list string)
  (materials : list MaterialPriceResponse.t) (task : TaskData) :
  In task (_identify_tasks transcript keywords materials) ->
  (In (type task) (identified_tasks keywords) /\
   duration task
   = show_days (base_days (type task)
                + bump (length (PricingService.materials task))))
  \/
  (identified_tasks keywords = [] /\
   task = {| type := "general"; PricingService.materials := materials;
             duration := "1 day" |}).
Proof.
  destruct (_identify_tasks_cases transcript keywords materials)
    as [[E ->] | [_ ->]].
  - intros [<- | []]. right. split; [exact E | reflexivity].
  - intros Hin. apply in_map_iff in Hin as (task_type & <- & Hin).
    left. split; [exact Hin|].
    cbn [task_for type duration PricingService.materials].
    apply _estimate_task_duration_table.
    apply identified_tasks_categories in Hin.
    unfold categories. simpl in Hin. simpl. tauto.
Qed.

(** When no category is identified the single task keeps ["1 day"], also
    with more than five materials, where [_estimate_task_duration] would
    give a general task ["2 days"]. *)
Lemma general_task_keeps_one_day
  (transcript : string) (keywords : list string)
  (materials : list MaterialPriceResponse.t) :
  identified_tasks keywords = [] ->
  (5 < length materials)%nat ->
  _identify_tasks transcript keywords materials
  = [{| type := "general"; PricingService.materials := materials;
        duration := "1 day" |}] /\
  _estimate_task_duration "general" (length materials) = "2 days".
Proof.
  intros E Hlen. split.
  - destruct (_identify_tasks_cases transcript keywords materials)
      as [[_ ->] | [Hne _]]; [reflexivity | congruence].
  - unfold _estimate_task_duration.
    apply Nat.ltb_lt in Hlen. rewrite Hlen. reflexivity.
Qed.

(** ** From the ranked materials to the items of a proposal *)

Lemma price_material_Ok
  (task_type : string) (m : MaterialPriceResponse.t) (item : MaterialItem.t) :
  price_material task_type m = Ok item -> item = item_of task_type m.
Proof.
  unfold price_material. rewrite MaterialItem_make_Ok. tauto.
Qed.

Lemma price_material_nonneg
  (task_type : string) (m : MaterialPriceResponse.t) (item : MaterialItem.t) :
  price_material task_type m = Ok item ->
  0 <= MaterialItem.total_price item /\
  0 <= MaterialItem.confidence_score item <= 1.
Proof.
  unfold price_material. rewrite MaterialItem_make_Ok.
  intros (-> & _ & _ & Ht & Hc). split; assumption.
Qed.

Lemma _identify_tasks_materials
  (transcript : string) (keywords : list string)
  (materials : list MaterialPriceResponse.t) (task : TaskData)
  (m : MaterialPriceResponse.t) :
  In task (_identify_tasks transcript keywords materials) ->
  In m (PricingService.materials task) -> In m materials.
Proof.
  destruct (_identify_tasks_cases transcript keywords materials)
    as [[_ ->] | [_ ->]].
  - intros [<- | []]. auto.
  - intros Hin. apply in_map_iff in Hin as (task_type & <- & _).
    cbn [task_for PricingService.materials]. rewrite filter_In. tauto.
Qed.

Section Proposal.
Variable embedding_similarity : string -> string -> result Q.
Variable settings : Settings.

(** The items of a priced task are the items of the materials that were
    assigned to it; the fallback task has none. *)
Lemma task_pricing_items
  (task_data : TaskData) (region project_type : option string)
  (item : MaterialItem.t) :
  In item (Task.materials
             (_calculate_task_pricing settings task_data region
                                      project_type)) ->
  exists m, In m (PricingService.materials task_data) /\
            item = item_of (type task_data) m.
Proof.
  unfold _calculate_task_pricing.
  destruct (mapM _ (PricingService.materials task_data)) as [items|] eqn:Em;
    cbn [mbind result_bind try_except]; [|intros []].
  destruct (_calculate_labor_cost settings _ _) as [labor|];
    cbn [mbind result_bind try_except]; [|intros []].
  destruct (Task.make _) as [task|] eqn:Et;
    cbn [try_except]; [|intros []].
  apply Task_make_Ok in Et as [-> _]. cbn [Task.materials].
  intros Hin.
  destruct (mapM_Ok_In _ _ _ _ Em Hin) as (m & Hm & Hf).
  exists m. split; [exact Hm | apply price_material_Ok, Hf].
Qed.

Lemma searched_materials_In
  (db : Store) (keywords : list string) (region : option string)
  (ms : list MaterialPriceResponse.t) (m : MaterialPriceResponse.t) :
  searched_materials embedding_similarity settings db keywords region = Ok ms ->
  In m ms ->
  exists keyword ranked,
    In keyword keywords /\
    In ranked (ranked_materials embedding_similarity settings db keyword
                                region None None None 3) /\
    m = response_of ranked.
Proof.
  unfold searched_materials.
  destruct (mapM _ keywords) as [results|] eqn:Er;
    cbn [mbind result_bind]; [|discriminate].
  intros [= <-] Hin.
  apply in_concat in Hin as (rs & Hrs & Hin).
  destruct (mapM_Ok_In _ _ _ _ Er Hrs) as (keyword & Hk & Hs).
  apply search_materials_Ok in Hs. subst rs.
  apply in_map_iff in Hin as (ranked & <- & Hranked).
  exists keyword, ranked. auto.
Qed.

(** Every material of an extracted task is the response form of a
    candidate ranked for one of the keywords of the transcript. *)
Lemma extracted_materials_ranked
  (db : Store) (transcript : string) (region : option string)
  (task_data : TaskData) (m : MaterialPriceResponse.t) :
  In task_data
     (_extract_materials_and_tasks embedding_similarity settings db
                                   transcript region) ->
  In m (PricingService.materials task_data) ->
  exists keyword ranked,
    In keyword (EmbeddingService.get_semantic_keywords
                  (EmbeddingService.preprocess_text transcript) 10) /\
    In ranked (ranked_materials embedding_similarity settings db keyword
                                region None None None 3) /\
    m = response_of ranked.
Proof.
  unfold _extract_materials_and_tasks.
  destruct (searched_materials _ _ _ _ _) as [ms|] eqn:Es;
    cbn [mbind result_bind try_except].
  - intros Ht Hm.
    eapply searched_materials_In; [exact Es|].
    eapply _identify_tasks_materials; eassumption.
  - intros [<- | []] [].
Qed.

Lemma generate_proposal_Ok
  (db : Store) (quote_id : string) (now : Z) (transcript : string)
  (user_type : UserType) (region project_type : option string)
  (resp : GenerateProposalResponse.t) :
  fst (generate_proposal embedding_similarity settings db quote_id now
                         transcript user_type region project_type) = Ok resp ->
  let tasks :=
    priced_tasks embedding_similarity settings db transcript region
                 project_type in
  let totals := fold_left accumulate tasks (0, 0) in
  let subtotal := fst totals + snd totals in
  let vat_rate := _determine_vat_rate settings project_type in
  GenerateProposalResponse.tasks resp = tasks /\
  GenerateProposalResponse.vat_rate resp = vat_rate /\
  GenerateProposalResponse.margin_percentage resp = base_margin settings /\
  GenerateProposalResponse.total_estimate resp
  = subtotal + subtotal * vat_rate + subtotal * base_margin settings.
Proof.
  unfold generate_proposal.
  destruct (commits _ _ _); cbn [negb fst]; intros Hr; [|discriminate].
  apply GenerateProposalResponse_make_Ok in Hr as [-> _].
  repeat split.
Qed.

(** Where an item of a generated proposal comes from. *)
Lemma proposal_item_origin
  (db : Store) (quote_id : string) (now : Z) (transcript : string)
  (user_type : UserType) (region project_type : option string)
  (resp : GenerateProposalResponse.t) (task : Task.t) (item : MaterialItem.t) :
  fst (generate_proposal embedding_similarity settings db quote_id now
                         transcript user_type region project_type) = Ok resp ->
  In task (GenerateProposalResponse.tasks resp) ->
  In item (Task.materials task) ->
  exists task_type keyword ranked,
    In keyword (EmbeddingService.get_semantic_keywords
                  (EmbeddingService.preprocess_text transcript) 10) /\
    In ranked (ranked_materials embedding_similarity settings db keyword
                                region None None None 3) /\
    item = item_of task_type (response_of ranked).
Proof.
  intros H Ht Hi.
  apply generate_proposal_Ok in H as (Htasks & _).
  rewrite Htasks in Ht. unfold priced_tasks in Ht.
  apply in_map_iff in Ht as (task_data & <- & Htd).
  apply task_pricing_items in Hi as (m & Hm & ->).
  destruct (extracted_materials_ranked _ _ _ _ _ Htd Hm)
    as (keyword & ranked & Hk & Hr & ->).
  exists (type task_data), keyword, ranked. auto.
Qed.

(** The confidence of a priced task is computed from the confidence
    scores of its own items, unless the task is the fallback. *)
Lemma task_pricing_confidence
  (task_data : TaskData) (region project_type : option string) :
  let task := _calculate_task_pricing settings task_data region project_type in
  task = fallback_task task_data \/
  Task.confidence_score task
  = _calculate_task_confidence (Task.materials task) (type task_data).
Proof.
  unfold _calculate_task_pricing.
  destruct (mapM _ (PricingService.materials task_data)) as [items|];
    cbn [mbind result_bind try_except]; [|left; reflexivity].
  destruct (_calculate_labor_cost settings _ _) as [labor|];
    cbn [mbind result_bind try_except]; [|left; reflexivity].
  destruct (Task.make _) as [task|] eqn:Et;
    cbn [try_except]; [|left; reflexivity].
  apply Task_make_Ok in Et as [-> _]. right. reflexivity.
Qed.

(** The regional multiplier enters a priced task through its labor cost
    and its margin-protected price. *)
Lemma task_pricing_margin
  (task_data : TaskData) (region project_type : option string) :
  let task := _calculate_task_pricing settings task_data region project_type in
  let multiplier := _get_regional_multiplier settings region in
  task = fallback_task task_data \/
  exists labor_cost,
    _calculate_labor_cost settings (type task_data) (duration task_data)
    = Ok labor_cost /\
    Task.labor_cost task = Some (labor_cost * multiplier) /\
    Task.margin_protected_price task
    = (materials_cost task * multiplier + labor_cost * multiplier)
      * (1 + base_margin settings).
Proof.
  unfold _calculate_task_pricing.
  destruct (mapM _ (PricingService.materials task_data)) as [items|];
    cbn [mbind result_bind try_except]; [|left; reflexivity].
  destruct (_calculate_labor_cost settings _ _) as [labor|];
    cbn [mbind result_bind try_except]; [|left; reflexivity].
  destruct (Task.make _) as [task|] eqn:Et;
    cbn [try_except]; [|left; reflexivity].
  apply Task_make_Ok in Et as [-> _]. right.
  exists labor. repeat split.
Qed.

(** ** Totals *)

Lemma fold_accumulate (tasks : list Task.t) (a b : Q) :
  fst (fold_left accumulate tasks (a, b))
  == a + Py.sum (map materials_cost tasks) /\
  snd (fold_left accumulate tasks (a, b))
  == b + Py.sum (map labor_of tasks).
Proof.
  revert a b. induction tasks as [|task tasks IH]; intros a b.
  - unfold Py.sum. simpl. split; lra.
  - cbn [fold_left map].
    pose proof (sum_cons (materials_cost task) (map materials_cost tasks))
    as Hm.
    pose proof (sum_cons (labor_of task) (map labor_of tasks)) as Hl.
    destruct (IH (fst (accumulate (a, b) task)) (snd (accumulate (a, b) task)))
      as [IHm IHl].
    rewrite <- surjective_pairing in IHm, IHl.
    split.
    + rewrite IHm, Hm. unfold accumulate, materials_cost. cbn [fst]. lra.
    + rewrite IHl, Hl. unfold accumulate, labor_of. cbn [fst snd].
      destruct (Task.labor_cost task) as [c|]; cbn [default from_option id].
      * destruct (Qeq_bool c 0) eqn:E; [|lra].
        apply Qeq_bool_iff in E. lra.
      * lra.
Qed.

Lemma _determine_vat_rate_mentions_new (project_type : option string) :
  _determine_vat_rate settings project_type
  = if mentions_new project_type
    then vat_new_build settings else vat_renovation settings.
Proof.
  unfold _determine_vat_rate, mentions_new, truthy.
  destruct project_type as [s|]; [|reflexivity].
  destruct s; reflexivity.
Qed.

(** ** Validity of what the pricing produces *)

Lemma _calculate_overall_confidence_range (tasks : list Task.t) :
  Forall (fun task => 0 <= Task.confidence_score task <= 1) tasks ->
  0 <= _calculate_overall_confidence tasks <= 1.
Proof.
  intros H. unfold _calculate_overall_confidence.
  destruct tasks as [|task tasks]; [lra|].
  set (l := task :: tasks) in *.
  assert (Hlen : 0 < Py.float (length l)).
  { unfold Py.float. change 0 with (inject_Z 0). rewrite <- Zlt_Qlt.
    subst l. simpl length. lia. }
  assert (H0 : 0 <= Py.sum (map Task.confidence_score l)).
  { apply sum_nonneg. rewrite Forall_map.
    eapply List.Forall_impl; [|exact H]. simpl. tauto. }
  assert (H1 : Py.sum (map Task.confidence_score l) <= Py.float (length l)).
  { rewrite <- (length_map Task.confidence_score l).
    apply sum_le_length. rewrite Forall_map.
    eapply List.Forall_impl; [|exact H]. simpl. tauto. }
  split.
  - apply Qle_shift_div_l; [exact Hlen | lra].
  - apply Qle_shift_div_r; [exact Hlen | lra].
Qed.

(** Every priced task, the fallback included, has a confidence in
    [0,1], a labor cost and item totals that are not negative. *)
Lemma task_pricing_valid
  (task_data : TaskData) (region project_type : option string) :
  let task := _calculate_task_pricing settings task_data region project_type in
  0 <= Task.confidence_score task <= 1 /\
  0 <= labor_of task /\
  0 <= materials_cost task.
Proof.
  unfold _calculate_task_pricing, labor_of, materials_cost.
  assert (Hfb : 0 <= 5 # 10 <= 1 /\ 0 <= 80 /\
              0 <= Py.sum (map MaterialItem.total_price [])).
  { unfold Py.sum. simpl. lra. }
  destruct (mapM _ (PricingService.materials task_data)) as [items|] eqn:Em;
    cbn [mbind result_bind try_except]; [|exact Hfb].
  destruct (_calculate_labor_cost settings _ _) as [labor|];
    cbn [mbind result_bind try_except]; [|exact Hfb].
  destruct (Task.make _) as [task|] eqn:Et;
    cbn [try_except]; [|exact Hfb].
  apply Task_make_Ok in Et as (-> & _ & Hc & Hl).
  cbn [Task.confidence_score Task.labor_cost Task.materials] in *.
  cbn [default from_option id].
  repeat split; try tauto.
  apply sum_nonneg. rewrite Forall_map.
  apply List.Forall_forall. intros item Hin.
  destruct (mapM_Ok_In _ _ _ _ Em Hin) as (m & _ & Hf).
  apply price_material_nonneg in Hf. tauto.
Qed.

Lemma subtotal_of_nonneg
  (db : Store) (transcript : string) (region project_type : option string) :
  0 <= subtotal_of (priced_tasks embedding_similarity settings db transcript
                                 region project_type).
Proof.
  unfold subtotal_of, priced_tasks.
  rewrite !map_map.
  assert (0 <= Py.sum
                 (map (fun x => materials_cost
                                  (_calculate_task_pricing settings x region
                                                           project_type))
                      (_extract_materials_and_tasks embedding_similarity
                         settings db transcript region))).
  { apply sum_nonneg. rewrite Forall_map. apply List.Forall_forall.
    intros td _. apply task_pricing_valid. }
  assert (0 <= Py.sum
                 (map (fun x => labor_of
                                  (_calculate_task_pricing settings x region
                                                           project_type))
                      (_extract_materials_and_tasks embedding_similarity
                         settings db transcript region))).
  { apply sum_nonneg. rewrite Forall_map. apply List.Forall_forall.
    intros td _. apply task_pricing_valid. }
  lra.
Qed.

(** With reasonable settings [generate_proposal] returns a proposal
    unless the commit fails, for every store and every transcript: the
    response always passes its validation. *)
Lemma generate_proposal_returns
  (db : Store) (quote_id : string) (now : Z) (transcript : string)
  (user_type : UserType) (region project_type : option string) :
  reasonable settings ->
  let out :=
    generate_proposal embedding_similarity settings db quote_id now
                      transcript user_type region project_type in
  (exists resp, fst out = Ok resp) \/
  out = (Raise (DataError "quotes"), db).
Proof.
  intros (Hm & Hr & Hn). cbv zeta.
  unfold generate_proposal.
  destruct (commits _ _ _); cbn [negb fst]; [left | right; reflexivity].
  eexists. apply GenerateProposalResponse_make_Ok.
  split; [reflexivity|].
  cbn [GenerateProposalResponse.total_estimate
       GenerateProposalResponse.confidence_score
       GenerateProposalResponse.vat_rate
       GenerateProposalResponse.margin_percentage].
  fold (priced_tasks embedding_similarity settings db transcript region
                     project_type).
  set (tasks := priced_tasks _ _ _ _ _ _).
  assert (Hv : 0 <= _determine_vat_rate settings project_type <= 1).
  { rewrite _determine_vat_rate_mentions_new.
    destruct (mentions_new project_type); assumption. }
  destruct (fold_accumulate tasks 0 0) as [Hf Hs].
  pose proof (subtotal_of_nonneg db transcript region project_type) as Hsub.
  fold tasks in Hsub. unfold subtotal_of in Hsub.
  set (f := fst (fold_left accumulate tasks (0, 0))) in *.
  set (l := snd (fold_left accumulate tasks (0, 0))) in *.
  assert (H0 : 0 <= f + l) by lra.
  repeat split; try tauto.
  - assert (0 <= (f + l) * _determine_vat_rate settings project_type)
      by (apply Qmult_le_0_compat; tauto).
    assert (0 <= (f + l) * base_margin settings)
      by (apply Qmult_le_0_compat; tauto).
    lra.
  - apply _calculate_overall_confidence_range.
    subst tasks. unfold priced_tasks. rewrite Forall_map.
    apply List.Forall_forall. intros td _. apply task_pricing_valid.
  - apply _calculate_overall_confidence_range.
    subst tasks. unfold priced_tasks. rewrite Forall_map.
    apply List.Forall_forall. intros td _. apply task_pricing_valid.
Qed.
End Proposal.

Lemma settings_reasonable : reasonable settings.
Proof. unfold reasonable. simpl. lra. Qed.

(** ** C1 *)

(** C1, as the code has it.  For every MaterialItem inside a Task of a
    generated proposal, [total_price] is [unit_price] times [quantity],
    where [unit_price] is the stored unit price of a ranked material: the
    region's multiplier does not enter it, whatever the region. *)
Theorem proposal_item_total_price
  (embedding_similarity : string -> string -> result Q) (settings : Settings)
  (db : Store) (quote_id : string) (now : Z) (transcript : string)
  (user_type : UserType) (region project_type : option string)
  (resp : GenerateProposalResponse.t) (task : Task.t) (item : MaterialItem.t) :
  fst (generate_proposal embedding_similarity settings db quote_id now
                         transcript user_type region project_type) = Ok resp ->
  In task (GenerateProposalResponse.tasks resp) ->
  In item (Task.materials task) ->
  MaterialItem.total_price item
  = MaterialItem.unit_price item * MaterialItem.quantity item /\
  exists keyword ranked,
    In ranked (ranked_materials embedding_similarity settings db keyword
                                region None None None 3) /\
    MaterialItem.unit_price item = Material.unit_price (material ranked).
Proof.
  intros H Ht Hi.
  destruct (proposal_item_origin _ _ _ _ _ _ _ _ _ _ _ _ H Ht Hi)
    as (task_type & keyword & ranked & _ & Hr & ->).
  split; [reflexivity|].
  exists keyword, ranked. split; [exact Hr | reflexivity].
Qed.

(** ** C2 *)

(** C2.  In every generated proposal the total is subtotal + VAT amount +
    margin amount, where the subtotal is the sum of the material and labor
    costs of the tasks, the VAT amount is subtotal times the VAT rate and
    the margin amount is subtotal times the base margin; the VAT rate is
    the new-build rate when the project type contains "new" in any case,
    and the renovation rate otherwise. *)
Theorem proposal_total_estimate
  (embedding_similarity : string -> string -> result Q) (settings : Settings)
  (db : Store) (quote_id : string) (now : Z) (transcript : string)
  (user_type : UserType) (region project_type : option string)
  (resp : GenerateProposalResponse.t) :
  fst (generate_proposal embedding_similarity settings db quote_id now
                         transcript user_type region project_type) = Ok resp ->
  let subtotal := subtotal_of (GenerateProposalResponse.tasks resp) in
  let vat_rate := GenerateProposalResponse.vat_rate resp in
  let vat_amount := subtotal * vat_rate in
  let margin_amount := subtotal * base_margin settings in
  GenerateProposalResponse.total_estimate resp
  == subtotal + vat_amount + margin_amount /\
  vat_rate = (if mentions_new project_type
              then vat_new_build settings else vat_renovation settings).
Proof.
  intros H. apply generate_proposal_Ok in H as (Ht & Hv & _ & He).
  cbv zeta. rewrite He, Hv, Ht. split.
  - unfold subtotal_of.
    destruct (fold_accumulate
                (priced_tasks embedding_similarity settings db transcript
                              region project_type) 0 0) as [Hf Hs].
    rewrite Hf, Hs. ring.
  - apply _determine_vat_rate_mentions_new.
Qed.

(** ** C8 *)

(** C8 at a failing input.  The transcript "strong glue" matches no task
    category; its two keywords retrieve six materials, all held by the
    synthesized general task, whose duration is still "1 day" although
    [_estimate_task_duration] gives "2 days" to a general task with six
    materials. *)
Theorem general_fallback_is_not_bumped :
  exists task,
    _extract_materials_and_tasks Samples.no_embedding settings
      Samples.glue_store Samples.glue_transcript None = [task] /\
    type task = "general" /\
    length (PricingService.materials task) = 6%nat /\
    duration task = "1 day" /\
    _estimate_task_duration "general" 6 = "2 days".
Proof.
  eexists. split; [vm_compute; reflexivity|].
  repeat split.
Qed.

(** ** C9 *)

(** C9 at a failing input.  "Ceramic Wall Tile 20x20cm", a tile of the
    sample data, gets quantity 1: its name contains "tile" but not the
    dictionary key "tiles". *)
Theorem tile_quantity_is_default :
  contains "tile"
    (lower (MaterialPriceResponse.material_name Samples.ceramic_tile)) = true /\
  _estimate_material_quantity Samples.ceramic_tile "tiling" = 1.
Proof. split; reflexivity. Qed.

(** ** C10 *)

(** C10.  In every generated proposal each MaterialItem is built from a
    candidate ranked for one of the keywords, and its confidence score is
    that candidate's similarity score; the confidence of each task is the
    fallback constant or is computed from the confidence scores of its own
    items, hence from similarity scores. *)
Theorem proposal_confidence_is_similarity
  (embedding_similarity : string -> string -> result Q) (settings : Settings)
  (db : Store) (quote_id : string) (now : Z) (transcript : string)
  (user_type : UserType) (region project_type : option string)
  (resp : GenerateProposalResponse.t) (task : Task.t) :
  fst (generate_proposal embedding_similarity settings db quote_id now
                         transcript user_type region project_type) = Ok resp ->
  In task (GenerateProposalResponse.tasks resp) ->
  (forall item,
     In item (Task.materials task) ->
     exists keyword ranked,
       In keyword (EmbeddingService.get_semantic_keywords
                     (EmbeddingService.preprocess_text transcript) 10) /\
       In ranked (ranked_materials embedding_similarity settings db keyword
                                   region None None None 3) /\
       MaterialItem.material_name item
       = Material.material_name (material ranked) /\
       MaterialItem.confidence_score item
       = MaterialService.similarity_score ranked) /\
  ((Task.materials task = [] /\ Task.confidence_score task = 5 # 10) \/
   exists task_type,
     Task.confidence_score task
     = _calculate_task_confidence (Task.materials task) task_type).
Proof.
  intros H Ht. split.
  - intros item Hi.
    destruct (proposal_item_origin _ _ _ _ _ _ _ _ _ _ _ _ H Ht Hi)
      as (task_type & keyword & ranked & Hk & Hr & ->).
    exists keyword, ranked. repeat split; assumption.
  - apply generate_proposal_Ok in H as (Htasks & _).
    rewrite Htasks in Ht. unfold priced_tasks in Ht.
    apply in_map_iff in Ht as (task_data & <- & _).
    destruct (task_pricing_confidence settings task_data region project_type)
      as [-> | Hc].
    + left. split; reflexivity.
    + right. exists (type task_data). exact Hc.
Qed.

(** The response form carries the similarity score and, of the confidence
    score, only the tier. *)
Lemma response_of_confidence_tier (a b : Ranked) :
  material a = material b ->
  MaterialService.similarity_score a = MaterialService.similarity_score b ->
  _get_confidence_tier (MaterialService.confidence_score a)
  = _get_confidence_tier (MaterialService.confidence_score b) ->
  response_of a = response_of b.
Proof.
  unfold response_of. intros -> -> ->. reflexivity.
Qed.

End PricingFacts.

(** * The feedback learner *)

Module FeedbackFacts.

Import PyFacts ModelFacts FeedbackService.
Local Open Scope Q_scope.

(** ** Impact score *)

Lemma _calculate_impact_score_weight
  (verdict : VerdictType) (user_type : UserType) (quote : Quote.t) :
  _calculate_impact_score verdict user_type quote
  = Py.max 0 (Py.min 1 (weight verdict user_type quote
                        * Py.min (Quote.total_estimate quote / 1000) 2)).
Proof.
  unfold _calculate_impact_score, weight.
  destruct (is_negative verdict); reflexivity.
Qed.

Lemma weight_nonneg
  (verdict : VerdictType) (user_type : UserType) (quote : Quote.t) :
  Quote.confidence_score quote <= 1 -> 0 <= weight verdict user_type quote.
Proof.
  intros Hc. unfold weight.
  destruct verdict, user_type; cbn [is_negative verdict_weights user_weights];
    lra.
Qed.

Lemma value_factor_mono (v1 v2 : Q) :
  v1 <= v2 -> Py.min (v1 / 1000) 2 <= Py.min (v2 / 1000) 2.
Proof.
  intros H. unfold Py.min, Qdiv. change (/ 1000) with (1 # 1000).
  case_cmp; lra.
Qed.

Lemma impact_score_monotone
  (verdict : VerdictType) (user_type : UserType) (quote : Quote.t) (v1 v2 : Q) :
  Quote.confidence_score quote <= 1 ->
  v1 <= v2 ->
  _calculate_impact_score verdict user_type (with_total quote v1)
  <= _calculate_impact_score verdict user_type (with_total quote v2).
Proof.
  intros Hc Hv. rewrite !_calculate_impact_score_weight.
  apply clamp_mono. cbn [with_total Quote.total_estimate].
  change (weight verdict user_type (with_total quote v1))
    with (weight verdict user_type quote).
  change (weight verdict user_type (with_total quote v2))
    with (weight verdict user_type quote).
  rewrite !(Qmult_comm (weight verdict user_type quote)).
  apply Qmult_le_compat_r.
  - apply value_factor_mono, Hv.
  - apply weight_nonneg, Hc.
Qed.

Lemma value_factor_positive (v : Q) :
  1 <= v -> 0 < Py.min (v / 1000) 2 <= 2.
Proof.
  intros H. unfold Py.min, Qdiv. change (/ 1000) with (1 # 1000).
  case_cmp; lra.
Qed.

Lemma rejected_not_below_accepted (user_type : UserType) (quote : Quote.t) :
  Quote.confidence_score quote <= 1 ->
  _calculate_impact_score ACCEPTED user_type quote
  <= _calculate_impact_score REJECTED user_type quote.
Proof.
  intros Hc. unfold _calculate_impact_score.
  cbn [is_negative verdict_weights].
  set (vf := Py.min (Quote.total_estimate quote / 1000) 2).
  destruct (Qlt_le_dec vf 0) as [Hneg | Hpos].
  - assert (Hp : 0 <= (1 - Quote.confidence_score quote) * - vf)
      by (apply Qmult_le_0_compat; lra).
    destruct user_type; cbn [user_weights];
      unfold Py.max, Py.min; case_cmp; lra.
  - assert (Hp : 0 <= (1 - Quote.confidence_score quote) * vf)
      by (apply Qmult_le_0_compat; lra).
    destruct user_type; cbn [user_weights];
      unfold Py.max, Py.min; case_cmp; lra.
Qed.

Lemma rejected_above_accepted (user_type : UserType) (quote : Quote.t) :
  Quote.confidence_score quote <= 1 ->
  1 <= Quote.total_estimate quote ->
  _calculate_impact_score ACCEPTED user_type quote
  < _calculate_impact_score REJECTED user_type quote.
Proof.
  intros Hc Hv. unfold _calculate_impact_score.
  cbn [is_negative verdict_weights].
  pose proof (value_factor_positive _ Hv) as Hvf.
  set (vf := Py.min (Quote.total_estimate quote / 1000) 2) in *.
  assert (Hp : 0 <= (1 - Quote.confidence_score quote) * vf).
  { apply Qmult_le_0_compat; lra. }
  destruct user_type; cbn [user_weights];
    unfold Py.max, Py.min; case_cmp; lra.
Qed.

(** ** Vendor reliability *)

Lemma quote_vendors_empty (db : Store) (quote : Quote.t) :
  quote_vendors db quote = ∅.
Proof.
  unfold quote_vendors.
  induction (List.filter _ (material_usage db)) as [|usage usages IH];
    [reflexivity | exact IH].
Qed.

(** [_update_vendor_reliability] finds no vendor and changes nothing. *)
Lemma _update_vendor_reliability_id
  (quote : Quote.t) (verdict : VerdictType) (now : Z) (db : Store) :
  _update_vendor_reliability quote verdict now db = db.
Proof.
  unfold _update_vendor_reliability.
  rewrite quote_vendors_empty, elements_empty. reflexivity.
Qed.

Lemma process_feedback_vendor_reliability
  (db : Store) (feedback_id : string) (now : Z) (quote_id : string)
  (user_type : UserType) (verdict : VerdictType) (comment : option string)
  (material_feedback pricing_feedback : option (list (string * string))) :
  vendor_reliability
    (snd (process_feedback db feedback_id now quote_id user_type verdict
                           comment material_feedback pricing_feedback))
  = vendor_reliability db.
Proof.
  unfold process_feedback.
  destruct (get_quote_by_id db quote_id); [|reflexivity].
  cbn [snd]. unfold _update_system_learning.
  rewrite _update_vendor_reliability_id. reflexivity.
Qed.

(** No sequence of feedback events changes the reliability table. *)
Lemma process_all_vendor_reliability (events : list FeedbackEvent) (db : Store) :
  vendor_reliability (process_all events db) = vendor_reliability db.
Proof.
  revert db. induction events as [|e events IH]; intros db; [reflexivity|].
  unfold process_all in *. cbn [fold_left]. rewrite IH.
  apply process_feedback_vendor_reliability.
Qed.

(** A vendor without a record never gets one: the first event raises. *)
Lemma replay_unknown
  (vendor : string) (now : Z) (events : list bool) (db : Store) :
  vendor_reliability db !! vendor = None ->
  events <> [] ->
  replay vendor now events db = Raise TypeError.
Proof.
  intros H0 Hne. destruct events as [|accepted events]; [congruence|].
  cbn [replay]. unfold update_vendor_reliability, get_vendor_reliability.
  rewrite H0. reflexivity.
Qed.

(** What [update_vendor_reliability] does to the record of a vendor, fed
    one event after the other. *)
Lemma replay_known
  (vendor : string) (now : Z) (events : list bool) (db : Store)
  (r0 : VendorReliability.t) :
  vendor_reliability db !! vendor = Some r0 ->
  VendorReliability.vendor_name r0 = vendor ->
  (0 <= VendorReliability.accepted_quotes r0
   <= VendorReliability.total_quotes r0)%Z ->
  (VendorReliability.total_quotes r0 + Z.of_nat (length events)
   <= 2147483647)%Z ->
  exists db' r,
    replay vendor now events db = Ok db' /\
    vendor_reliability db' !! vendor = Some r /\
    VendorReliability.vendor_name r = vendor /\
    VendorReliability.total_quotes r
    = (VendorReliability.total_quotes r0 + Z.of_nat (length events))%Z /\
    VendorReliability.accepted_quotes r
    = (VendorReliability.accepted_quotes r0
       + Z.of_nat (accepted_count events))%Z /\
    (events <> [] ->
     VendorReliability.reliability_score r
     = inject_Z (VendorReliability.accepted_quotes r)
       / inject_Z (VendorReliability.total_quotes r)).
Proof.
  revert db r0.
  induction events as [|accepted events IH]; intros db r0 H0 Hn Hpos Hmax.
  - exists db, r0. cbn [replay length accepted_count List.filter].
    repeat split; try assumption; try lia. congruence.
  - cbn [replay]. cbn [length] in Hmax.
    unfold update_vendor_reliability at 1, get_vendor_reliability.
    rewrite H0.
    destruct (VendorReliability.total_quotes r0 + 1 =? 0)%Z eqn:E0;
      [apply Z.eqb_eq in E0; lia|].
    set (acc := if accepted
                then (VendorReliability.accepted_quotes r0 + 1)%Z
                else VendorReliability.accepted_quotes r0).
    assert (Hacc : (0 <= acc <= VendorReliability.total_quotes r0 + 1)%Z)
      by (subst acc; destruct accepted; lia).
    assert (Hok : integer_ok (VendorReliability.total_quotes r0 + 1)
                  && integer_ok acc = true).
    { unfold integer_ok. rewrite !andb_true_iff, !Z.leb_le. lia. }
    rewrite Hok. cbn [negb mbind result_bind].
    set (r1 := {| VendorReliability.vendor_name :=
                    VendorReliability.vendor_name r0;
                  VendorReliability.reliability_score := _;
                  VendorReliability.total_quotes := _;
                  VendorReliability.accepted_quotes := _;
                  VendorReliability.updated_at := now |}).
    set (db1 := put_vendor_reliability r1 db).
    assert (H1 : vendor_reliability db1 !! vendor = Some r1).
    { subst db1. unfold put_vendor_reliability.
      cbn [vendor_reliability]. subst r1.
      cbn [VendorReliability.vendor_name]. rewrite Hn.
      apply lookup_insert_eq. }
    assert (Hn1 : VendorReliability.vendor_name r1 = vendor) by exact Hn.
    assert (Hp1 : (0 <= VendorReliability.accepted_quotes r1
                   <= VendorReliability.total_quotes r1)%Z)
      by (subst r1; cbn [VendorReliability.total_quotes
                         VendorReliability.accepted_quotes]; exact Hacc).
    assert (Hm1 : (VendorReliability.total_quotes r1
                   + Z.of_nat (length events) <= 2147483647)%Z)
      by (subst r1; cbn [VendorReliability.total_quotes]; lia).
    destruct (IH db1 r1 H1 Hn1 Hp1 Hm1)
      as (db' & r & Hrun & Hr & Hnr & Htr & Har & Hsr).
    exists db', r.
    split; [exact Hrun|]. split; [exact Hr|]. split; [exact Hnr|].
    assert (Hcount : Z.of_nat (accepted_count (accepted :: events))
                     = ((if accepted then 1 else 0)
                        + Z.of_nat (accepted_count events))%Z).
    { unfold accepted_count.
      destruct accepted; cbn [List.filter id length]; lia. }
    split; [rewrite Htr; subst r1;
            cbn [VendorReliability.total_quotes length]; lia|].
    split; [rewrite Har, Hcount; subst r1 acc;
            cbn [VendorReliability.accepted_quotes]; destruct accepted; lia|].
    intros _. destruct events as [|e events'].
    + cbn [replay] in Hrun. injection Hrun as <-. rewrite H1 in Hr.
      injection Hr as <-. reflexivity.
    + apply Hsr. discriminate.
Qed.

(** ** C5 *)

(** C5, what the code does instead.  [_update_vendor_reliability] changes
    nothing, for every quote, verdict and store: the loop that should
    collect the vendors of the quote has an empty body.  At a failing
    input: the quote "q-1" of the Corse sample has material usage rows
    and was priced from a material sold by "Leroy Merlin"; after the
    update for an accepted verdict the vendor has no reliability record,
    where the claim asks for total_quotes = 1, accepted_quotes = 1 and
    reliability_score = 1. *)
Theorem accepted_feedback_leaves_vendor_unrecorded :
  (forall quote verdict now db,
     _update_vendor_reliability quote verdict now db = db) /\
  exists quote,
    get_quote_by_id (snd Samples.corse_proposal) "q-1" = Some quote /\
    List.filter
      (fun u => String.eqb (MaterialUsage.quote_id u) (Quote.id quote))
      (material_usage (snd Samples.corse_proposal)) <> [] /\
    vendor_reliability
      (_update_vendor_reliability quote ACCEPTED 1 (snd Samples.corse_proposal))
    !! "Leroy Merlin" = None.
Proof.
  split; [intros; apply _update_vendor_reliability_id|].
  eexists. split; [vm_compute; reflexivity|].
  split; [vm_compute; discriminate|].
  rewrite _update_vendor_reliability_id. reflexivity.
Qed.

(** ** C6 *)

(** C6.  Feedback on a quote id that no stored quote has raises the
    "not found" error and leaves the store as it was: no Feedback row. *)
Theorem feedback_on_missing_quote
  (db : Store) (feedback_id : string) (now : Z) (quote_id : string)
  (user_type : UserType) (verdict : VerdictType) (comment : option string)
  (material_feedback pricing_feedback : option (list (string * string))) :
  Forall (fun q => Quote.id q <> quote_id) (quotes db) ->
  let after :=
    process_feedback db feedback_id now quote_id user_type verdict comment
                     material_feedback pricing_feedback in
  fst after = Raise (ValueError ("Quote " ++ quote_id ++ " not found")) /\
  snd after = db /\
  feedback (snd after) = feedback db.
Proof.
  intros H. cbv zeta. unfold process_feedback.
  assert (E : get_quote_by_id db quote_id = None).
  { unfold get_quote_by_id.
    induction H as [|q qs Hq _ IH]; [reflexivity|].
    cbn [List.find]. apply String.eqb_neq in Hq. rewrite Hq. exact IH. }
  rewrite E. repeat split.
Qed.

(** ** C7 *)

(** C7, as the code has it.  For every user role and every quote whose
    confidence is at most 1: whatever the verdict, the impact score does
    not decrease when the total of the quote grows (below and above the
    cap); a rejected verdict never scores less than an accepted one; and
    it scores strictly more when the total is at least 1. *)
Theorem impact_score_order (user_type : UserType) (quote : Quote.t) :
  Quote.confidence_score quote <= 1 ->
  (forall verdict v1 v2,
     v1 <= v2 ->
     _calculate_impact_score verdict user_type (with_total quote v1)
     <= _calculate_impact_score verdict user_type (with_total quote v2)) /\
  _calculate_impact_score ACCEPTED user_type quote
  <= _calculate_impact_score REJECTED user_type quote /\
  (1 <= Quote.total_estimate quote ->
   _calculate_impact_score ACCEPTED user_type quote
   < _calculate_impact_score REJECTED user_type quote).
Proof.
  intros Hc. split; [|split].
  - intros verdict v1 v2 Hv. apply impact_score_monotone; tauto.
  - apply rejected_not_below_accepted, Hc.
  - apply rejected_above_accepted, Hc.
Qed.

(** C7 as it was stated fails on three quotes.  On a quote of value zero
    both verdicts score zero.  On a quote of confidence 3 and value 1000
    the rejected verdict scores 0 and the accepted one 0.15.  And on a
    quote of confidence 3 the rejected verdict scores 0.5 at the total
    -1000 and 0 at the total 0. *)
Lemma rejected_not_above_accepted :
  ~ (_calculate_impact_score ACCEPTED CONTRACTOR Samples.free_quote
     < _calculate_impact_score REJECTED CONTRACTOR Samples.free_quote) /\
  ~ (_calculate_impact_score ACCEPTED CONTRACTOR Samples.overrated_quote
     <= _calculate_impact_score REJECTED CONTRACTOR Samples.overrated_quote) /\
  ~ (_calculate_impact_score REJECTED CONTRACTOR
       (with_total Samples.overrated_quote (-1000))
     <= _calculate_impact_score REJECTED CONTRACTOR
          (with_total Samples.overrated_quote 0)).
Proof.
  split; [|split]; vm_compute; intros H;
    [discriminate H | apply H; reflexivity | apply H; reflexivity].
Qed.

End FeedbackFacts.

(** * The statements at the sample data *)

Module Witnesses.

Import Samples MaterialService PricingService FeedbackService.
Import MaterialFacts PricingFacts FeedbackFacts.
Local Open Scope Q_scope.

(** C1 as it was stated fails in Corse: the multiplier is 1.20, and the
    first item of the proposal has quantity 5 at unit price 10 and a total
    of 50, not 60. *)
Lemma regional_multiplier_not_in_item_total :
  exists resp task item,
    fst corse_proposal = Ok resp /\
    In task (GenerateProposalResponse.tasks resp) /\
    In item (Task.materials task) /\
    _get_regional_multiplier settings (Some "Corse") == 120 # 100 /\
    MaterialItem.quantity item == 5 /\
    MaterialItem.unit_price item == 10 /\
    MaterialItem.total_price item == 50 /\
    ~ MaterialItem.total_price item
      == MaterialItem.quantity item * MaterialItem.unit_price item
         * _get_regional_multiplier settings (Some "Corse").
Proof.
  eexists _, _, _.
  split; [vm_compute; reflexivity|].
  split; [left; reflexivity|].
  split; [left; reflexivity|].
  repeat split; try (vm_compute; reflexivity).
  vm_compute. intros H. discriminate H.
Qed.

(** The first item of the Corse proposal. *)
Lemma proposal_item_total_price_witness :
  exists resp task item,
    fst corse_proposal = Ok resp /\
    In task (GenerateProposalResponse.tasks resp) /\
    In item (Task.materials task) /\
    MaterialItem.total_price item
    = MaterialItem.unit_price item * MaterialItem.quantity item /\
    exists keyword ranked,
      In ranked (ranked_materials no_embedding settings corse_store keyword
                                  (Some "Corse") None None None 3) /\
      MaterialItem.unit_price item = Material.unit_price (material ranked).
Proof.
  eexists _, _, _.
  split; [vm_compute; reflexivity|].
  split; [left; reflexivity|].
  split; [left; reflexivity|].
  eapply (proposal_item_total_price no_embedding settings corse_store
            "q-1" 0%Z corse_transcript CONTRACTOR (Some "Corse") None).
  - vm_compute; reflexivity.
  - left; reflexivity.
  - left; reflexivity.
Defined.

(** The total of the Corse proposal, a renovation. *)
Lemma proposal_total_estimate_witness :
  exists resp,
    fst corse_proposal = Ok resp /\
    GenerateProposalResponse.total_estimate resp
    == subtotal_of (GenerateProposalResponse.tasks resp)
       + subtotal_of (GenerateProposalResponse.tasks resp)
         * GenerateProposalResponse.vat_rate resp
       + subtotal_of (GenerateProposalResponse.tasks resp)
         * base_margin settings /\
    GenerateProposalResponse.vat_rate resp = vat_renovation settings.
Proof.
  eexists.
  split; [vm_compute; reflexivity|].
  eapply (proposal_total_estimate no_embedding settings corse_store
            "q-1" 0%Z corse_transcript CONTRACTOR (Some "Corse") None).
  vm_compute; reflexivity.
Defined.

(** The carpentry task of the Corse proposal. *)
Lemma proposal_confidence_is_similarity_witness :
  exists resp task,
    fst corse_proposal = Ok resp /\
    In task (GenerateProposalResponse.tasks resp) /\
    (forall item,
       In item (Task.materials task) ->
       exists keyword ranked,
         In keyword (EmbeddingService.get_semantic_keywords
                       (EmbeddingService.preprocess_text corse_transcript)
                       10) /\
         In ranked (ranked_materials no_embedding settings corse_store keyword
                                     (Some "Corse") None None None 3) /\
         MaterialItem.material_name item
         = Material.material_name (material ranked) /\
         MaterialItem.confidence_score item
         = MaterialService.similarity_score ranked) /\
    ((Task.materials task = [] /\ Task.confidence_score task = 5 # 10) \/
     exists task_type,
       Task.confidence_score task
       = _calculate_task_confidence (Task.materials task) task_type).
Proof.
  eexists _, _.
  split; [vm_compute; reflexivity|].
  split; [left; reflexivity|].
  eapply (proposal_confidence_is_similarity no_embedding settings corse_store
            "q-1" 0%Z corse_transcript CONTRACTOR (Some "Corse") None).
  - vm_compute; reflexivity.
  - left; reflexivity.
Defined.

(** The keyword "install" ranks the oak board first with confidence 0.585
    and similarity 0; the item built from it carries the 0. *)
Example similarity_differs_from_confidence :
  exists ranked,
    In ranked (ranked_materials no_embedding settings corse_store "install"
                                (Some "Corse") None None None 3) /\
    MaterialService.similarity_score ranked == 0 /\
    MaterialService.confidence_score ranked == 585 # 1000 /\
    MaterialItem.confidence_score (item_of "carpentry" (response_of ranked))
    == 0.
Proof.
  eexists. split; [vm_compute; left; reflexivity|].
  repeat split; vm_compute; reflexivity.
Qed.

(** The best match for "wood" in Corse. *)
Lemma search_materials_ranked_witness :
  Forall valid_row (candidates corse_store (Some "Corse") None None None 1) /\
  search_materials no_embedding settings corse_store "wood" (Some "Corse")
                   None None None 1
  = Ok (map response_of
          (firstn 1
             (rank (map (score no_embedding settings "wood" (Some "Corse"))
                        (candidates corse_store (Some "Corse") None None None
                                    1))))).
Proof.
  assert (Hv : Forall valid_row
                 (candidates corse_store (Some "Corse") None None None 1)).
  { vm_compute. repeat constructor; discriminate. }
  split; [exact Hv|].
  destruct (search_materials_ranked no_embedding settings corse_store "wood"
              (Some "Corse") None None None 1) as (_ & _ & H & _).
  exact (H Hv).
Defined.

(** The store holds "q-1"; feedback arrives for "q-2". *)
Lemma feedback_on_missing_quote_witness :
  Forall (fun q => Quote.id q <> "q-2") (quotes (snd corse_proposal)) /\
  fst (process_feedback (snd corse_proposal) "f-1" 1 "q-2" CLIENT REJECTED
                        None None None)
  = Raise (ValueError "Quote q-2 not found") /\
  snd (process_feedback (snd corse_proposal) "f-1" 1 "q-2" CLIENT REJECTED
                        None None None)
  = snd corse_proposal /\
  feedback (snd (process_feedback (snd corse_proposal) "f-1" 1 "q-2" CLIENT
                                  REJECTED None None None))
  = feedback (snd corse_proposal).
Proof.
  assert (H : Forall (fun q => Quote.id q <> "q-2")
                     (quotes (snd corse_proposal))).
  { vm_compute. repeat constructor. discriminate. }
  split; [exact H|].
  exact (feedback_on_missing_quote (snd corse_proposal) "f-1" 1 "q-2" CLIENT
           REJECTED None None None H).
Defined.

(** An architect's feedback on a quote of confidence 0.5 and value 1500. *)
Lemma impact_score_order_witness :
  Quote.confidence_score (with_total free_quote 1500) <= 1 /\
  500 <= 1500 /\
  1 <= Quote.total_estimate (with_total free_quote 1500) /\
  _calculate_impact_score OVERPRICED ARCHITECT
    (with_total (with_total free_quote 1500) 500)
  <= _calculate_impact_score OVERPRICED ARCHITECT
       (with_total (with_total free_quote 1500) 1500) /\
  _calculate_impact_score ACCEPTED ARCHITECT (with_total free_quote 1500)
  < _calculate_impact_score REJECTED ARCHITECT (with_total free_quote 1500).
Proof.
  assert (Hc : Quote.confidence_score (with_total free_quote 1500) <= 1)
    by (simpl; lra).
  assert (Hv : 500 <= 1500) by lra.
  assert (Ht : 1 <= Quote.total_estimate (with_total free_quote 1500))
    by (simpl; lra).
  destruct (impact_score_order ARCHITECT (with_total free_quote 1500) Hc)
    as (Hmono & _ & Hstrict).
  split; [exact Hc|]. split; [exact Hv|]. split; [exact Ht|].
  split; [exact (Hmono OVERPRICED 500 1500 Hv) | exact (Hstrict Ht)].
Defined.

End Witnesses.

(** * The text heuristics *)

Module EmbeddingFacts.

Import PyFacts EmbeddingService.

(** ** [preprocess_text] *)

Lemma lower_char_not_upper (c : ascii) : is_upper (lower_char c) = false.
Proof.
  destruct c as [[] [] [] [] [] [] [] []]; reflexivity.
Qed.

Lemma chars_keep_chars (p : ascii -> bool) (s : string) :
  chars (keep_chars p s) = List.filter p (chars s).
Proof.
  induction s as [|c s IH]; [reflexivity|].
  simpl. destruct (p c); simpl; rewrite IH; reflexivity.
Qed.

Lemma chars_lower (s : string) : chars (lower s) = map lower_char (chars s).
Proof.
  induction s as [|c s IH]; [reflexivity|].
  simpl. rewrite IH. reflexivity.
Qed.

Lemma split_from_blank (s : string) :
  Forall (fun c => is_space c = true) (chars s) -> split_from [] s = [].
Proof.
  induction s as [|c s IH]; intros H; [reflexivity|].
  apply List.Forall_cons_iff in H as [Hc Hs].
  simpl. rewrite Hc. apply IH, Hs.
Qed.

Lemma chars_app (a b : string) : chars (a ++ b) = (chars a ++ chars b)%list.
Proof.
  induction a as [|c a IH]; [reflexivity|]. simpl. rewrite <- IH. reflexivity.
Qed.

Lemma isascii_chars (s : string) :
  isascii s = true ->
  Forall (fun c => (nat_of_ascii c < 128)%nat) (chars s).
Proof.
  induction s as [|c s IH]; intros H; [constructor|].
  cbn [isascii] in H. apply andb_true_iff in H as [Hc Hs].
  constructor; [apply Nat.ltb_lt, Hc | apply IH, Hs].
Qed.

Lemma split_from_chars (P : ascii -> Prop) (cur : list ascii) (s : string) :
  Forall P cur -> Forall P (chars s) ->
  Forall (fun w => Forall P (chars w)) (split_from cur s).
Proof.
  revert cur. induction s as [|c s IH]; intros cur Hcur Hs.
  - cbn [split_from]. destruct cur as [|x cur']; constructor; [|constructor].
    unfold chars. rewrite list_ascii_of_string_of_list_ascii.
    apply List.Forall_rev, Hcur.
  - apply List.Forall_cons_iff in Hs as [Hc Hs]. cbn [split_from].
    destruct (is_space c).
    + destruct cur as [|x cur'].
      * apply IH; [constructor | exact Hs].
      * constructor; [|apply IH; [constructor | exact Hs]].
        unfold chars. rewrite list_ascii_of_string_of_list_ascii.
        apply List.Forall_rev, Hcur.
    + apply IH; [constructor; assumption | exact Hs].
Qed.

Lemma join_chars (P : ascii -> Prop) (sep : string) (l : list string) :
  Forall P (chars sep) ->
  Forall (fun w => Forall P (chars w)) l ->
  Forall P (chars (join sep l)).
Proof.
  intros Hsep Hl. induction Hl as [|w l Hw Hl IH]; [constructor|].
  cbn [join]. destruct l as [|w' l']; [exact Hw|].
  rewrite !chars_app. apply List.Forall_app. split; [exact Hw|].
  apply List.Forall_app. split; [exact Hsep | exact IH].
Qed.

Lemma lower_char_ascii (c : ascii) :
  (nat_of_ascii c < 128)%nat -> (nat_of_ascii (lower_char c) < 128)%nat.
Proof.
  intros H. apply Nat.ltb_lt in H. apply Nat.ltb_lt. revert H.
  destruct c as [[] [] [] [] [] [] [] []]; intros H;
    first [reflexivity | discriminate H].
Qed.

(** X1.  For an ASCII text the result of [preprocess_text] is an ASCII text
    written in lower case over word characters, whitespace and the five
    kept punctuation marks, and a text of whitespace only becomes the
    empty string. *)
Theorem preprocess_text_alphabet (text : string) :
  isascii text = true ->
  Forall (fun c => (nat_of_ascii c < 128)%nat /\
                   keep c = true /\ is_upper c = false)
         (chars (preprocess_text text)) /\
  (Forall (fun c => is_space c = true) (chars text) ->
   preprocess_text text = "").
Proof.
  intros Hascii. unfold preprocess_text. split.
  - destruct (String.eqb text ""); [constructor|].
    assert (Hj : Forall (fun c => (nat_of_ascii c < 128)%nat)
                        (chars (join " " (split text)))).
    { apply join_chars; [repeat constructor|].
      apply split_from_chars; [constructor | apply isascii_chars, Hascii]. }
    rewrite chars_keep_chars, chars_lower.
    rewrite List.Forall_forall in Hj.
    apply List.Forall_forall. intros c Hc.
    apply filter_In in Hc as [Hc Hk].
    apply in_map_iff in Hc as (c' & <- & Hc').
    split; [apply lower_char_ascii, Hj, Hc'|].
    split; [exact Hk | apply lower_char_not_upper].
  - intros H. destruct (String.eqb text ""); [reflexivity|].
    unfold split. rewrite (split_from_blank _ H). reflexivity.
Qed.

(** ** [Counter] and [most_common] *)

Lemma count_up_keys (w : string) (c : list (string * nat)) :
  map fst (count_up w c)
  = if mem w (map fst c) then map fst c else (map fst c ++ [w])%list.
Proof.
  induction c as [|[w' n] c IH]; [reflexivity|].
  simpl. destruct (String.eqb w w') eqn:E; [reflexivity|].
  simpl. rewrite IH. destruct (mem w (map fst c)); reflexivity.
Qed.

Lemma mem_In (w : string) (l : list string) : mem w l = true <-> In w l.
Proof.
  unfold mem. rewrite existsb_exists. split.
  - intros (x & Hx & E). apply String.eqb_eq in E. congruence.
  - intros H. exists w. split; [exact H | apply String.eqb_refl].
Qed.

Lemma count_up_In (w w' : string) (n : nat) (c : list (string * nat)) :
  NoDup (map fst c) ->
  In (w', n) (count_up w c) ->
  (w' <> w /\ In (w', n) c) \/
  (w' = w /\ ((exists m, In (w, m) c /\ n = S m) \/
              (~ In w (map fst c) /\ n = 1%nat))).
Proof.
  induction c as [|[x m] c IH]; simpl; intros Hnd.
  - intros [[= <- <-] | []]. right. split; [reflexivity|]. right. tauto.
  - apply NoDup_cons in Hnd as [Hx Hnd].
    rewrite list_elem_of_In in Hx.
    destruct (String.eqb w x) eqn:E.
    + apply String.eqb_eq in E. subst x.
      intros [[= <- <-] | H].
      * right. split; [reflexivity|]. left. exists m. tauto.
      * left. split; [|tauto]. intros ->.
        apply Hx, in_map_iff. exists (w, n). tauto.
    + apply String.eqb_neq in E.
      intros [[= <- <-] | H].
      * left. split; [congruence | tauto].
      * destruct (IH Hnd H) as [[Hne Hin] | [-> [(k & Hk & ->) | [Hn ->]]]].
        -- left. tauto.
        -- right. split; [reflexivity|]. left. exists k. tauto.
        -- right. split; [reflexivity|]. right. split; [|reflexivity].
           intros [Hx' | Hx']; [congruence | tauto].
Qed.

Lemma occurrences_app (w : string) (l1 l2 : list string) :
  occurrences w (l1 ++ l2) = (occurrences w l1 + occurrences w l2)%nat.
Proof.
  unfold occurrences. rewrite List.filter_app, length_app. reflexivity.
Qed.

Lemma occurrences_zero (w : string) (l : list string) :
  ~ In w l -> occurrences w l = 0%nat.
Proof.
  unfold occurrences. induction l as [|x l IH]; [reflexivity|].
  intros H. simpl. destruct (String.eqb w x) eqn:E.
  - apply String.eqb_eq in E. subst x. exfalso. apply H. left. reflexivity.
  - apply IH. intros Hin. apply H. right. exact Hin.
Qed.

(** [Counter(words)] has one entry for each distinct word, in order of
    first occurrence, with the number of its occurrences. *)
Lemma Counter_spec (words : list string) :
  NoDup (map fst (Counter words)) /\
  (forall w, In w (map fst (Counter words)) <-> In w words) /\
  (forall w n, In (w, n) (Counter words) -> n = occurrences w words).
Proof.
  unfold Counter.
  induction words as [|w words IH] using rev_ind.
  - simpl. split; [constructor|]. split; [tauto | intros w n []].
  - rewrite fold_left_app. cbn [fold_left].
    set (c := fold_left (fun c w => count_up w c) words []) in *.
    destruct IH as (Hnd & Hkeys & Hcount).
    assert (Hmem : mem w (map fst c) = true <-> In w words).
    { rewrite mem_In. apply Hkeys. }
    split; [|split].
    + rewrite count_up_keys.
      destruct (mem w (map fst c)) eqn:E; [exact Hnd|].
      apply NoDup_app. split; [exact Hnd|].
      split; [|apply NoDup_singleton].
      intros x Hx Hw. apply list_elem_of_In in Hx, Hw.
      destruct Hw as [<- | []].
      apply mem_In in Hx. congruence.
    + intros x. rewrite count_up_keys, in_app_iff.
      destruct (mem w (map fst c)) eqn:E.
      * rewrite Hkeys. simpl. split; [tauto|].
        intros [H | [<- | []]]; [exact H|]. apply Hmem. reflexivity.
      * rewrite in_app_iff, Hkeys. reflexivity.
    + intros x n Hin. rewrite occurrences_app.
      apply (count_up_In _ _ _ _ Hnd) in Hin
        as [[Hne Hin] | [-> [(m & Hm & ->) | [Hn ->]]]].
      * rewrite (Hcount _ _ Hin).
        unfold occurrences at 3. simpl.
        apply String.eqb_neq in Hne. rewrite Hne. simpl. lia.
      * rewrite (Hcount _ _ Hm).
        unfold occurrences at 3. simpl. rewrite String.eqb_refl. simpl. lia.
      * rewrite occurrences_zero by (rewrite <- Hkeys; exact Hn).
        unfold occurrences. simpl. rewrite String.eqb_refl. reflexivity.
Qed.

(** The sort of [most_common], on the counts. *)
Section CountSort.
Context {A : Type} (key : A -> nat).

Let lt (a b : A) : bool := (key a <? key b)%nat.

Lemma insert_count_perm (x : A) (l : list A) :
  Permutation (x :: l) (insert_desc lt x l).
Proof.
  induction l as [|y l IH]; simpl; [reflexivity|].
  destruct (lt x y); [|reflexivity].
  rewrite perm_swap. constructor. exact IH.
Qed.

Lemma sort_count_perm (l : list A) : Permutation l (sort_reverse lt l).
Proof.
  induction l as [|x l IH]; simpl; [reflexivity|].
  rewrite <- insert_count_perm. constructor. exact IH.
Qed.

Lemma insert_count_sorted (x : A) (l : list A) :
  StronglySorted (fun a b => (key b <= key a)%nat) l ->
  StronglySorted (fun a b => (key b <= key a)%nat) (insert_desc lt x l).
Proof.
  induction l as [|y l IH]; intros Hs; simpl.
  - repeat constructor.
  - destruct (lt x y) eqn:E; unfold lt in E.
    + apply StronglySorted_inv in Hs as [Hs Hy].
      constructor; [auto|].
      apply (Permutation_Forall (insert_count_perm x l)).
      constructor; [|exact Hy].
      apply Nat.ltb_lt in E. lia.
    + apply Nat.ltb_ge in E.
      constructor; [exact Hs|].
      constructor; [exact E|].
      apply StronglySorted_inv in Hs as [_ Hy].
      eapply List.Forall_impl; [|exact Hy]. simpl. intros z Hz. lia.
Qed.

Lemma sort_count_sorted (l : list A) :
  StronglySorted (fun a b => (key b <= key a)%nat) (sort_reverse lt l).
Proof.
  induction l as [|x l IH]; simpl.
  - constructor.
  - apply insert_count_sorted, IH.
Qed.
End CountSort.

Lemma StronglySorted_firstn {A} (R : A -> A -> Prop) (n : nat) (l : list A) :
  StronglySorted R l -> StronglySorted R (firstn n l).
Proof.
  revert l. induction n as [|n IH]; intros [|x l] H; simpl; try constructor.
  - apply IH. apply StronglySorted_inv in H. tauto.
  - apply StronglySorted_inv in H as [_ H].
    apply List.Forall_forall. intros y Hy. apply In_firstn in Hy.
    rewrite List.Forall_forall in H. auto.
Qed.

Lemma NoDup_firstn {A} (n : nat) (l : list A) :
  List.NoDup l -> List.NoDup (firstn n l).
Proof.
  revert l. induction n as [|n IH]; intros [|x l] H; simpl; try constructor.
  - intros Hin. apply In_firstn in Hin.
    apply List.NoDup_cons_iff in H. tauto.
  - apply IH. apply List.NoDup_cons_iff in H. tauto.
Qed.

(** ** [get_semantic_keywords] *)

Lemma most_common_facts (k : nat) (words : list string) :
  let top := most_common k (Counter words) in
  (length top <= k)%nat /\
  List.NoDup (map fst top) /\
  (forall w n, In (w, n) top -> In w words /\ n = occurrences w words) /\
  StronglySorted (fun a b => (snd b <= snd a)%nat) top.
Proof.
  intros top. subst top. unfold most_common.
  destruct (Counter_spec words) as (Hnd & Hkeys & Hcount).
  pose proof (sort_count_perm snd (Counter words)) as Hperm.
  split; [rewrite length_firstn; lia|].
  split; [|split].
  - rewrite <- firstn_map. apply NoDup_firstn.
    apply (Permutation_NoDup (Permutation_map fst Hperm)).
    apply NoDup_ListNoDup, Hnd.
  - intros w n Hin. apply In_firstn in Hin.
    apply (Permutation_in _ (Permutation_sym Hperm)) in Hin.
    split; [|apply Hcount, Hin].
    apply Hkeys, in_map_iff. exists (w, n). tauto.
  - apply StronglySorted_firstn, sort_count_sorted.
Qed.

(** X2.  For an ASCII text the keywords are at most [top_k], distinct, none
    a stop word or shorter than three characters, and each a word of the
    lower-cased text. *)
Theorem get_semantic_keywords_sound (text : string) (top_k : nat) :
  isascii text = true ->
  let keywords := get_semantic_keywords text top_k in
  (length keywords <= top_k)%nat /\
  List.NoDup keywords /\
  Forall (fun w => In w (split (lower text)) /\
                   mem w stop_words = false /\
                   (2 < Py.len w)%nat) keywords.
Proof.
  intros _ keywords. subst keywords. unfold get_semantic_keywords.
  fold (counted_words text).
  destruct (most_common_facts top_k (counted_words text))
    as (Hlen & Hnd & Hin & _).
  split; [rewrite length_map; exact Hlen|].
  split; [exact Hnd|].
  apply List.Forall_forall. intros w Hw.
  apply in_map_iff in Hw as ([w' n] & <- & Hw).
  apply Hin in Hw as [Hw _]. unfold counted_words in Hw.
  apply filter_In in Hw as [Hw Hf].
  apply andb_true_iff in Hf as [Hs Hl].
  apply negb_true_iff in Hs. apply Nat.ltb_lt in Hl. simpl. tauto.
Qed.

(** X3.  The keywords come by decreasing number of occurrences among the
    counted words, and every keyword occurs at least once. *)
Theorem get_semantic_keywords_by_frequency (text : string) (top_k : nat) :
  let words := counted_words text in
  StronglySorted
    (fun a b => (occurrences b words <= occurrences a words)%nat)
    (get_semantic_keywords text top_k) /\
  Forall (fun w => (1 <= occurrences w words)%nat)
         (get_semantic_keywords text top_k).
Proof.
  intros words. unfold get_semantic_keywords. fold (counted_words text).
  fold words.
  destruct (most_common_facts top_k words) as (_ & _ & Hin & Hs).
  set (top := most_common top_k (Counter words)) in *.
  clearbody top. split.
  - induction Hs as [|[w n] top Hs IH Hall]; simpl; constructor.
    + apply IH. intros w' n' H. apply Hin. right. exact H.
    + apply List.Forall_forall. intros w' Hw'.
      apply in_map_iff in Hw' as ([w'' n'] & <- & Hw').
      rewrite List.Forall_forall in Hall. specialize (Hall _ Hw').
      simpl in Hall.
      destruct (Hin w n (or_introl eq_refl)) as [_ ->].
      destruct (Hin w'' n' (or_intror Hw')) as [_ ->].
      exact Hall.
  - apply List.Forall_forall. intros w Hw.
    apply in_map_iff in Hw as ([w' n] & <- & Hw).
    destruct (Hin _ _ Hw) as [Hw' _]. simpl.
    unfold occurrences. clear -Hw'.
    induction words as [|x l IH]; [destruct Hw'|].
    simpl. destruct (String.eqb w' x) eqn:E; [simpl; lia|].
    apply IH. destruct Hw' as [-> | H]; [|exact H].
    rewrite String.eqb_refl in E. discriminate.
Qed.

End EmbeddingFacts.

(** * More on the confidence engine and the ranker *)

Module MaterialExtras.

Import PyFacts ModelFacts MaterialFacts MaterialService.
Local Open Scope Q_scope.

(** ** Text similarity *)

Lemma float_nonneg (n : nat) : 0 <= Py.float n.
Proof.
  unfold Py.float. change 0 with (inject_Z 0). rewrite <- Zle_Qle. lia.
Qed.

Lemma float_le (n m : nat) : (n <= m)%nat -> Py.float n <= Py.float m.
Proof.
  intros H. unfold Py.float. rewrite <- Zle_Qle. lia.
Qed.

Lemma overlap_range (query_words other_words : list string) :
  0 <= overlap query_words other_words <= 1.
Proof.
  unfold overlap. destruct query_words as [|w ws]; [lra|].
  set (l := w :: ws).
  assert (Hpos : 0 < Py.float (length l)).
  { unfold Py.float. change 0 with (inject_Z 0). rewrite <- Zlt_Qlt.
    subst l. simpl length. lia. }
  pose proof (float_nonneg (length (List.filter (fun w => mem w other_words) l))).
  pose proof (float_le _ _ (List.filter_length_le (fun w => mem w other_words) l)).
  split.
  - apply Qle_shift_div_l; [exact Hpos | lra].
  - apply Qle_shift_div_r; [exact Hpos | lra].
Qed.

Lemma _text_similarity_range (query material_name description : string) :
  0 <= _text_similarity query material_name description <= 9 # 10.
Proof.
  unfold _text_similarity.
  destruct (contains (lower query) (lower material_name)
            || contains (lower query) (lower description)); [lra|].
  pose proof (overlap_range (remove_dups (split (lower query)))
                            (split (lower material_name))) as H1.
  pose proof (overlap_range (remove_dups (split (lower query)))
                            (split (lower description))) as H2.
  unfold Py.max. case_cmp; lra.
Qed.

(** X4.  The text similarity is 0.9 when the lower-cased query is a substring
    of the lower-cased name or description (the empty query always is), and
    lies between 0 and 0.7 otherwise. *)
Theorem _text_similarity_bands (query material_name description : string) :
  let hit :=
    contains (lower query) (lower material_name)
    || contains (lower query) (lower description) in
  (hit = true ->
   _text_similarity query material_name description = 9 # 10) /\
  (hit = false ->
   0 <= _text_similarity query material_name description <= 7 # 10) /\
  _text_similarity "" material_name description = 9 # 10.
Proof.
  cbv zeta. unfold _text_similarity. split; [|split].
  - intros ->. reflexivity.
  - intros ->.
    pose proof (overlap_range (remove_dups (split (lower query)))
                              (split (lower material_name))) as H1.
    pose proof (overlap_range (remove_dups (split (lower query)))
                              (split (lower description))) as H2.
    unfold Py.max. case_cmp; lra.
  - destruct (lower material_name); reflexivity.
Qed.

(** ** Similarity score *)

(** X5.  The similarity score lies in [0,1] whatever the embedding provider
    answers; it is 0 when the stored embedding cannot be used, and for a
    material without a stored embedding it is the text similarity. *)
Theorem _calculate_similarity_score_cases
  (embedding_similarity : string -> string -> result Q)
  (material : Material.t) (query : string) :
  let score := _calculate_similarity_score embedding_similarity material query in
  0 <= score <= 1 /\
  (truthy (Material.embedding material) = true ->
   (exists e,
      embedding_similarity query (default "" (Material.embedding material))
      = Raise e) ->
   score = 0) /\
  (truthy (Material.embedding material) = false ->
   score == _text_similarity query (Material.material_name material)
                             (Material.description material)).
Proof.
  cbv zeta. split; [apply _calculate_similarity_score_range|].
  unfold _calculate_similarity_score. split.
  - intros -> [e ->]. reflexivity.
  - intros ->. cbn [mbind result_bind try_except].
    apply clamp_id.
    pose proof (_text_similarity_range query (Material.material_name material)
                  (Material.description material)).
    lra.
Qed.

(** ** Confidence score *)

(** X6.  With a semantic weight that is not negative, a higher similarity never
    lowers the confidence score. *)
Theorem confidence_monotone_in_similarity
  (weights : gmap string Q) (material : Material.t) (region : option string)
  (s1 s2 : Q) :
  (forall w, weights !! "semantic_similarity" = Some w -> 0 <= w) ->
  s1 <= s2 ->
  _calculate_confidence_score weights material s1 region
  <= _calculate_confidence_score weights material s2 region.
Proof.
  intros Hw Hs. unfold _calculate_confidence_score, getitem.
  destruct (weights !! "semantic_similarity") as [w1|];
    cbn [mbind result_bind try_except]; [|lra].
  specialize (Hw w1 eq_refl).
  destruct (weights !! "regional_match") as [w2|];
    cbn [mbind result_bind try_except]; [|lra].
  destruct (weights !! "price_range") as [w3|];
    cbn [mbind result_bind try_except]; [|lra].
  destruct (weights !! "vendor_reliability") as [w4|];
    cbn [mbind result_bind try_except]; [|lra].
  apply clamp_mono.
  assert (s1 * w1 <= s2 * w1) by (apply Qmult_le_compat_r; assumption).
  lra.
Qed.

(** ** Sub-scores *)

Lemma lower_char_idempotent (c : ascii) : lower_char (lower_char c) = lower_char c.
Proof.
  destruct c as [[] [] [] [] [] [] [] []]; reflexivity.
Qed.

Lemma lower_idempotent (s : string) : lower (lower s) = lower s.
Proof.
  induction s as [|c s IH]; [reflexivity|].
  simpl. rewrite lower_char_idempotent, IH. reflexivity.
Qed.

Lemma lower_empty (s : string) : String.eqb (lower s) "" = String.eqb s "".
Proof. destruct s; reflexivity. Qed.

(** X8.  The vendor sub-score depends on the vendor name up to case only, lies
    between 0.5 and 0.9, and is 0.5 for an absent or empty vendor. *)
Theorem _get_vendor_reliability_case_insensitive (v1 v2 : string) :
  lower v1 = lower v2 ->
  _get_vendor_reliability (Some v1) = _get_vendor_reliability (Some v2) /\
  5 # 10 <= _get_vendor_reliability (Some v1) <= 9 # 10 /\
  _get_vendor_reliability None = 5 # 10 /\
  _get_vendor_reliability (Some "") = 5 # 10.
Proof.
  intros H. split; [|split; [|split; reflexivity]].
  - unfold _get_vendor_reliability, truthy. cbn [default from_option id].
    rewrite <- (lower_empty v1), <- (lower_empty v2), H. reflexivity.
  - unfold _get_vendor_reliability, reliable_vendors.
    destruct (truthy (Some v1)); [|lra].
    cbn [List.find fst snd].
    repeat match goal with |- context [if ?b then _ else _] => destruct b end;
      cbn [snd]; lra.
Qed.

(** X9.  The regional sub-score is symmetric in the two regions, and for
    ASCII region names it depends on them up to letter case only. *)
Theorem regional_match_symmetric (a b a' b' : string) :
  regional_match (Some a) b = regional_match (Some b) a /\
  (isascii a = true -> isascii b = true ->
   isascii a' = true -> isascii b' = true ->
   lower a = lower a' -> lower b = lower b' ->
   regional_match (Some a) b = regional_match (Some a') b').
Proof.
  unfold regional_match, truthy. cbn [default from_option id]. split.
  - destruct (String.eqb a "") eqn:Ea, (String.eqb b "") eqn:Eb;
      cbn [negb andb]; try reflexivity.
    rewrite (String.eqb_sym (lower b)).
    rewrite (orb_comm (contains (lower b) (lower a))). reflexivity.
  - intros _ _ _ _ Ha Hb.
    rewrite <- (lower_empty a), <- (lower_empty b),
            <- (lower_empty a'), <- (lower_empty b'), Ha, Hb.
    reflexivity.
Qed.

(** ** Filters *)

(** X10.  Every result of a search satisfies the filters that were given: the
    region, the unit and the vendor are the requested ones and the quality
    is at least the requested minimum. *)
Theorem search_materials_respects_filters
  (embedding_similarity : string -> string -> result Q) (settings : Settings)
  (db : Store) (query : string) (region unit : option string)
  (quality_score : option Z) (vendor : option string) (limit : nat)
  (rs : list MaterialPriceResponse.t) (r : MaterialPriceResponse.t) :
  search_materials embedding_similarity settings db query region unit
                   quality_score vendor limit = Ok rs ->
  In r rs ->
  (truthy region = true -> Some (MaterialPriceResponse.region r) = region) /\
  (truthy unit = true -> Some (MaterialPriceResponse.unit r) = unit) /\
  (truthy vendor = true -> MaterialPriceResponse.vendor r = vendor) /\
  (forall q, quality_score = Some q -> q <> 0%Z ->
             exists mq, MaterialPriceResponse.quality_score r = Some mq /\
                        (q <= mq)%Z).
Proof.
  intros H Hin. apply search_materials_Ok in H. subst rs.
  apply in_map_iff in Hin as (item & <- & Hin).
  unfold ranked_materials in Hin. apply In_firstn in Hin.
  unfold rank in Hin.
  apply (Permutation_in _
           (Permutation_sym (sort_reverse_perm confidence_score _))) in Hin.
  apply in_map_iff in Hin as (m & <- & Hm).
  unfold candidates in Hm. apply In_firstn in Hm.
  apply filter_In in Hm as [_ Hp].
  unfold passes in Hp. rewrite !andb_true_iff in Hp.
  destruct Hp as (((Hr & Hu) & Hq) & Hv).
  cbn [response_of score material MaterialPriceResponse.region
       MaterialPriceResponse.unit MaterialPriceResponse.vendor
       MaterialPriceResponse.quality_score].
  repeat split.
  - intros Ht. rewrite Ht in Hr. apply String.eqb_eq in Hr.
    destruct region; [simpl in Hr; congruence | discriminate].
  - intros Ht. rewrite Ht in Hu. apply String.eqb_eq in Hu.
    destruct unit; [simpl in Hu; congruence | discriminate].
  - intros Ht. rewrite Ht in Hv.
    destruct (Material.vendor m) as [v|]; [|discriminate].
    apply String.eqb_eq in Hv.
    destruct vendor; [simpl in Hv; congruence | discriminate].
  - intros q -> Hq0. apply Z.eqb_neq in Hq0. rewrite Hq0 in Hq.
    destruct (Material.quality_score m) as [mq|]; [|discriminate].
    exists mq. split; [reflexivity|]. apply Z.leb_le, Hq.
Qed.

End MaterialExtras.

(** * More on the task extractor and the pricing calculator *)

Module PricingExtras.

Import PyFacts ModelFacts MaterialFacts PricingFacts.
Import MaterialService PricingService.
Local Open Scope Q_scope.

(** ** Durations and hours *)

Ltac case_key key :=
  repeat match goal with
         | |- context [String.eqb ?k key] =>
             destruct (String.eqb_spec k key) as [<- | ?]
         end.

(** X11.  The estimated duration of a task, read back by
    [_parse_duration_to_hours], is eight hours for each day of the table
    (one day for a task type that the table does not list), and eight more
    above five materials. *)
Theorem estimated_duration_in_hours (task_type : string) (material_count : nat) :
  _parse_duration_to_hours (_estimate_task_duration task_type material_count)
  == 8 * Py.float (base_days task_type + bump material_count).
Proof.
  unfold _estimate_task_duration, lookup_default, base_durations, bump.
  cbn [List.find fst snd].
  case_key task_type;
    try (destruct (5 <? material_count)%nat; vm_compute; reflexivity).
  assert (Hb : base_days task_type = 1%nat).
  { unfold base_days, mem. cbn [existsb].
    rewrite !(String.eqb_sym task_type).
    repeat match goal with
           | H : ?k <> task_type |- _ =>
               apply String.eqb_neq in H; rewrite ?H; clear H
           end.
    reflexivity. }
  rewrite Hb.
  destruct (5 <? material_count)%nat; vm_compute; reflexivity.
Qed.

Lemma first_number_no_digit (s : string) :
  Forall (fun c => is_digit c = false) (chars s) ->
  first_number s = Raise IndexError.
Proof.
  induction s as [|c s IH]; intros H; [reflexivity|].
  apply List.Forall_cons_iff in H as [Hc Hs].
  simpl. rewrite Hc. apply IH, Hs.
Qed.

(** X12.  An ASCII duration that holds no digit parses to eight hours,
    whether or not it mentions days or hours. *)
Theorem _parse_duration_to_hours_default (duration : string) :
  isascii duration = true ->
  Forall (fun c => is_digit c = false) (chars duration) ->
  _parse_duration_to_hours duration = 8.
Proof.
  intros _ H. unfold _parse_duration_to_hours.
  rewrite (first_number_no_digit _ H).
  destruct (contains "day" (lower duration)); [reflexivity|].
  destruct (contains "hour" (lower duration)); reflexivity.
Qed.

(** ** Pricing one task *)

(** X13.  Without a ["general"] labor rate every task is priced as the fallback
    task, also a task whose own type has a rate. *)
Theorem pricing_without_general_rate
  (settings : Settings) (task_data : TaskData)
  (region project_type : option string) :
  default_labor_rates settings !! "general" = None ->
  _calculate_task_pricing settings task_data region project_type
  = fallback_task task_data.
Proof.
  intros H. unfold _calculate_task_pricing, _calculate_labor_cost, getitem.
  rewrite H.
  destruct (mapM _ (PricingService.materials task_data)); reflexivity.
Qed.

(** X14.  With a margin that is not negative, the margin-protected price of a
    priced task covers its regionally adjusted material cost and its labor
    cost. *)
Theorem margin_covers_costs
  (settings : Settings) (task_data : TaskData)
  (region project_type : option string) :
  0 <= base_margin settings ->
  let task := _calculate_task_pricing settings task_data region project_type in
  materials_cost task * _get_regional_multiplier settings region
  + labor_of task
  <= Task.margin_protected_price task.
Proof.
  intros Hm. cbv zeta.
  destruct (task_pricing_margin settings task_data region project_type)
    as [-> | (labor & _ & Hl & Hp)].
  - unfold materials_cost, labor_of, Py.sum. simpl. lra.
  - unfold labor_of. rewrite Hl, Hp. cbn [default from_option id].
    set (task := _calculate_task_pricing settings task_data region project_type)
      in *.
    set (x := materials_cost task * _get_regional_multiplier settings region
              + labor * _get_regional_multiplier settings region).
    assert (Hx : 0 <= x).
    { assert (Hv : 0 <= Task.margin_protected_price task).
      { subst task. unfold _calculate_task_pricing.
        destruct (mapM _ (PricingService.materials task_data));
          cbn [mbind result_bind try_except]; [|simpl; lra].
        destruct (_calculate_labor_cost settings _ _);
          cbn [mbind result_bind try_except]; [|simpl; lra].
        destruct (Task.make _) as [t|] eqn:Et; cbn [try_except]; [|simpl; lra].
        apply Task_make_Ok in Et as (-> & Hv & _). exact Hv. }
      rewrite Hp in Hv. fold x in Hv.
      destruct (Qlt_le_dec x 0) as [Hneg|]; [|assumption].
      assert (0 < (- x) * (1 + base_margin settings))
        by (apply Qmult_lt_0_compat; lra).
      lra. }
    assert (0 <= x * base_margin settings) by (apply Qmult_le_0_compat; lra).
    lra.
Qed.

(** X15.  The confidence of a task lies between 0.15 and 0.97 when the scores of
    its items lie in [0,1], for every task type, listed or not. *)
Theorem _calculate_task_confidence_range
  (materials : list MaterialItem.t) (task_type : string) :
  Forall (fun m => 0 <= MaterialItem.confidence_score m <= 1) materials ->
  15 # 100 <= _calculate_task_confidence materials task_type <= 97 # 100.
Proof.
  intros H. unfold _calculate_task_confidence.
  destruct materials as [|m ms]; [lra|].
  set (l := m :: ms) in *.
  assert (Hlen : 0 < Py.float (length l)).
  { unfold Py.float. change 0 with (inject_Z 0). rewrite <- Zlt_Qlt.
    subst l. simpl length. lia. }
  assert (H0 : 0 <= Py.sum (map MaterialItem.confidence_score l)).
  { apply sum_nonneg. rewrite Forall_map.
    eapply List.Forall_impl; [|exact H]. simpl. tauto. }
  assert (H1 : Py.sum (map MaterialItem.confidence_score l)
               <= Py.float (length l)).
  { rewrite <- (length_map MaterialItem.confidence_score l).
    apply sum_le_length. rewrite Forall_map.
    eapply List.Forall_impl; [|exact H]. simpl. tauto. }
  assert (Ha : 0 <= Py.sum (map MaterialItem.confidence_score l)
                    / Py.float (length l) <= 1).
  { split.
    - apply Qle_shift_div_l; [exact Hlen | lra].
    - apply Qle_shift_div_r; [exact Hlen | lra]. }
  assert (Ht : 5 # 10 <= lookup_default task_type_confidences task_type (5 # 10)
               <= 9 # 10).
  { unfold lookup_default, task_type_confidences. cbn [List.find fst snd].
    repeat match goal with |- context [if ?b then _ else _] => destruct b end;
      cbn [snd]; lra. }
  lra.
Qed.

(** ** The extracted tasks *)

Lemma set_add_NoDup (x : string) (s : list string) :
  List.NoDup s -> List.NoDup (set_add x s).
Proof.
  intros H. unfold set_add. destruct (mem x s) eqn:E; [exact H|].
  apply NoDup_ListNoDup. apply NoDup_app.
  split; [apply NoDup_ListNoDup, H|].
  split; [|apply NoDup_singleton].
  intros y Hy Hx. apply list_elem_of_In in Hy, Hx.
  destruct Hx as [<- | []].
  apply EmbeddingFacts.mem_In in Hy. congruence.
Qed.

Lemma identified_tasks_NoDup (keywords : list string) :
  List.NoDup (identified_tasks keywords).
Proof.
  unfold identified_tasks.
  assert (H : forall acc,
             List.NoDup acc ->
             List.NoDup
               (fold_left
                  (fun acc keyword =>
                     fold_left
                       (fun acc kv =>
                          if existsb (fun k => contains k (lower keyword))
                                     (snd kv)
                          then set_add (fst kv) acc else acc)
                       task_keywords acc)
                  keywords acc)).
  { induction keywords as [|keyword keywords IH]; intros acc Hacc;
      [exact Hacc|].
    cbn [fold_left]. apply IH.
    unfold task_keywords at 1. cbn [fold_left fst snd].
    repeat match goal with
           | |- context [if ?b then _ else _] => destruct b
           end;
      repeat apply set_add_NoDup; exact Hacc. }
  apply H. constructor.
Qed.

(** X16.  The extractor returns between one and five tasks, of different types,
    each type one of the six categories. *)
Theorem extracted_tasks_shape
  (embedding_similarity : string -> string -> result Q) (settings : Settings)
  (db : Store) (transcript : string) (region : option string) :
  let tasks :=
    _extract_materials_and_tasks embedding_similarity settings db transcript
                                 region in
  (1 <= length tasks <= 5)%nat /\
  List.NoDup (map type tasks) /\
  Forall (fun task => In (type task) categories) tasks.
Proof.
  cbv zeta. unfold _extract_materials_and_tasks.
  assert (Hgen : forall ms,
             (1 <= length [{| type := "general";
                              PricingService.materials := ms;
                              duration := "1 day" |}] <= 5)%nat /\
             List.NoDup
               (map type [{| type := "general";
                             PricingService.materials := ms;
                             duration := "1 day" |}]) /\
             Forall (fun task => In (type task) categories)
                    [{| type := "general"; PricingService.materials := ms;
                        duration := "1 day" |}]).
  { intros ms. simpl. split; [lia|]. split.
    - constructor; [intros [] | constructor].
    - constructor; [|constructor]. unfold categories. simpl. tauto. }
  destruct (searched_materials _ _ _ _ _) as [ms|];
    cbn [mbind result_bind try_except]; [|apply Hgen].
  set (keywords := EmbeddingService.get_semantic_keywords _ 10).
  destruct (_identify_tasks_cases
              (EmbeddingService.preprocess_text transcript) keywords ms)
    as [[_ ->] | [Hne ->]]; [apply Hgen|].
  assert (Htypes : map type (map (task_for ms) (identified_tasks keywords))
                   = identified_tasks keywords).
  { rewrite map_map. apply map_id. }
  pose proof (identified_tasks_NoDup keywords) as Hnd.
  assert (Hincl : incl (identified_tasks keywords) (map fst task_keywords)).
  { intros t Ht. apply (identified_tasks_categories keywords), Ht. }
  split; [|split].
  - rewrite length_map. split.
    + destruct (identified_tasks keywords); [congruence | simpl; lia].
    + apply (List.NoDup_incl_length Hnd Hincl).
  - rewrite Htypes. exact Hnd.
  - rewrite Forall_map. apply List.Forall_forall. intros t Ht.
    apply Hincl in Ht. unfold categories. simpl in *. tauto.
Qed.

(** ** What [generate_proposal] stores *)

Lemma save_usages_effect
  (quote_id : string) (old : list MaterialUsage.t)
  (items : list MaterialItem.t) (db : Store) :
  let db' :=
    fold_left
      (fun db material =>
         add_material_usage
           {| MaterialUsage.quote_id := quote_id;
              MaterialUsage.material_id := 0;
              MaterialUsage.quantity := MaterialItem.quantity material;
              MaterialUsage.unit_price := MaterialItem.unit_price material;
              MaterialUsage.total_price := MaterialItem.total_price material;
              MaterialUsage.confidence_score :=
                MaterialItem.confidence_score material |} db)
      items db in
  usage_rows_ok quote_id old db ->
  Database.materials db' = Database.materials db /\ quotes db' = quotes db /\
  feedback db' = feedback db /\
  vendor_reliability db' = vendor_reliability db /\
  tasks db' = tasks db /\
  length (material_usage db')
  = (length (material_usage db) + length items)%nat /\
  usage_rows_ok quote_id old db'.
Proof.
  revert db. induction items as [|item items IH]; intros db; cbn [fold_left].
  - intros H. repeat split; try exact H. simpl. lia.
  - intros H.
    set (db1 := add_material_usage _ db).
    assert (H1 : usage_rows_ok quote_id old db1).
    { intros u Hu. subst db1. cbn [add_material_usage material_usage] in Hu.
      apply in_app_iff in Hu as [Hu | [<- | []]]; [apply H, Hu|].
      right. split; reflexivity. }
    destruct (IH db1 H1) as (Hm & Hq & Hf & Hv & Ht & Hl & Hu).
    rewrite Hm, Hq, Hf, Hv, Ht, Hl.
    repeat split; try exact Hu.
    subst db1. cbn [add_material_usage material_usage length].
    rewrite length_app. simpl. lia.
Qed.

Lemma save_task_effect
  (quote_id : string) (old : list MaterialUsage.t) (db : Store) (task : Task.t) :
  let db' := save_task quote_id db task in
  usage_rows_ok quote_id old db ->
  Database.materials db' = Database.materials db /\ quotes db' = quotes db /\
  feedback db' = feedback db /\
  vendor_reliability db' = vendor_reliability db /\
  length (tasks db') = S (length (tasks db)) /\
  length (material_usage db')
  = (length (material_usage db) + length (Task.materials task))%nat /\
  usage_rows_ok quote_id old db'.
Proof.
  cbv zeta. intros H. unfold save_task.
  set (db1 := add_task _ db).
  assert (H1 : usage_rows_ok quote_id old db1) by exact H.
  destruct (save_usages_effect quote_id old (Task.materials task) db1 H1)
    as (Hm & Hq & Hf & Hv & Ht & Hl & Hu).
  rewrite Hm, Hq, Hf, Hv, Ht, Hl.
  repeat split; try exact Hu.
  subst db1. cbn [add_task tasks]. rewrite length_app. simpl. lia.
Qed.

Lemma save_tasks_effect
  (quote_id : string) (old : list MaterialUsage.t)
  (priced : list Task.t) (db : Store) :
  let db' := fold_left (save_task quote_id) priced db in
  usage_rows_ok quote_id old db ->
  Database.materials db' = Database.materials db /\ quotes db' = quotes db /\
  feedback db' = feedback db /\
  vendor_reliability db' = vendor_reliability db /\
  length (tasks db') = (length (tasks db) + length priced)%nat /\
  length (material_usage db')
  = (length (material_usage db)
     + length (concat (map Task.materials priced)))%nat /\
  usage_rows_ok quote_id old db'.
Proof.
  revert db. induction priced as [|task priced IH]; intros db; cbn [fold_left].
  - intros H. repeat split; try exact H; simpl; lia.
  - intros H.
    destruct (save_task_effect quote_id old db task H)
      as (Hm & Hq & Hf & Hv & Ht & Hl & Hu).
    destruct (IH _ Hu) as (Hm' & Hq' & Hf' & Hv' & Ht' & Hl' & Hu').
    rewrite Hm', Hq', Hf', Hv', Ht', Hl', Hm, Hq, Hf, Hv, Ht, Hl.
    repeat split; try exact Hu'.
    + simpl. lia.
    + cbn [map concat]. rewrite length_app. lia.
Qed.

(** [generate_proposal] stores all its rows or none. *)
Lemma generate_proposal_effect
  (embedding_similarity : string -> string -> result Q) (settings : Settings)
  (db : Store) (quote_id : string) (now : Z) (transcript : string)
  (user_type : UserType) (region project_type : option string) :
  let out :=
    generate_proposal embedding_similarity settings db quote_id now transcript
                      user_type region project_type in
  let priced :=
    priced_tasks embedding_similarity settings db transcript region
                 project_type in
  out = (Raise (DataError "quotes"), db) \/
  Database.materials (snd out) = Database.materials db /\
  feedback (snd out) = feedback db /\
  vendor_reliability (snd out) = vendor_reliability db /\
  exists q,
    proposal_stored db (snd out) quote_id priced q /\
    Quote.region q = region /\
    forall resp,
      fst out = Ok resp ->
      Quote.total_estimate q = GenerateProposalResponse.total_estimate resp /\
      Quote.confidence_score q = GenerateProposalResponse.confidence_score resp.
Proof.
  cbv zeta. unfold generate_proposal.
  destruct (commits _ _ _); cbn [negb]; [right | left; reflexivity].
  cbn [fst snd].
  fold (priced_tasks embedding_similarity settings db transcript region
                     project_type).
  set (priced := priced_tasks _ _ _ _ _ _).
  set (db1 := add_quote _ db).
  assert (H1 : usage_rows_ok quote_id (material_usage db) db1).
  { intros u Hu. left. exact Hu. }
  destruct (save_tasks_effect quote_id (material_usage db) priced db1 H1)
    as (Hm & Hq & Hf & Hv & Ht & Hl & Hu).
  split; [exact Hm|]. split; [exact Hf|]. split; [exact Hv|].
  eexists. split; [|split].
  - unfold proposal_stored. rewrite Hq, Ht, Hl.
    split; [reflexivity|]. split; [reflexivity|].
    split; [reflexivity|]. split; [reflexivity | exact Hu].
  - reflexivity.
  - intros resp Hr. apply GenerateProposalResponse_make_Ok in Hr as [-> _].
    split; reflexivity.
Qed.

(** X17.  [generate_proposal] leaves the materials, the feedback and the
    vendor records alone, and stores all its rows or none: the store is
    as it was (the commit failed), or it has one more quote, under the
    new identifier, one task row for each task and one usage row, with
    material id 0, for each item.  When a response is returned the rows
    are stored, and the quote has the total and the confidence of the
    response. *)
Theorem generate_proposal_stores
  (embedding_similarity : string -> string -> result Q) (settings : Settings)
  (db : Store) (quote_id : string) (now : Z) (transcript : string)
  (user_type : UserType) (region project_type : option string) :
  let out :=
    generate_proposal embedding_similarity settings db quote_id now transcript
                      user_type region project_type in
  let priced :=
    priced_tasks embedding_similarity settings db transcript region
                 project_type in
  Database.materials (snd out) = Database.materials db /\
  feedback (snd out) = feedback db /\
  vendor_reliability (snd out) = vendor_reliability db /\
  (snd out = db \/ exists q, proposal_stored db (snd out) quote_id priced q) /\
  (forall resp,
     fst out = Ok resp ->
     exists q,
       proposal_stored db (snd out) quote_id priced q /\
       Quote.total_estimate q = GenerateProposalResponse.total_estimate resp /\
       Quote.confidence_score q
       = GenerateProposalResponse.confidence_score resp).
Proof.
  cbv zeta.
  destruct (generate_proposal_effect embedding_similarity settings db quote_id
              now transcript user_type region project_type)
    as [E | (Hm & Hf & Hv & q & Hs & _ & Hresp)].
  - rewrite E. cbn [fst snd].
    repeat split; try (left; reflexivity). intros resp Hr. discriminate Hr.
  - split; [exact Hm|]. split; [exact Hf|]. split; [exact Hv|]. split.
    + right. exists q. exact Hs.
    + intros resp Hr. exists q. split; [exact Hs | exact (Hresp resp Hr)].
Qed.

Lemma find_app_new (quote_id : string) (qs : list Quote.t) (q : Quote.t) :
  Forall (fun x => Quote.id x <> quote_id) qs ->
  Quote.id q = quote_id ->
  List.find (fun x => String.eqb (Quote.id x) quote_id) (qs ++ [q]) = Some q.
Proof.
  intros H Hq. induction H as [|x qs Hx _ IH]; simpl.
  - rewrite Hq, String.eqb_refl. reflexivity.
  - apply String.eqb_neq in Hx. rewrite Hx. exact IH.
Qed.

(** X18.  A generated proposal can be read back: when the identifier is new,
    [get_quote_by_id] finds a quote with the total and the confidence of
    the response. *)
Theorem generated_quote_is_found
  (embedding_similarity : string -> string -> result Q) (settings : Settings)
  (db : Store) (quote_id : string) (now : Z) (transcript : string)
  (user_type : UserType) (region project_type : option string)
  (resp : GenerateProposalResponse.t) :
  let out :=
    generate_proposal embedding_similarity settings db quote_id now transcript
                      user_type region project_type in
  Forall (fun q => Quote.id q <> quote_id) (quotes db) ->
  fst out = Ok resp ->
  exists q,
    get_quote_by_id (snd out) quote_id = Some q /\
    Quote.total_estimate q = GenerateProposalResponse.total_estimate resp /\
    Quote.confidence_score q = GenerateProposalResponse.confidence_score resp /\
    Quote.region q = region.
Proof.
  cbv zeta. intros Hfresh Hr.
  destruct (generate_proposal_effect embedding_similarity settings db quote_id
              now transcript user_type region project_type)
    as [E | (_ & _ & _ & q & (Hq & Hid & _) & Hreg & Hresp)].
  - rewrite E in Hr. discriminate Hr.
  - exists q. unfold get_quote_by_id. rewrite Hq.
    split; [apply find_app_new; assumption|].
    destruct (Hresp resp Hr) as [Ht Hc]. auto.
Qed.

(** ** Under the configured settings *)

Lemma configured_multiplier_bound (region : option string) :
  9 # 10 <= _get_regional_multiplier settings region.
Proof.
  unfold _get_regional_multiplier.
  destruct (truthy region); [|lra].
  unfold Config.get, settings. cbn [regional_multipliers].
  unfold list_to_map. cbn [foldr fst snd].
  repeat (rewrite lookup_insert; case_decide; [cbn; lra|]).
  rewrite lookup_empty. cbn. lra.
Qed.

Lemma configured_labor_cost (task_type duration : string) :
  exists rate,
    35 <= rate /\
    _calculate_labor_cost settings task_type duration
    = Ok (_parse_duration_to_hours duration * rate).
Proof.
  unfold _calculate_labor_cost.
  change (getitem (default_labor_rates settings) "general") with (Ok (40 # 1)).
  cbn [mbind result_bind].
  eexists. split; [|reflexivity].
  unfold Config.get, settings. cbn [default_labor_rates].
  unfold list_to_map. cbn [foldr fst snd].
  repeat (rewrite lookup_insert; case_decide; [cbn; lra|]).
  rewrite lookup_empty. cbn. lra.
Qed.

Lemma estimated_duration_at_least_a_day
  (task_type : string) (material_count : nat) :
  8 <= _parse_duration_to_hours
         (_estimate_task_duration task_type material_count).
Proof.
  unfold _estimate_task_duration, lookup_default, base_durations.
  cbn [List.find fst snd].
  case_key task_type;
    destruct (5 <? material_count)%nat; vm_compute; discriminate.
Qed.

Lemma extracted_tasks_nonempty
  (embedding_similarity : string -> string -> result Q) (cfg : Settings)
  (db : Store) (transcript : string) (region : option string) :
  _extract_materials_and_tasks embedding_similarity cfg db transcript region
  <> [].
Proof.
  unfold _extract_materials_and_tasks.
  destruct (searched_materials _ _ _ _ _) as [ms|];
    cbn [mbind result_bind try_except]; [|discriminate].
  set (keywords := EmbeddingService.get_semantic_keywords _ 10).
  destruct (_identify_tasks_cases
              (EmbeddingService.preprocess_text transcript) keywords ms)
    as [[_ ->] | [Hne ->]]; [discriminate|].
  destruct (identified_tasks keywords); [congruence | discriminate].
Qed.

Lemma extracted_duration_hours
  (embedding_similarity : string -> string -> result Q) (cfg : Settings)
  (db : Store) (transcript : string) (region : option string)
  (task_data : TaskData) :
  In task_data
     (_extract_materials_and_tasks embedding_similarity cfg db transcript
                                   region) ->
  8 <= _parse_duration_to_hours (duration task_data).
Proof.
  unfold _extract_materials_and_tasks.
  assert (Hday : 8 <= _parse_duration_to_hours "1 day")
    by (vm_compute; discriminate).
  destruct (searched_materials _ _ _ _ _) as [ms|];
    cbn [mbind result_bind try_except]; [|intros [<- | []]; exact Hday].
  set (keywords := EmbeddingService.get_semantic_keywords _ 10).
  destruct (_identify_tasks_cases
              (EmbeddingService.preprocess_text transcript) keywords ms)
    as [[_ ->] | [_ ->]]; [intros [<- | []]; exact Hday|].
  intros Hin. apply in_map_iff in Hin as (task_type & <- & _).
  cbn [task_for duration]. apply estimated_duration_at_least_a_day.
Qed.

Lemma sum_at_least (b : Q) (l : list Q) :
  0 <= b -> l <> [] -> Forall (fun x => b <= x) l -> b <= Py.sum l.
Proof.
  intros Hb Hne H. destruct H as [|x l Hx Hl]; [congruence|].
  rewrite sum_cons.
  assert (0 <= Py.sum l).
  { apply sum_nonneg. eapply List.Forall_impl; [|exact Hl].
    simpl. intros. lra. }
  lra.
Qed.

(** X19.  Under the configured settings a request gets a proposal unless
    the commit fails, and then nothing is stored: the response always
    passes its validation.  A proposal that is returned has at least one
    task and a total estimate of at least 80, whatever the store, the
    transcript, the region and the project type. *)
Theorem configured_proposal_is_positive
  (embedding_similarity : string -> string -> result Q)
  (db : Store) (quote_id : string) (now : Z) (transcript : string)
  (user_type : UserType) (region project_type : option string) :
  let out :=
    generate_proposal embedding_similarity settings db quote_id now
                      transcript user_type region project_type in
  ((exists resp, fst out = Ok resp) \/ (exists e, out = (Raise e, db))) /\
  forall resp,
    fst out = Ok resp ->
    GenerateProposalResponse.tasks resp <> [] /\
    80 <= GenerateProposalResponse.total_estimate resp.
Proof.
  cbv zeta. split.
  { destruct (generate_proposal_returns embedding_similarity settings db
                quote_id now transcript user_type region project_type
                settings_reasonable) as [H | H]; [left; exact H|].
    right. eexists. exact H. }
  intros resp Hr.
  apply generate_proposal_Ok in Hr as (Ht & _ & _ & He).
  set (extracted := _extract_materials_and_tasks embedding_similarity settings
                      db transcript region).
  assert (Hne : extracted <> []) by apply extracted_tasks_nonempty.
  set (priced := priced_tasks embedding_similarity settings db transcript
                   region project_type) in *.
  assert (Hp : priced = map (fun td => _calculate_task_pricing settings td
                                         region project_type) extracted)
    by reflexivity.
  split.
  - rewrite Ht, Hp. destruct extracted; [congruence | discriminate].
  - rewrite He.
    destruct (fold_accumulate priced 0 0) as [Hf Hs].
    set (f := fst (fold_left accumulate priced (0, 0))) in *.
    set (l := snd (fold_left accumulate priced (0, 0))) in *.
    assert (Hm : 0 <= Py.sum (map materials_cost priced)).
    { apply sum_nonneg. rewrite Hp, !Forall_map.
      apply List.Forall_forall. intros td _. apply task_pricing_valid. }
    assert (Hl : 80 <= Py.sum (map labor_of priced)).
    { apply sum_at_least; [lra| |].
      - rewrite Hp. destruct extracted; [congruence | discriminate].
      - rewrite Hp, !Forall_map. apply List.Forall_forall. intros td Htd.
        destruct (task_pricing_margin settings td region project_type)
          as [-> | (labor & Hlab & Hcost & _)];
          [unfold labor_of, fallback_task;
           cbn [Task.labor_cost default from_option id]; lra|].
        unfold labor_of. rewrite Hcost. cbn [default from_option id].
        destruct (configured_labor_cost (type td) (duration td))
          as (rate & Hrate & Heq).
        rewrite Heq in Hlab. injection Hlab as <-.
        pose proof (extracted_duration_hours _ _ _ _ _ _ Htd) as Hh.
        pose proof (configured_multiplier_bound region) as Hmult.
        assert (H1 : 8 * 35 <= _parse_duration_to_hours (duration td) * rate)
          by (apply Qmult_le_compat_nonneg; split; lra).
        assert (H2 : 8 * 35 * (9 # 10)
                     <= _parse_duration_to_hours (duration td) * rate
                        * _get_regional_multiplier settings region)
          by (apply Qmult_le_compat_nonneg; split; lra).
        lra. }
    assert (H0 : 80 <= f + l) by lra.
    assert (Hv : 0 <= _determine_vat_rate settings project_type).
    { rewrite _determine_vat_rate_mentions_new.
      destruct (mentions_new project_type); simpl; lra. }
    assert (0 <= (f + l) * _determine_vat_rate settings project_type)
      by (apply Qmult_le_0_compat; lra).
    assert (0 <= (f + l) * base_margin settings)
      by (apply Qmult_le_0_compat; simpl; lra).
    lra.
Qed.

End PricingExtras.

(** * More on the feedback learner and the vendor records *)

Module FeedbackExtras.

Import PyFacts ModelFacts FeedbackFacts FeedbackService.
Local Open Scope Q_scope.

(** ** Processing feedback on a stored quote *)

Lemma _calculate_impact_score_range
  (verdict : VerdictType) (user_type : UserType) (quote : Quote.t) :
  0 <= _calculate_impact_score verdict user_type quote <= 1.
Proof.
  rewrite _calculate_impact_score_weight. apply clamp_unit.
Qed.

Lemma _generate_learning_insights_nonempty
  (quote : Quote.t) (verdict : VerdictType) (comment : option string)
  (material_feedback pricing_feedback : option (list (string * string))) :
  _generate_learning_insights quote verdict comment material_feedback
                              pricing_feedback <> [].
Proof.
  unfold _generate_learning_insights.
  match goal with |- match ?l with _ => _ end <> _ => destruct l end;
    discriminate.
Qed.

(** X20.  [process_feedback] never returns a response and never changes
    the store.  On a stored quote the commit fails, because the Feedback
    row carries a uuid string in its Integer key, and the rollback leaves
    the store as it was; on a missing quote the "not found" error is
    raised before anything is added. *)
Theorem process_feedback_never_answers
  (db : Store) (feedback_id : string) (now : Z) (quote_id : string)
  (user_type : UserType) (verdict : VerdictType) (comment : option string)
  (material_feedback pricing_feedback : option (list (string * string))) :
  let out :=
    process_feedback db feedback_id now quote_id user_type verdict comment
                     material_feedback pricing_feedback in
  snd out = db /\
  (exists e, fst out = Raise e) /\
  (forall quote,
     get_quote_by_id db quote_id = Some quote ->
     fst out = Raise (DataError "feedback")) /\
  (get_quote_by_id db quote_id = None ->
   fst out = Raise (ValueError ("Quote " ++ quote_id ++ " not found"))).
Proof.
  cbv zeta. unfold process_feedback.
  destruct (get_quote_by_id db quote_id) as [quote|]; cbn [fst snd negb].
  - split; [reflexivity|]. split; [eexists; reflexivity|].
    split; [reflexivity | discriminate].
  - split; [reflexivity|]. split; [eexists; reflexivity|].
    split; [discriminate | reflexivity].
Qed.

(** ** Impact score *)

Lemma value_factor_sign (total : Q) :
  0 <= total -> 0 <= Py.min (total / 1000) 2.
Proof.
  intros H. unfold Py.min, Qdiv. change (/ 1000) with (1 # 1000).
  case_cmp; lra.
Qed.

(** X21.  On a quote whose total is not negative, negative feedback (rejected,
    overpriced, underpriced) weighs no less when the confidence of the
    quote is lower; for the other verdicts the confidence plays no part. *)
Theorem impact_score_and_confidence
  (verdict : VerdictType) (user_type : UserType) (quote : Quote.t) (c1 c2 : Q) :
  0 <= Quote.total_estimate quote ->
  c1 <= c2 ->
  (is_negative verdict = true ->
   _calculate_impact_score verdict user_type (with_confidence quote c2)
   <= _calculate_impact_score verdict user_type (with_confidence quote c1)) /\
  (is_negative verdict = false ->
   _calculate_impact_score verdict user_type (with_confidence quote c1)
   = _calculate_impact_score verdict user_type (with_confidence quote c2)).
Proof.
  intros Ht Hc. pose proof (value_factor_sign _ Ht) as Hv.
  unfold _calculate_impact_score.
  cbn [with_confidence Quote.confidence_score Quote.total_estimate].
  set (vf := Py.min (Quote.total_estimate quote / 1000) 2) in *.
  split; intros Hn; rewrite Hn; [|reflexivity].
  apply clamp_mono. cbv zeta.
  apply Qmult_le_compat_r; [|exact Hv].
  destruct verdict, user_type; cbn [verdict_weights user_weights]; lra.
Qed.

(** X22.  For the same quote and verdict a contractor's feedback weighs at least
    as much as an architect's, and an architect's at least as much as a
    client's. *)
Theorem impact_score_by_role (verdict : VerdictType) (quote : Quote.t) :
  Quote.confidence_score quote <= 1 ->
  _calculate_impact_score verdict CLIENT quote
  <= _calculate_impact_score verdict ARCHITECT quote /\
  _calculate_impact_score verdict ARCHITECT quote
  <= _calculate_impact_score verdict CONTRACTOR quote.
Proof.
  intros Hc. rewrite !_calculate_impact_score_weight.
  set (vf := Py.min (Quote.total_estimate quote / 1000) 2).
  assert (Hw : forall u, weight verdict u quote
                         == user_weights u * weight verdict CONTRACTOR quote).
  { intros u. unfold weight.
    destruct (is_negative verdict); cbn [user_weights]; ring. }
  pose proof (weight_nonneg verdict CONTRACTOR quote Hc) as H0.
  assert (Hcl : weight verdict CLIENT quote <= weight verdict ARCHITECT quote).
  { pose proof (Hw CLIENT) as H1. pose proof (Hw ARCHITECT) as H2.
    cbn [user_weights] in H1, H2. lra. }
  assert (Har : weight verdict ARCHITECT quote
                <= weight verdict CONTRACTOR quote).
  { pose proof (Hw ARCHITECT) as H2. cbn [user_weights] in H2. lra. }
  destruct (Qlt_le_dec vf 0) as [Hneg | Hpos].
  - assert (Hz : forall u,
               Py.max 0 (Py.min 1 (weight verdict u quote * vf)) == 0).
    { intros u.
      assert (0 <= weight verdict u quote) by (apply weight_nonneg, Hc).
      assert (0 <= weight verdict u quote * (- vf))
        by (apply Qmult_le_0_compat; lra).
      unfold Py.max, Py.min. case_cmp; lra. }
    pose proof (Hz CLIENT). pose proof (Hz ARCHITECT).
    pose proof (Hz CONTRACTOR). split; lra.
  - split; apply clamp_mono; apply Qmult_le_compat_r; assumption.
Qed.

(** ** Insights *)

Lemma In_append (l : list string) (x y : string) :
  In y l -> In y (append l x).
Proof. unfold append. rewrite in_app_iff. tauto. Qed.

Lemma fold_pricing_feedback
  (entries : list (string * string)) (insights : list string) :
  let out :=
    fold_left
      (fun insights entry =>
         let '(aspect, feedback_text) := entry in
         append insights
           ("Pricing feedback on " ++ aspect ++ ": " ++ feedback_text))
      entries insights in
  (forall y, In y insights -> In y out) /\
  (forall aspect text,
     In (aspect, text) entries ->
     In ("Pricing feedback on " ++ aspect ++ ": " ++ text) out).
Proof.
  revert insights. induction entries as [|[a t] entries IH]; intros insights.
  - simpl. split; [tauto | intros ? ? []].
  - cbn [fold_left]. destruct (IH (append insights
                                     ("Pricing feedback on " ++ a ++ ": " ++ t)))
      as [Hkeep Hnew].
    split.
    + intros y Hy. apply Hkeep, In_append, Hy.
    + intros aspect text [[= <- <-] | Hin].
      * apply Hkeep. unfold append. apply in_app_iff. right. left. reflexivity.
      * apply Hnew, Hin.
Qed.

(** X23.  The list of insights is never empty, and every entry of the pricing
    feedback is echoed in it. *)
Theorem insights_echo_pricing_feedback
  (quote : Quote.t) (verdict : VerdictType) (comment : option string)
  (material_feedback pricing_feedback : option (list (string * string))) :
  let insights :=
    _generate_learning_insights quote verdict comment material_feedback
                                pricing_feedback in
  insights <> [] /\
  forall aspect text,
    In (aspect, text) (default [] pricing_feedback) ->
    In ("Pricing feedback on " ++ aspect ++ ": " ++ text) insights.
Proof.
  cbv zeta. split; [apply _generate_learning_insights_nonempty|].
  intros aspect text Hin. unfold _generate_learning_insights.
  match goal with
  | |- context [fold_left ?f (default [] pricing_feedback) ?init] =>
      destruct (fold_pricing_feedback (default [] pricing_feedback) init)
        as [_ Hecho];
      specialize (Hecho aspect text Hin);
      set (after_pricing := fold_left f (default [] pricing_feedback) init) in *
  end.
  assert (Hlast : forall l, In ("Pricing feedback on " ++ aspect ++ ": " ++ text) l ->
                            In ("Pricing feedback on " ++ aspect ++ ": " ++ text)
                               match l with
                               | [] => ["Feedback received - monitoring for patterns"]
                               | _ => l
                               end).
  { intros [|x l] H; [destruct H | exact H]. }
  apply Hlast.
  destruct (MaterialService.truthy comment); [|exact Hecho].
  repeat match goal with
         | |- context [if ?b then _ else _] => destruct b
         end; try apply In_append; exact Hecho.
Qed.

(** ** Vendor records *)

(** X25.  [update_vendor_reliability] cannot create a record: for a vendor
    without one it raises [TypeError].  For a vendor with a record whose
    counters satisfy 0 <= accepted <= total, N events, A of them accepted,
    all succeed as long as the total fits the Integer column; the record
    then has N more [total_quotes], A more [accepted_quotes] and their
    quotient as reliability, which lies in [0,1]. *)
Theorem vendor_record_after_replay
  (vendor : string) (now : Z) (events : list bool) (db : Store) :
  events <> [] ->
  (vendor_reliability db !! vendor = None ->
   replay vendor now events db = Raise TypeError) /\
  (forall r0,
     vendor_reliability db !! vendor = Some r0 ->
     VendorReliability.vendor_name r0 = vendor ->
     (0 <= VendorReliability.accepted_quotes r0
      <= VendorReliability.total_quotes r0)%Z ->
     (VendorReliability.total_quotes r0 + Z.of_nat (length events)
      <= 2147483647)%Z ->
     exists db' r,
       replay vendor now events db = Ok db' /\
       vendor_reliability db' !! vendor = Some r /\
       VendorReliability.total_quotes r
       = (VendorReliability.total_quotes r0 + Z.of_nat (length events))%Z /\
       VendorReliability.accepted_quotes r
       = (VendorReliability.accepted_quotes r0
          + Z.of_nat (accepted_count events))%Z /\
       VendorReliability.reliability_score r
       == inject_Z (VendorReliability.accepted_quotes r)
          / inject_Z (VendorReliability.total_quotes r) /\
       0 <= VendorReliability.reliability_score r <= 1).
Proof.
  intros Hne. split; [intros H0; apply replay_unknown; assumption|].
  intros r0 H0 Hname Hr0 Hmax.
  destruct (replay_known vendor now events db r0 H0 Hname Hr0 Hmax)
    as (db' & r & Hrun & Hr & _ & Ht & Ha & Hs).
  specialize (Hs Hne).
  exists db', r. split; [exact Hrun|]. split; [exact Hr|].
  split; [exact Ht|]. split; [exact Ha|].
  split; [rewrite Hs; reflexivity|]. rewrite Hs.
  assert (Hn : (0 < length events)%nat)
    by (destruct events; [congruence | simpl; lia]).
  assert (Hle : (accepted_count events <= length events)%nat)
    by apply List.filter_length_le.
  assert (Hpos : 0 < inject_Z (VendorReliability.total_quotes r)).
  { change 0 with (inject_Z 0). rewrite <- Zlt_Qlt. lia. }
  assert (H1 : 0 <= inject_Z (VendorReliability.accepted_quotes r)).
  { change 0 with (inject_Z 0). rewrite <- Zle_Qle. lia. }
  assert (H2 : inject_Z (VendorReliability.accepted_quotes r)
               <= inject_Z (VendorReliability.total_quotes r)).
  { rewrite <- Zle_Qle. lia. }
  split.
  - apply Qle_shift_div_l; [exact Hpos | lra].
  - apply Qle_shift_div_r; [exact Hpos | lra].
Qed.

(** X26.  An update that succeeds touches the record of its vendor only:
    the vendor had a record and has one still, the records of the other
    vendors and the other tables stay as they were, and every record is
    still filed under its own name. *)
Theorem update_vendor_reliability_is_local
  (db db' : Store) (vendor : string) (accepted : bool) (now : Z) :
  keyed_by_name db ->
  update_vendor_reliability db vendor accepted now = Ok db' ->
  (exists r0 r,
     vendor_reliability db !! vendor = Some r0 /\
     vendor_reliability db' !! vendor = Some r /\
     VendorReliability.total_quotes r
     = (VendorReliability.total_quotes r0 + 1)%Z) /\
  (forall other, other <> vendor ->
                 vendor_reliability db' !! other = vendor_reliability db !! other) /\
  keyed_by_name db' /\
  materials db' = materials db /\ quotes db' = quotes db /\
  tasks db' = tasks db /\ material_usage db' = material_usage db /\
  feedback db' = feedback db.
Proof.
  intros Hk. unfold update_vendor_reliability, get_vendor_reliability.
  destruct (vendor_reliability db !! vendor) as [r0|] eqn:E; [|discriminate].
  destruct (VendorReliability.total_quotes r0 + 1 =? 0)%Z; [discriminate|].
  destruct (integer_ok _ && integer_ok _); cbn [negb]; [|discriminate].
  intros [= <-]. unfold put_vendor_reliability.
  cbn [vendor_reliability materials quotes tasks material_usage feedback
       VendorReliability.vendor_name].
  rewrite (Hk _ _ E).
  split; [|split; [|split; [|repeat split]]].
  - eexists _, _. split; [reflexivity|].
    split; [apply lookup_insert_eq | reflexivity].
  - intros other Hne. apply lookup_insert_ne. congruence.
  - intros v r. cbn [vendor_reliability]. rewrite lookup_insert.
    case_decide as Hd.
    + intros [= <-]. cbn [VendorReliability.vendor_name]. congruence.
    + apply Hk.
Qed.

End FeedbackExtras.

(** * The route handlers and the embedding update *)

Module RouteFacts.

Import PyFacts ModelFacts MaterialFacts PricingFacts FeedbackFacts.
Local Open Scope Q_scope.

Lemma lstrip_blank (s : string) :
  Forall (fun c => is_space c = true) (chars s) -> lstrip s = "".
Proof.
  induction s as [|c s IH]; intros H; [reflexivity|].
  apply List.Forall_cons_iff in H as [Hc Hs].
  simpl. rewrite Hc. apply IH, Hs.
Qed.

Lemma blank_spaces (s : string) :
  Forall (fun c => is_space c = true) (chars s) -> Main.blank s = true.
Proof.
  intros H. unfold Main.blank, strip. rewrite (lstrip_blank _ H). reflexivity.
Qed.

(** ** [GET /material-price] *)

(** X27.  The handler never answers with status 400: a query of whitespace only
    gets status 500, because the 400 raised inside the [try] block is
    caught by the handler's own [except Exception]; every other failure of
    the search gets 500 too. *)
Theorem get_material_price_status
  (embedding_similarity : string -> string -> result Q) (settings : Settings)
  (db : Store) (query : string) (region unit : option string)
  (quality_score : option Z) (vendor : option string) (limit : nat) :
  let answer :=
    Main.get_material_price embedding_similarity settings db query region unit
                            quality_score vendor limit in
  (forall status, answer = Main.HTTPException status -> status = 500%nat) /\
  (Forall (fun c => is_space c = true) (chars query) ->
   answer = Main.HTTPException 500) /\
  (forall rs, answer = Main.Body rs ->
              Main.blank query = false /\
              MaterialService.search_materials embedding_similarity settings
                db query region unit quality_score vendor limit = Ok rs).
Proof.
  cbv zeta. unfold Main.get_material_price. split; [|split].
  - intros status.
    destruct (Main.blank query); cbn [Main.guard].
    + intros [= <-]. reflexivity.
    + destruct (MaterialService.search_materials _ _ _ _ _ _ _ _ _);
        cbn [Main.of_result Main.guard]; [discriminate|].
      intros [= <-]. reflexivity.
  - intros H. rewrite (blank_spaces _ H). reflexivity.
  - intros rs. destruct (Main.blank query); cbn [Main.guard]; [discriminate|].
    destruct (MaterialService.search_materials _ _ _ _ _ _ _ _ _);
      cbn [Main.of_result Main.guard]; [|discriminate].
    intros [= <-]. split; reflexivity.
Qed.

(** ** [POST /generate-proposal] *)

(** X28.  The handler does not pass the region and the project type of the
    request on: the answer and the store are those of the request without
    them, and a proposal that is returned has no region, no project type
    and the renovation VAT rate. *)
Theorem generate_proposal_route_ignores_region
  (embedding_similarity : string -> string -> result Q) (settings : Settings)
  (db : Store) (fresh_id : string) (now : Z)
  (request : Main.GenerateProposalRequest) :
  let out :=
    Main.generate_proposal embedding_similarity settings db fresh_id now
                           request in
  out = Main.generate_proposal embedding_similarity settings db fresh_id now
                               (without_region request) /\
  forall resp,
    fst out = Main.Body resp ->
    GenerateProposalResponse.region resp = None /\
    GenerateProposalResponse.project_type resp = None /\
    GenerateProposalResponse.vat_rate resp = vat_renovation settings.
Proof.
  cbv zeta. split; [reflexivity|].
  intros resp. unfold Main.generate_proposal.
  destruct (Main.blank (Main.transcript request)); [discriminate|].
  destruct (PricingService.generate_proposal _ _ _ _ _ _ _ _ _) as [r db'] eqn:E.
  cbn [fst]. destruct r as [resp'|]; cbn [Main.of_result Main.guard];
    [|discriminate].
  intros [= <-].
  assert (Hr : fst (PricingService.generate_proposal embedding_similarity
                      settings db fresh_id now (Main.transcript request)
                      (Main.user_type request) None None) = Ok resp')
    by (rewrite E; reflexivity).
  pose proof (generate_proposal_Ok _ _ _ _ _ _ _ _ _ _ Hr) as (_ & Hv & _).
  unfold PricingService.generate_proposal in Hr.
  destruct (PricingService.commits _ _ _); cbn [negb fst] in Hr;
    [|discriminate].
  apply GenerateProposalResponse_make_Ok in Hr as [-> _].
  repeat split.
Qed.

(** ** [POST /feedback] *)


(** ** [update_material_embedding] *)

Lemma update_first_facts
  (material_id : Z) (f : Material.t -> Material.t) (rows : list Material.t) :
  (forall m, Material.id (f m) = Material.id m) ->
  length (MaterialService.update_first material_id f rows) = length rows /\
  map Material.id (MaterialService.update_first material_id f rows)
  = map Material.id rows /\
  (forall m, In m rows -> Material.id m <> material_id ->
             In m (MaterialService.update_first material_id f rows)) /\
  (forall m, List.find (fun m => (Material.id m =? material_id)%Z) rows = Some m ->
             List.find (fun m => (Material.id m =? material_id)%Z)
                       (MaterialService.update_first material_id f rows)
             = Some (f m)).
Proof.
  intros Hid. induction rows as [|x rows (IHl & IHm & IHo & IHf)].
  - simpl. repeat split; try tauto. discriminate.
  - cbn [MaterialService.update_first List.find].
    destruct (Material.id x =? material_id)%Z eqn:E.
    + simpl. rewrite Hid. repeat split.
      * intros m [<- | Hm] Hne; [|right; exact Hm].
        apply Z.eqb_eq in E. congruence.
      * intros m [= <-]. rewrite E. reflexivity.
    + simpl. rewrite IHl, IHm, E. repeat split.
      * intros m [<- | Hm] Hne; [left; reflexivity | right; auto].
      * exact IHf.
Qed.

(** X30.  Updating the embedding of a material id that is not stored returns
    [False] and changes nothing.  Otherwise it returns [True]: the
    materials keep their number and their ids, the rows with another id and
    the other tables are as before, and the material found under the id
    now holds the embedding of its name and description. *)
Theorem update_material_embedding_effect
  (get_embedding_json : string -> string) (db : Store) (material_id : Z)
  (now : Z) :
  let out :=
    MaterialService.update_material_embedding get_embedding_json db
                                              material_id now in
  (get_material_by_id db material_id = None -> out = (false, db)) /\
  (forall m,
     get_material_by_id db material_id = Some m ->
     fst out = true /\
     exists m',
       get_material_by_id (snd out) material_id = Some m' /\
       Material.embedding m'
       = Some (get_embedding_json
                 (Material.material_name m ++ " " ++ Material.description m)) /\
       Material.unit_price m' = Material.unit_price m /\
       Material.material_name m' = Material.material_name m) /\
  map Material.id (materials (snd out)) = map Material.id (materials db) /\
  (forall m, In m (materials db) -> Material.id m <> material_id ->
             In m (materials (snd out))) /\
  quotes (snd out) = quotes db /\ tasks (snd out) = tasks db /\
  material_usage (snd out) = material_usage db /\
  feedback (snd out) = feedback db /\
  vendor_reliability (snd out) = vendor_reliability db.
Proof.
  cbv zeta. unfold MaterialService.update_material_embedding.
  destruct (get_material_by_id db material_id) as [m|] eqn:E.
  - cbn [fst snd materials quotes tasks material_usage feedback
         vendor_reliability].
    set (f := fun x => MaterialService.with_embedding x _ now).
    destruct (update_first_facts material_id f (materials db))
      as (_ & Hids & Hother & Hfind); [reflexivity|].
    split; [discriminate|]. split.
    + intros m0 [= <-]. split; [reflexivity|].
      exists (f m). unfold get_material_by_id in *.
      cbn [materials]. rewrite (Hfind m E). repeat split.
    + repeat split; try assumption.
  - cbn [fst snd]. split; [reflexivity|]. split; [discriminate|].
    repeat split. tauto.
Qed.

End RouteFacts.

(** * The further statements at the sample data *)

Module ExtraWitnesses.

Import Samples MaterialService PricingService FeedbackService.
Import EmbeddingFacts MaterialFacts MaterialExtras PricingExtras.
Import FeedbackExtras RouteFacts.
Local Open Scope Q_scope.

(** A text of two spaces. *)
Lemma preprocess_text_alphabet_witness :
  isascii "  " = true /\
  Forall (fun c => is_space c = true) (chars "  ") /\
  EmbeddingService.preprocess_text "  " = "".
Proof.
  assert (Ha : isascii "  " = true) by reflexivity.
  assert (H : Forall (fun c => is_space c = true) (chars "  "))
    by (repeat constructor).
  split; [exact Ha|]. split; [exact H|].
  exact (proj2 (preprocess_text_alphabet "  " Ha) H).
Defined.

(** A transcript of the Corse sample. *)
Lemma get_semantic_keywords_sound_witness :
  isascii "Install the oak floor and the oak door" = true /\
  EmbeddingService.get_semantic_keywords
    "Install the oak floor and the oak door" 2 = ["oak"; "install"] /\
  List.NoDup (EmbeddingService.get_semantic_keywords
                "Install the oak floor and the oak door" 2).
Proof.
  assert (Ha : isascii "Install the oak floor and the oak door" = true)
    by reflexivity.
  split; [exact Ha|]. split; [reflexivity|].
  exact (proj1 (proj2 (get_semantic_keywords_sound
                         "Install the oak floor and the oak door" 2 Ha))).
Defined.

(** The query "tile" against a tile. *)
Lemma _text_similarity_bands_witness :
  contains (lower "tile") (lower "Ceramic Wall Tile")
  || contains (lower "tile") (lower "white") = true /\
  _text_similarity "tile" "Ceramic Wall Tile" "white" = 9 # 10.
Proof.
  assert (H : contains (lower "tile") (lower "Ceramic Wall Tile")
              || contains (lower "tile") (lower "white") = true)
    by reflexivity.
  split; [exact H|].
  exact (proj1 (_text_similarity_bands "tile" "Ceramic Wall Tile" "white") H).
Defined.

(** A row without a stored embedding. *)
Lemma _calculate_similarity_score_cases_witness :
  truthy (Material.embedding (row 1 "Oak wood board" "solid oak" 10 "Corse" None))
  = false /\
  _calculate_similarity_score no_embedding
    (row 1 "Oak wood board" "solid oak" 10 "Corse" None) "oak"
  == _text_similarity "oak" "Oak wood board" "solid oak".
Proof.
  split; [reflexivity|].
  exact (proj2 (proj2 (_calculate_similarity_score_cases no_embedding
                         (row 1 "Oak wood board" "solid oak" 10 "Corse" None)
                         "oak")) eq_refl).
Defined.

(** The configured weights, similarities 0.1 and 0.9. *)
Lemma confidence_monotone_in_similarity_witness :
  (forall w, confidence_weights settings !! "semantic_similarity" = Some w ->
             0 <= w) /\
  1 # 10 <= 9 # 10 /\
  _calculate_confidence_score (confidence_weights settings)
    (row 1 "Oak wood board" "solid oak" 10 "Corse" None) (1 # 10) (Some "Corse")
  <= _calculate_confidence_score (confidence_weights settings)
       (row 1 "Oak wood board" "solid oak" 10 "Corse" None) (9 # 10)
       (Some "Corse").
Proof.
  assert (Hw : forall w,
             confidence_weights settings !! "semantic_similarity" = Some w ->
             0 <= w).
  { intros w.
    change (confidence_weights settings !! "semantic_similarity")
      with (Some (40 # 100)).
    intros [= <-]. lra. }
  assert (Hs : 1 # 10 <= 9 # 10) by lra.
  split; [exact Hw|]. split; [exact Hs|].
  exact (confidence_monotone_in_similarity (confidence_weights settings)
           (row 1 "Oak wood board" "solid oak" 10 "Corse" None) (Some "Corse")
           (1 # 10) (9 # 10) Hw Hs).
Defined.

(** A similarity of one half. *)
Lemma configured_confidence_is_weighted_sum_witness :
  0 <= 1 # 2 <= 1 /\
  _calculate_confidence_score (confidence_weights settings)
    (row 1 "Oak wood board" "solid oak" 10 "Corse" (Some "Leroy Merlin"))
    (1 # 2) (Some "Corse")
  == (1 # 2) * (40 # 100)
     + regional_match (Some "Corse") "Corse" * (25 # 100)
     + _validate_price_range 10 * (20 # 100)
     + _get_vendor_reliability (Some "Leroy Merlin") * (15 # 100).
Proof.
  assert (H : 0 <= 1 # 2 <= 1) by lra.
  split; [exact H|].
  exact (configured_confidence_is_weighted_sum
           (row 1 "Oak wood board" "solid oak" 10 "Corse" (Some "Leroy Merlin"))
           (1 # 2) (Some "Corse") H).
Defined.

(** One vendor in two spellings. *)
Lemma _get_vendor_reliability_case_insensitive_witness :
  lower "Leroy Merlin Ajaccio" = lower "LEROY MERLIN AJACCIO" /\
  _get_vendor_reliability (Some "Leroy Merlin Ajaccio")
  = _get_vendor_reliability (Some "LEROY MERLIN AJACCIO").
Proof.
  split; [reflexivity|].
  exact (proj1 (_get_vendor_reliability_case_insensitive
                  "Leroy Merlin Ajaccio" "LEROY MERLIN AJACCIO" eq_refl)).
Defined.

(** Two regions in two spellings. *)
Lemma regional_match_symmetric_witness :
  isascii "Corse" = true /\ isascii "Haute-Corse" = true /\
  isascii "CORSE" = true /\ isascii "haute-corse" = true /\
  lower "Corse" = lower "CORSE" /\
  lower "Haute-Corse" = lower "haute-corse" /\
  regional_match (Some "Corse") "Haute-Corse"
  = regional_match (Some "CORSE") "haute-corse".
Proof.
  repeat (split; [reflexivity|]).
  exact (proj2 (regional_match_symmetric "Corse" "Haute-Corse" "CORSE"
                  "haute-corse") eq_refl eq_refl eq_refl eq_refl eq_refl
               eq_refl).
Defined.

(** A search in Corse for the vendor of the oak board. *)
Lemma search_materials_respects_filters_witness :
  exists rs r,
    search_materials no_embedding settings corse_store "wood" (Some "Corse")
                     None (Some 5%Z) (Some "Leroy Merlin") 3 = Ok rs /\
    In r rs /\
    (truthy (Some "Corse") = true ->
     Some (MaterialPriceResponse.region r) = Some "Corse") /\
    (truthy None = true -> Some (MaterialPriceResponse.unit r) = None) /\
    (truthy (Some "Leroy Merlin") = true ->
     MaterialPriceResponse.vendor r = Some "Leroy Merlin") /\
    (forall q, Some 5%Z = Some q -> q <> 0%Z ->
               exists mq, MaterialPriceResponse.quality_score r = Some mq /\
                          (q <= mq)%Z).
Proof.
  eexists _, _.
  split; [vm_compute; reflexivity|].
  split; [left; reflexivity|].
  eapply (search_materials_respects_filters no_embedding settings corse_store
            "wood" (Some "Corse") None (Some 5%Z) (Some "Leroy Merlin") 3).
  - vm_compute; reflexivity.
  - left; reflexivity.
Defined.

(** A duration without a number. *)
Lemma _parse_duration_to_hours_default_witness :
  isascii "a day or so" = true /\
  Forall (fun c => is_digit c = false) (chars "a day or so") /\
  _parse_duration_to_hours "a day or so" = 8.
Proof.
  assert (Ha : isascii "a day or so" = true) by reflexivity.
  assert (H : Forall (fun c => is_digit c = false) (chars "a day or so"))
    by (repeat constructor).
  split; [exact Ha|]. split; [exact H|].
  exact (_parse_duration_to_hours_default "a day or so" Ha H).
Defined.

(** A tiling task, with a tiling rate and no general rate. *)
Lemma pricing_without_general_rate_witness :
  default_labor_rates settings_without_general !! "general" = None /\
  default_labor_rates settings_without_general !! "tiling" = Some (45 # 1) /\
  _calculate_task_pricing settings_without_general tiling_task None None
  = fallback_task tiling_task.
Proof.
  assert (H : default_labor_rates settings_without_general !! "general" = None)
    by reflexivity.
  split; [exact H|]. split; [reflexivity|].
  exact (pricing_without_general_rate settings_without_general tiling_task
           None None H).
Defined.

(** The tiling task priced in Corse. *)
Lemma margin_covers_costs_witness :
  0 <= base_margin settings /\
  materials_cost (_calculate_task_pricing settings tiling_task (Some "Corse") None)
  * _get_regional_multiplier settings (Some "Corse")
  + labor_of (_calculate_task_pricing settings tiling_task (Some "Corse") None)
  <= Task.margin_protected_price
       (_calculate_task_pricing settings tiling_task (Some "Corse") None).
Proof.
  assert (H : 0 <= base_margin settings) by (simpl; lra).
  split; [exact H|].
  exact (margin_covers_costs settings tiling_task (Some "Corse") None H).
Defined.

(** One item with a score of 0.9. *)
Lemma _calculate_task_confidence_range_witness :
  Forall (fun m => 0 <= MaterialItem.confidence_score m <= 1)
         [item_of "tiling" ceramic_tile] /\
  15 # 100 <= _calculate_task_confidence [item_of "tiling" ceramic_tile] "tiling"
  <= 97 # 100.
Proof.
  assert (H : Forall (fun m => 0 <= MaterialItem.confidence_score m <= 1)
                     [item_of "tiling" ceramic_tile]).
  { constructor; [|constructor]. simpl. lra. }
  split; [exact H|].
  exact (_calculate_task_confidence_range [item_of "tiling" ceramic_tile]
           "tiling" H).
Defined.

(** The Corse proposal in its store. *)
Lemma generate_proposal_stores_witness :
  exists resp q,
    fst corse_proposal = Ok resp /\
    proposal_stored corse_store (snd corse_proposal) "q-1"
      (priced_tasks no_embedding settings corse_store corse_transcript
                    (Some "Corse") None) q /\
    Quote.total_estimate q = GenerateProposalResponse.total_estimate resp /\
    Quote.confidence_score q = GenerateProposalResponse.confidence_score resp.
Proof.
  assert (Hr : exists resp, fst corse_proposal = Ok resp)
    by (eexists; vm_compute; reflexivity).
  destruct Hr as [resp Hr].
  destruct (generate_proposal_stores no_embedding settings corse_store "q-1"
              0%Z corse_transcript CONTRACTOR (Some "Corse") None)
    as (_ & _ & _ & _ & Hresp).
  destruct (Hresp resp Hr) as (q & Hs & Ht & Hc).
  exists resp, q.
  split; [exact Hr|]. split; [exact Hs|]. split; [exact Ht | exact Hc].
Defined.

(** The Corse proposal is returned, with tasks and a total above 80. *)
Lemma configured_proposal_is_positive_witness :
  exists resp,
    fst corse_proposal = Ok resp /\
    GenerateProposalResponse.tasks resp <> [] /\
    80 <= GenerateProposalResponse.total_estimate resp.
Proof.
  assert (Hr : exists resp, fst corse_proposal = Ok resp)
    by (eexists; vm_compute; reflexivity).
  destruct Hr as [resp Hr].
  exists resp. split; [exact Hr|].
  exact (proj2 (configured_proposal_is_positive no_embedding corse_store "q-1"
                  0%Z corse_transcript CONTRACTOR (Some "Corse") None)
               resp Hr).
Defined.

(** A second proposal, stored next to the first. *)
Lemma generated_quote_is_found_witness :
  exists resp q,
    Forall (fun q => Quote.id q <> "q-2") (quotes corse_stored) /\
    fst (generate_proposal no_embedding settings corse_stored "q-2" 5
           "paint the wall" CLIENT None None) = Ok resp /\
    get_quote_by_id
      (snd (generate_proposal no_embedding settings corse_stored "q-2" 5
              "paint the wall" CLIENT None None)) "q-2" = Some q /\
    Quote.total_estimate q = GenerateProposalResponse.total_estimate resp.
Proof.
  assert (Hf : Forall (fun q => Quote.id q <> "q-2") (quotes corse_stored)).
  { vm_compute. repeat constructor. discriminate. }
  assert (Hr : exists resp,
             fst (generate_proposal no_embedding settings corse_stored "q-2" 5
                    "paint the wall" CLIENT None None) = Ok resp)
    by (eexists; vm_compute; reflexivity).
  destruct Hr as [resp Hr].
  destruct (generated_quote_is_found no_embedding settings corse_stored "q-2"
              5%Z "paint the wall" CLIENT None None resp Hf Hr)
    as (q & Hq & Ht & _).
  exists resp, q.
  split; [exact Hf|]. split; [exact Hr|]. split; [exact Hq | exact Ht].
Defined.

(** Feedback on the stored Corse quote. *)
Lemma process_feedback_never_answers_witness :
  exists quote,
    get_quote_by_id corse_stored "q-1" = Some quote /\
    process_feedback corse_stored "f-1" 9 "q-1" CLIENT MODIFIED None None None
    = (Raise (DataError "feedback"), corse_stored).
Proof.
  assert (Hq : exists quote, get_quote_by_id corse_stored "q-1" = Some quote)
    by (eexists; vm_compute; reflexivity).
  destruct Hq as [quote Hq].
  destruct (process_feedback_never_answers corse_stored "f-1" 9%Z "q-1" CLIENT
              MODIFIED None None None) as (Hs & _ & Hf & _).
  exists quote. split; [exact Hq|].
  rewrite (surjective_pairing (process_feedback _ _ _ _ _ _ _ _ _)).
  rewrite Hs, (Hf quote Hq). reflexivity.
Defined.

(** A rejected quote of value 1500, at confidence 0.1 and 0.9. *)
Lemma impact_score_and_confidence_witness :
  0 <= Quote.total_estimate (with_total free_quote 1500) /\
  1 # 10 <= 9 # 10 /\
  is_negative REJECTED = true /\
  _calculate_impact_score REJECTED CLIENT
    (with_confidence (with_total free_quote 1500) (9 # 10))
  <= _calculate_impact_score REJECTED CLIENT
       (with_confidence (with_total free_quote 1500) (1 # 10)).
Proof.
  assert (Ht : 0 <= Quote.total_estimate (with_total free_quote 1500))
    by (simpl; lra).
  assert (Hc : 1 # 10 <= 9 # 10) by lra.
  split; [exact Ht|]. split; [exact Hc|]. split; [reflexivity|].
  exact (proj1 (impact_score_and_confidence REJECTED CLIENT
                  (with_total free_quote 1500) (1 # 10) (9 # 10) Ht Hc)
               eq_refl).
Defined.

(** The three roles on a quote of value 1500. *)
Lemma impact_score_by_role_witness :
  Quote.confidence_score (with_total free_quote 1500) <= 1 /\
  _calculate_impact_score OVERPRICED CLIENT (with_total free_quote 1500)
  <= _calculate_impact_score OVERPRICED ARCHITECT (with_total free_quote 1500) /\
  _calculate_impact_score OVERPRICED ARCHITECT (with_total free_quote 1500)
  <= _calculate_impact_score OVERPRICED CONTRACTOR (with_total free_quote 1500).
Proof.
  assert (H : Quote.confidence_score (with_total free_quote 1500) <= 1)
    by (simpl; lra).
  split; [exact H|].
  exact (impact_score_by_role OVERPRICED (with_total free_quote 1500) H).
Defined.

(** One pricing remark on the labor. *)
Lemma insights_echo_pricing_feedback_witness :
  In ("labor", "too high") (default [] (Some [("labor", "too high")])) /\
  In ("Pricing feedback on " ++ "labor" ++ ": " ++ "too high")
     (_generate_learning_insights free_quote ACCEPTED None None
                                  (Some [("labor", "too high")])).
Proof.
  assert (H : In ("labor", "too high")
                 (default [] (Some [("labor", "too high")])))
    by (left; reflexivity).
  split; [exact H|].
  exact (proj2 (insights_echo_pricing_feedback free_quote ACCEPTED None None
                  (Some [("labor", "too high")])) "labor" "too high" H).
Defined.

(** Three events on a vendor with four quotes, two of them accepted. *)
Lemma vendor_record_after_replay_witness :
  [true; false; true] <> [] /\
  vendor_reliability vendor_store !! "Leroy Merlin" = Some leroy_record /\
  (0 <= VendorReliability.accepted_quotes leroy_record
   <= VendorReliability.total_quotes leroy_record)%Z /\
  (VendorReliability.total_quotes leroy_record
   + Z.of_nat (length [true; false; true]) <= 2147483647)%Z /\
  exists db' r,
    replay "Leroy Merlin" 3 [true; false; true] vendor_store = Ok db' /\
    vendor_reliability db' !! "Leroy Merlin" = Some r /\
    VendorReliability.total_quotes r = 7%Z /\
    VendorReliability.accepted_quotes r = 4%Z /\
    0 <= VendorReliability.reliability_score r <= 1.
Proof.
  assert (Hne : [true; false; true] <> []) by discriminate.
  assert (H0 : vendor_reliability vendor_store !! "Leroy Merlin"
               = Some leroy_record) by reflexivity.
  assert (Hc : (0 <= VendorReliability.accepted_quotes leroy_record
                <= VendorReliability.total_quotes leroy_record)%Z)
    by (simpl; lia).
  assert (Hm : (VendorReliability.total_quotes leroy_record
                + Z.of_nat (length [true; false; true]) <= 2147483647)%Z)
    by (simpl; lia).
  split; [exact Hne|]. split; [exact H0|]. split; [exact Hc|].
  split; [exact Hm|].
  destruct (proj2 (vendor_record_after_replay "Leroy Merlin" 3%Z
                     [true; false; true] vendor_store Hne)
                  leroy_record H0 eq_refl Hc Hm)
    as (db' & r & Hrun & Hr & Ht & Ha & _ & Hs).
  exists db', r. split; [exact Hrun|]. split; [exact Hr|].
  split; [exact Ht|]. split; [exact Ha | exact Hs].
Defined.

(** An update of one of two vendor records. *)
Lemma update_vendor_reliability_is_local_witness :
  keyed_by_name vendor_store /\
  exists db',
    update_vendor_reliability vendor_store "Weldom" true 4 = Ok db' /\
    vendor_reliability db' !! "Leroy Merlin" = Some leroy_record /\
    keyed_by_name db'.
Proof.
  assert (H : keyed_by_name vendor_store).
  { intros v r. unfold vendor_store. cbn [vendor_reliability].
    rewrite lookup_insert. case_decide as Hd.
    - intros [= <-]. exact Hd.
    - rewrite lookup_insert. case_decide as Hd'.
      + intros [= <-]. exact Hd'.
      + rewrite lookup_empty. discriminate. }
  split; [exact H|].
  assert (Hu : exists db',
             update_vendor_reliability vendor_store "Weldom" true 4 = Ok db')
    by (eexists; reflexivity).
  destruct Hu as [db' Hu]. exists db'. split; [exact Hu|].
  destruct (update_vendor_reliability_is_local vendor_store db' "Weldom" true
              4%Z H Hu) as (_ & Ho & Hk & _).
  split; [|exact Hk].
  rewrite (Ho "Leroy Merlin"); [reflexivity | discriminate].
Defined.

(** A query of three spaces. *)
Lemma get_material_price_status_witness :
  Forall (fun c => is_space c = true) (chars "   ") /\
  Main.get_material_price no_embedding settings corse_store "   " None None
                          None None 5
  = Main.HTTPException 500.
Proof.
  assert (H : Forall (fun c => is_space c = true) (chars "   "))
    by (repeat constructor).
  split; [exact H|].
  exact (proj1 (proj2 (get_material_price_status no_embedding settings
                         corse_store "   " None None None None 5)) H).
Defined.

(** A request for a new build in Corse. *)
Lemma generate_proposal_route_ignores_region_witness :
  exists resp,
    fst (Main.generate_proposal no_embedding settings corse_store "q-1" 0
                                new_build_request) = Main.Body resp /\
    GenerateProposalResponse.region resp = None /\
    GenerateProposalResponse.project_type resp = None /\
    GenerateProposalResponse.vat_rate resp = vat_renovation settings.
Proof.
  assert (Hr : exists resp,
             fst (Main.generate_proposal no_embedding settings corse_store
                    "q-1" 0 new_build_request) = Main.Body resp)
    by (eexists; vm_compute; reflexivity).
  destruct Hr as [resp Hr].
  exists resp. split; [exact Hr|].
  exact (proj2 (generate_proposal_route_ignores_region no_embedding settings
                  corse_store "q-1" 0%Z new_build_request) resp Hr).
Defined.


(** An id that is not stored, and one that is. *)
Lemma update_material_embedding_effect_witness :
  get_material_by_id corse_store 9 = None /\
  update_material_embedding fake_embedding corse_store 9 7 = (false, corse_store) /\
  exists m,
    get_material_by_id corse_store 1 = Some m /\
    fst (update_material_embedding fake_embedding corse_store 1 7) = true.
Proof.
  assert (H9 : get_material_by_id corse_store 9 = None) by reflexivity.
  split; [exact H9|].
  split;
    [exact (proj1 (update_material_embedding_effect fake_embedding corse_store
                     9%Z 7%Z) H9)|].
  assert (H1 : exists m, get_material_by_id corse_store 1 = Some m)
    by (eexists; reflexivity).
  destruct H1 as [m H1]. exists m. split; [exact H1|].
  exact (proj1 (proj1 (proj2 (update_material_embedding_effect fake_embedding
                                corse_store 1%Z 7%Z)) m H1)).
Defined.

End ExtraWitnesses.
